(** * DBLP scraper: link classification, record extraction, deduplication,
      volume parsing and author-country resolution.

    Shallow embedding of the decision logic of [conf_scrapper.py],
    [dblp_journals_scrapper.py] and [get_countries_conf_updated.py].

    Text is modelled by [string] over [ascii]: the case map, the whitespace
    class and the regular-expression classes are the ones Python applies to
    code points below 128. *)

From Stdlib Require Import Bool List Ascii String Arith Lia.
From stdpp Require Import base option list strings gmap.
Import ListNotations.
Local Open Scope string_scope.

(** ** Python string primitives *)

Module Str.

(** [s.startswith(p)] *)
Fixpoint startswith (p s : string) : bool :=
  match p, s with
  | EmptyString, _ => true
  | String a p', String b s' => if Ascii.eqb a b then startswith p' s' else false
  | String _ _, EmptyString => false
  end.

(** [p in s] *)
Fixpoint is_in (p s : string) : bool :=
  startswith p s ||
  match s with
  | EmptyString => false
  | String _ s' => is_in p s'
  end.

Definition is_upper (c : ascii) : bool :=
  let n := nat_of_ascii c in (Nat.leb 65 n) && (Nat.leb n 90).

Definition lower_char (c : ascii) : ascii :=
  if is_upper c then ascii_of_nat (nat_of_ascii c + 32) else c.

(** [s.lower()] *)
Fixpoint lower (s : string) : string :=
  match s with
  | EmptyString => EmptyString
  | String c s' => String (lower_char c) (lower s')
  end.

(** [c.isspace()] on code points below 128 *)
Definition is_space (c : ascii) : bool :=
  let n := nat_of_ascii c in
  (Nat.leb 9 n && Nat.leb n 13) || (Nat.leb 28 n && Nat.leb n 32).

Fixpoint lstrip (s : string) : string :=
  match s with
  | EmptyString => EmptyString
  | String c s' => if is_space c then lstrip s' else s
  end.

(** [s.rstrip()]: a character is dropped when it and everything after it
    is whitespace. *)
Fixpoint rstrip (s : string) : string :=
  match s with
  | EmptyString => EmptyString
  | String c s' =>
      match rstrip s' with
      | EmptyString => if is_space c then EmptyString else String c EmptyString
      | r => String c r
      end
  end.

(** [s.rstrip(ch)] for a one-character argument *)
Fixpoint rstrip_char (ch : ascii) (s : string) : string :=
  match s with
  | EmptyString => EmptyString
  | String c s' =>
      match rstrip_char ch s' with
      | EmptyString => if Ascii.eqb c ch then EmptyString else String c EmptyString
      | r => String c r
      end
  end.

(** [s.strip()] *)
Definition strip (s : string) : string := rstrip (lstrip s).

(** [s.split(sep)] for a one-character separator: never an empty list. *)
Fixpoint split (sep : ascii) (s : string) : list string :=
  match s with
  | EmptyString => [EmptyString]
  | String c s' =>
      if Ascii.eqb c sep then EmptyString :: split sep s'
      else match split sep s' with
           | h :: t => String c h :: t
           | [] => [String c EmptyString]
           end
  end.

(** Python truthiness of a string *)
Definition truthy (s : string) : bool :=
  match s with EmptyString => false | _ => true end.

(** [len(s) > n] *)
Definition longer_than (n : nat) (s : string) : bool := Nat.ltb n (String.length s).

(** [any(p in s for p in ps)] *)
Definition any_in (ps : list string) (s : string) : bool :=
  existsb (fun p => is_in p s) ps.

End Str.


(** ** The regular expressions of the scrapers, as matchers

    [re.search] tries every start position from the left; each matcher below
    decides one pattern at one position. [prev] is the character before the
    position, needed by [\b]. *)

Module Re.
Import Str.

Definition is_digit (c : ascii) : bool :=
  let n := nat_of_ascii c in Nat.leb 48 n && Nat.leb n 57.

Definition is_lower (c : ascii) : bool :=
  let n := nat_of_ascii c in Nat.leb 97 n && Nat.leb n 122.

(** [\w] *)
Definition is_word (c : ascii) : bool :=
  is_digit c || is_upper c || is_lower c || Ascii.eqb c "_".

Definition word_before (prev : option ascii) : bool :=
  match prev with Some c => is_word c | None => false end.

Definition word_at (s : string) : bool :=
  match s with String c _ => is_word c | EmptyString => false end.

(** [\b] between [prev] and the head of [s] *)
Definition boundary (prev : option ascii) (s : string) : bool :=
  xorb (word_before prev) (word_at s).

(** The character before the end of [s], when [prev] is the one before [s] *)
Fixpoint last_char (prev : option ascii) (s : string) : option ascii :=
  match s with
  | EmptyString => prev
  | String c s' => last_char (Some c) s'
  end.

(** [(19|20)] on two characters *)
Definition century (a b : ascii) : bool :=
  (Ascii.eqb a "1" && Ascii.eqb b "9") || (Ascii.eqb a "2" && Ascii.eqb b "0").

Definition str2 (a b : ascii) : string := String a (String b EmptyString).
Definition str4 (a b c d : ascii) : string := String a (String b (str2 c d)).

(** [re.search]: leftmost position where [m] matches. *)
Fixpoint search_from {A} (m : option ascii -> string -> option A)
    (prev : option ascii) (s : string) : option A :=
  match m prev s with
  | Some r => Some r
  | None =>
      match s with
      | EmptyString => None
      | String c s' => search_from m (Some c) s'
      end
  end.

Definition search {A} (m : option ascii -> string -> option A) (s : string) : option A :=
  search_from m None s.

(** [\b(19|20)\d{2}\b]; the result is [group()] *)
Definition year_at (prev : option ascii) (s : string) : option string :=
  match s with
  | String a (String b (String c (String d rest))) =>
      if boundary prev s && century a b && is_digit c && is_digit d
         && boundary (Some d) rest
      then Some (str4 a b c d) else None
  | _ => None
  end.

(** The tail [-(19|20)?\d{2}\b] of the range pattern; the optional group is
    tried first, then skipped. The result is the matched text. *)
Definition range_tail (s : string) : option string :=
  match s with
  | String h rest =>
      if Ascii.eqb h "-" then
        let with_century :=
          match rest with
          | String e (String f (String g (String i rest'))) =>
              if century e f && is_digit g && is_digit i && boundary (Some i) rest'
              then Some (String "-" (str4 e f g i)) else None
          | _ => None
          end in
        match with_century with
        | Some t => Some t
        | None =>
            match rest with
            | String e (String f rest') =>
                if is_digit e && is_digit f && boundary (Some f) rest'
                then Some (String "-" (str2 e f)) else None
            | _ => None
            end
        end
      else None
  | EmptyString => None
  end.

(** [\b(19|20)\d{2}-(19|20)?\d{2}\b]; the result is [group()] *)
Definition year_range_at (prev : option ascii) (s : string) : option string :=
  match s with
  | String a (String b (String c (String d rest))) =>
      if boundary prev s && century a b && is_digit c && is_digit d
      then match range_tail rest with
           | Some t => Some (str4 a b c d ++ t)
           | None => None
           end
      else None
  | _ => None
  end.

(** A literal matched under [re.IGNORECASE]; [lit] is given in lower case.
    The result is the text after the literal. *)
Fixpoint literal_ci (lit s : string) : option string :=
  match lit, s with
  | EmptyString, _ => Some s
  | String a lit', String b s' =>
      if Ascii.eqb a (lower_char b) then literal_ci lit' s' else None
  | String _ _, EmptyString => None
  end.

Fixpoint drop_while (f : ascii -> bool) (s : string) : string :=
  match s with
  | EmptyString => EmptyString
  | String c s' => if f c then drop_while f s' else s
  end.

Fixpoint take_while (f : ascii -> bool) (s : string) : string :=
  match s with
  | EmptyString => EmptyString
  | String c s' => if f c then String c (take_while f s') else EmptyString
  end.

(** [\s*(\d+)]; the result is group 1 *)
Definition spaces_digits (s : string) : option string :=
  match take_while is_digit (drop_while is_space s) with
  | EmptyString => None
  | ds => Some ds
  end.

(** [\.?] *)
Definition opt_dot (s : string) : string :=
  match s with
  | String c s' => if Ascii.eqb c "." then s' else s
  | EmptyString => s
  end.

(** [volume\s*(\d+)] with [re.IGNORECASE]; the result is group 1 *)
Definition volume_at (_ : option ascii) (s : string) : option string :=
  match literal_ci "volume" s with
  | Some r => spaces_digits r
  | None => None
  end.

(** [vol\.?\s*(\d+)] with [re.IGNORECASE]; the result is group 1 *)
Definition vol_at (_ : option ascii) (s : string) : option string :=
  match literal_ci "vol" s with
  | Some r =>
      match spaces_digits (opt_dot r) with
      | Some ds => Some ds
      | None => spaces_digits r
      end
  | None => None
  end.

End Re.

(** ** Conference scraper ([conf_scrapper.py]) *)

Module ConfScraper.
Import Str.

(** *** [is_valid_content_link] *)

Definition skip_patterns : list string :=
  [ "bibtex"; "ris"; "rdf"; "xml"; "endnote"; ".nt"; ".ttl";
    "google.com"; "scholar.google"; "semanticscholar";
    "citeseer"; "pubpeer"; "reddit.com"; "linkedin.com";
    "bibsonomy"; "bluesky"; "twitter.com"; "doi.org";
    "usenix.org"; "acm.org"; "ieee.org" ].

Definition valid_patterns : list string :=
  [ "/db/conf/"; "/db/journals/"; "contents"; "proceedings" ].

(** The [for pattern in skip_patterns] loop; [true] stands for the
    [return False] inside it. *)
Fixpoint skip_loop (pats : list string) (url : string) : bool :=
  match pats with
  | [] => false
  | pattern :: rest =>
      if is_in pattern (lower url) then true else skip_loop rest url
  end.

Definition is_valid_content_link (url : string) : bool :=
  if negb (truthy url) then false
  else if negb (is_in "dblp.org" url) then false
  else if skip_loop skip_patterns url then false
  else any_in valid_patterns url.

(** The characterisation with every test read on [url] itself. *)
Definition contains_read_content_link (url : string) : Prop :=
  is_in "dblp.org" url = true /\
  Forall (fun p => is_in p url = false) skip_patterns /\
  Exists (fun p => is_in p url = true) valid_patterns.

(** The characterisation with the skip patterns looked for in the
    lowercased [url]. *)
Definition decided_content_link (url : string) : Prop :=
  is_in "dblp.org" url = true /\
  Forall (fun p => is_in p (lower url) = false) skip_patterns /\
  Exists (fun p => is_in p url = true) valid_patterns.

(** *** What the driver shows of one [li.entry] node *)

Inductive exn := NoSuchElementException | WebDriverException.

Inductive outcome (A : Type) := Ok (a : A) | Raise (e : exn).
Arguments Ok {A} a.
Arguments Raise {A} e.

(** [span[itemprop='name']] inside an author span *)
Record NameSpan := {
  name_title : option string;        (* get_attribute("title") *)
  name_text : string                 (* .text *)
}.

Record AuthorSpan := {
  author_name_span : outcome NameSpan;  (* find_element, may raise *)
  author_text : string                  (* .text *)
}.

Record Element := {
  class_attr : outcome (option string);      (* get_attribute("class") *)
  author_spans : outcome (list AuthorSpan);   (* find_elements(span[itemprop='author']) *)
  title_span : outcome string;                (* find_element(span.title).text *)
  headline_span : outcome string;             (* [itemprop='headline'] span.title, .text *)
  cite_elem : outcome string;                 (* find_element(cite).text *)
  rec_link : outcome string;                  (* a[href*='/rec/'], its href *)
  anchors : outcome (list (option string));   (* every a, its href *)
  text : outcome string;                      (* element.text *)
  pages_found : option string;                (* group 1 of the pages searches on text *)
  location_found : option string              (* group() of the location searches on text *)
}.

(** *** [is_paper_entry] *)

Definition paper_indicators : list string := ["inproceedings"; "article"; "incollection"].

Definition or_empty (o : option string) : string :=
  match o with Some s => s | None => EmptyString end.

(** The two inner [try] blocks: a raise is passed over. *)
Definition has_authors (element : Element) : bool :=
  match author_spans element with
  | Ok authors => Nat.ltb 0 (List.length authors)
  | Raise _ => false
  end.

Definition has_substantial_title (element : Element) : bool :=
  match title_span element with
  | Ok t => longer_than 10 (strip t)
  | Raise _ => false
  end.

Definition is_paper_entry (element : Element) : bool :=
  match class_attr element with
  | Raise _ => false
  | Ok c =>
      let classes := or_empty c in
      if is_in "editor" classes || is_in "toc" classes then false
      else if existsb (fun indicator => is_in indicator classes) paper_indicators then true
      else if has_authors element then true
      else if has_substantial_title element then true
      else false
  end.

(** The cascade as the specification words it, on a node whose class
    attribute could be read, with the test of rule (4) left open:
    [title_text_exceeds_10] is that test on the title text as it is. *)
Definition editorial (classes : string) : bool :=
  is_in "editor" classes || is_in "toc" classes.

Definition publication_type (classes : string) : bool :=
  any_in paper_indicators classes.

Definition title_text_exceeds_10 (element : Element) : bool :=
  match title_span element with
  | Ok t => longer_than 10 t
  | Raise _ => false
  end.

Definition cascade (rule4 : Element -> bool) (classes : string) (element : Element) : bool :=
  if editorial classes then false
  else if publication_type classes then true
  else if has_authors element then true
  else if rule4 element then true
  else false.

(** *** [extract_paper_data] *)

Record Paper := {
  name : string;
  authors : string;
  conference_href : string;
  paper_href : string;
  year : string;
  isbn : string;
  pages : string;
  conference_location : string;
  created_at : string;
  conference_processed : string;
  edition_name : string
}.

Definition newline : ascii := ascii_of_nat 10.

(** The [for line in lines] loop of the last-resort title *)
Fixpoint first_title_line (lines : list string) : string :=
  match lines with
  | [] => EmptyString
  | line :: rest =>
      if longer_than 20 line && negb (startswith "http" line)
      then rstrip_char "." (strip line)
      else first_title_line rest
  end.

Definition extract_title (element : Element) : string :=
  match title_span element with
  | Ok t => strip t
  | Raise _ =>
      match headline_span element with
      | Ok t => strip t
      | Raise _ =>
          match cite_elem element with
          | Ok t => first_title_line (split newline (strip t))
          | Raise _ => EmptyString
          end
      end
  end.

Definition author_of (auth_elem : AuthorSpan) : list string :=
  match author_name_span auth_elem with
  | Ok name_elem =>
      let author_name :=
        match name_title name_elem with
        | Some t => if truthy t then t else name_text name_elem
        | None => name_text name_elem
        end in
      if truthy author_name && truthy (strip author_name)
      then [strip author_name] else []
  | Raise _ =>
      let author_name := strip (author_text auth_elem) in
      if truthy author_name then [author_name] else []
  end.

Definition extract_authors (element : Element) : string :=
  match author_spans element with
  | Ok author_elements => String.concat ", " (List.concat (List.map author_of author_elements))
  | Raise _ => EmptyString
  end.

Fixpoint first_rec_href (links : list (option string)) : string :=
  match links with
  | [] => EmptyString
  | Some href :: rest =>
      if truthy href && is_in "/rec/" href then href else first_rec_href rest
  | None :: rest => first_rec_href rest
  end.

Definition extract_paper_href (element : Element) : string :=
  match rec_link element with
  | Ok href => href
  | Raise _ =>
      match anchors element with
      | Ok links => first_rec_href links
      | Raise _ => EmptyString
      end
  end.

Definition extract_year (element : Element) : string :=
  match text element with
  | Ok cite_text =>
      match Re.search Re.year_at cite_text with
      | Some y => y
      | None => EmptyString
      end
  | Raise _ => EmptyString
  end.

(** Every raising operation sits in an inner [try], so the outer handler
    and its [return None] are never reached. *)
Definition extract_paper_data (element : Element) (conference_name page_url : string)
  : option Paper :=
  Some {| name := extract_title element;
          authors := extract_authors element;
          conference_href := page_url;
          paper_href := extract_paper_href element;
          year := extract_year element;
          isbn := EmptyString;
          pages := or_empty (pages_found element);
          conference_location := or_empty (location_found element);
          created_at := EmptyString;
          conference_processed := conference_name;
          edition_name := EmptyString |}.

(** *** Record-level deduplication *)

Definition paper_key (paper : Paper) : string * string :=
  (strip (lower (name paper)), strip (lower (authors paper))).

(** One turn of the [for paper in papers] loop over
    [(unique_papers, seen_papers)] *)
Definition dedup_step (acc : list Paper * gset (string * string)) (paper : Paper)
  : list Paper * gset (string * string) :=
  let '(unique_papers, seen_papers) := acc in
  if bool_decide (paper_key paper ∉ seen_papers) && truthy (strip (name paper))
  then ((unique_papers ++ [paper])%list, {[paper_key paper]} ∪ seen_papers)
  else acc.

Definition dedup_papers (papers : list Paper) : list Paper :=
  fst (fold_left dedup_step papers ([], ∅)).

(** What the pass keeps of [papers] when [seen] holds the keys met so
    far, by recursion on the input *)
Fixpoint first_occurrences (seen : gset (string * string)) (papers : list Paper)
  : list Paper :=
  match papers with
  | [] => []
  | paper :: rest =>
      if bool_decide (paper_key paper ∉ seen) && truthy (strip (name paper))
      then paper :: first_occurrences ({[paper_key paper]} ∪ seen) rest
      else first_occurrences seen rest
  end.

(** *** The persistence sink *)

Record Sink := {
  db_file : bool;              (* DBLP.db exists *)
  conf_papers_table : bool;    (* the table exists in it *)
  rows : list Paper            (* the records handed to INSERT, oldest first *)
}.

Definition stamped (now : string) (paper : Paper) : Paper :=
  {| name := name paper; authors := authors paper;
     conference_href := conference_href paper; paper_href := paper_href paper;
     year := year paper; isbn := isbn paper; pages := pages paper;
     conference_location := conference_location paper;
     created_at := now;
     conference_processed := conference_processed paper;
     edition_name := edition_name paper |}.

Section Run.
(** [datetime.now().isoformat()], by the number of rows handed so far *)
Variable now : nat -> string.
(** [driver.get] followed by the three [find_elements] selections:
    [li.entry.inproceedings], [li.entry.article], [li.entry] *)
Variable web : string -> outcome (list Element * list Element * list Element).

(** [insert_conf_paper]: the dictionary is the caller's, so the default
    written to [created_at] is seen by the caller; the updated record is
    returned next to the sink. Without the file the function returns at
    once; without the table the INSERT raises and is caught. On a table
    that exists the record is handed to INSERT: [rows] lists the records
    handed over, not what the engine keeps of them. *)
Definition insert_conf_paper (paper_dict : Paper) (db : Sink) : Paper * Sink :=
  if negb (db_file db) then (paper_dict, db)
  else
    let paper_dict' :=
      if truthy (created_at paper_dict) then paper_dict
      else stamped (now (List.length (rows db))) paper_dict in
    if conf_papers_table db
    then (paper_dict',
          {| db_file := true; conf_papers_table := true;
             rows := (rows db ++ [paper_dict'])%list |})
    else (paper_dict', db).

(** [save_papers_to_db]: [sqlite3.connect] creates the file. On a table
    that exists every record of the list is handed to INSERT OR REPLACE;
    [rows] lists the records handed over, not what the engine keeps of
    them. *)
Definition save_papers_to_db (papers : list Paper) (db : Sink) : Sink :=
  match papers with
  | [] => db
  | _ =>
      if conf_papers_table db
      then {| db_file := true; conf_papers_table := true;
              rows := (rows db ++ papers)%list |}
      else {| db_file := true; conf_papers_table := false; rows := rows db |}
  end.

(** One turn of the [for i, element in enumerate(paper_elements)] loop *)
Definition scrape_step (conference_name content_url : string)
    (acc : list Paper * Sink) (element : Element) : list Paper * Sink :=
  let '(papers, db) := acc in
  if is_paper_entry element then
    match extract_paper_data element conference_name content_url with
    | Some paper_data =>
        if truthy (strip (name paper_data)) then
          let '(paper_data', db') := insert_conf_paper paper_data db in
          ((papers ++ [paper_data'])%list, db')
        else acc
    | None => acc
    end
  else acc.

Definition select_elements (dom : list Element * list Element * list Element)
  : list Element :=
  let '(inproceedings, articles, entries) := dom in
  match inproceedings with
  | _ :: _ => inproceedings
  | [] => match articles with
          | _ :: _ => articles
          | [] => entries
          end
  end.

Definition scrape_papers_from_content_page (content_url conference_name : string)
    (db : Sink) : list Paper * Sink :=
  match web content_url with
  | Raise _ => ([], db)
  | Ok dom =>
      let paper_elements := select_elements dom in
      let '(papers, db') :=
        fold_left (scrape_step conference_name content_url) paper_elements ([], db) in
      (dedup_papers papers, db')
  end.

(** One turn of the [for i, link_data in enumerate(content_links)] loop
    of [run_scraper], on the url of the link *)
Definition link_step (conf_name : string) (acc : list Paper * Sink) (url : string)
  : list Paper * Sink :=
  let '(all_papers, db) := acc in
  let '(papers, db') := scrape_papers_from_content_page url conf_name db in
  match papers with
  | [] => (all_papers, db')
  | _ => let all_papers' := (all_papers ++ papers)%list in
         (all_papers', save_papers_to_db all_papers' db')
  end.

(** The body of [run_scraper] for one conference whose content links
    have been collected *)
Definition run_conference (conf_name : string) (content_links : list string) (db : Sink)
  : list Paper * Sink :=
  let '(all_papers, db') := fold_left (link_step conf_name) content_links ([], db) in
  (all_papers, save_papers_to_db all_papers db').

End Run.

(** The database file and the table are there, so every insert is a row. *)
Definition table_open (db : Sink) : Prop :=
  db_file db = true /\ conf_papers_table db = true.

(** No two of [ps] carry the same key. *)
Definition unique_keys (ps : list Paper) : Prop := NoDup (List.map paper_key ps).

End ConfScraper.

(** ** Journal scraper ([dblp_journals_scrapper.py]) *)

Module Journals.
Import Str.

(** Which branch of the year extraction of [extract_volume_info] assigns
    [volume_info['year']] *)
Inductive YearBranch := ExactMatch | RangeFallback | NoYear.

Definition volume_number (volume_text : string) : string :=
  match Re.search Re.volume_at volume_text with
  | Some v => v
  | None =>
      match Re.search Re.vol_at volume_text with
      | Some v => v
      | None => EmptyString
      end
  end.

Definition volume_year (volume_text : string) : YearBranch * string :=
  match Re.search Re.year_at volume_text with
  | Some y => (ExactMatch, y)
  | None =>
      match Re.search Re.year_range_at volume_text with
      | Some r => (RangeFallback, List.hd EmptyString (split "-" r))
      | None => (NoYear, EmptyString)
      end
  end.

(** The returned dictionary always carries both keys. *)
Definition extract_volume_info (volume_text : string) : gmap string string :=
  <["year" := snd (volume_year volume_text)]>
    (<["volume" := volume_number volume_text]> ∅).

(** [volume_info and key in volume_info], then [volume_info[key]] *)
Definition from_volume_info (key : string) (volume_info : option (gmap string string))
  : option string :=
  match volume_info with
  | Some d => if bool_decide (d = ∅) then None else d !! key
  | None => None
  end.

Definition year_from_text (paper_text : string) : string :=
  match Re.search Re.year_at paper_text with
  | Some y => y
  | None => EmptyString
  end.

Definition volume_from_text (paper_text : string) : string :=
  match Re.search Re.vol_at paper_text with
  | Some v => v
  | None => EmptyString
  end.

(** [extract_journal_paper_info], the keys [year] and [volume] of the
    record it builds from the text of the node *)
Definition extract_journal_paper_info (paper_text : string)
    (volume_info : option (gmap string string)) : gmap string string :=
  let paper_year :=
    match from_volume_info "year" volume_info with
    | Some y => y
    | None => year_from_text paper_text
    end in
  let paper_volume :=
    match from_volume_info "volume" volume_info with
    | Some v => v
    | None => volume_from_text paper_text
    end in
  <["volume" := paper_volume]> (<["year" := paper_year]> ∅).

(** [scrape_journal] hands the dictionary made from the text of the volume
    link down to every record of the volume. *)
Definition paper_of_volume (volume_link_text paper_text : string) : gmap string string :=
  extract_journal_paper_info paper_text (Some (extract_volume_info volume_link_text)).

End Journals.

(** ** Author-country lookup ([get_countries_conf_updated.py]) *)

Module Countries.
Import Str.

(** The keyword table of [extract_country_from_semantic_scholar], in the
    order of the dictionary display; no key occurs twice, so this is the
    order in which [items()] enumerates it. *)
Definition country_keywords : list (string * string) :=
  [ ("india", "IN"); ("delhi", "IN"); ("mumbai", "IN"); ("bangalore", "IN");
    ("chennai", "IN"); ("hyderabad", "IN"); ("kolkata", "IN"); ("pune", "IN");
    ("iit", "IN"); ("iisc", "IN"); ("indian institute", "IN"); ("nit", "IN");
    ("bits", "IN"); ("anna university", "IN"); ("pakistan", "PK"); ("karachi", "PK");
    ("lahore", "PK"); ("islamabad", "PK"); ("rawalpindi", "PK"); ("faisalabad", "PK");
    ("peshawar", "PK"); ("quetta", "PK"); ("multan", "PK"); ("gujranwala", "PK");
    ("lums", "PK"); ("nust", "PK"); ("comsats", "PK"); ("bangladesh", "BD");
    ("dhaka", "BD"); ("chittagong", "BD"); ("sylhet", "BD"); ("rajshahi", "BD");
    ("buet", "BD"); ("du", "BD"); ("sri lanka", "LK"); ("colombo", "LK");
    ("kandy", "LK"); ("moratuwa", "LK"); ("nepal", "NP"); ("kathmandu", "NP");
    ("tribhuvan", "NP"); ("china", "CN"); ("beijing", "CN"); ("shanghai", "CN");
    ("guangzhou", "CN"); ("shenzhen", "CN"); ("hangzhou", "CN"); ("nanjing", "CN");
    ("wuhan", "CN"); ("chengdu", "CN"); ("xi'an", "CN"); ("tianjin", "CN");
    ("tsinghua", "CN"); ("peking", "CN"); ("fudan", "CN"); ("zhejiang", "CN");
    ("sjtu", "CN"); ("chinese academy", "CN"); ("cas", "CN"); ("pku", "CN");
    ("japan", "JP"); ("tokyo", "JP"); ("osaka", "JP"); ("kyoto", "JP"); ("nagoya", "JP");
    ("yokohama", "JP"); ("kobe", "JP"); ("sendai", "JP"); ("sapporo", "JP");
    ("todai", "JP"); ("kyodai", "JP"); ("waseda", "JP"); ("keio", "JP"); ("korea", "KR");
    ("south korea", "KR"); ("seoul", "KR"); ("busan", "KR"); ("incheon", "KR");
    ("daegu", "KR"); ("kaist", "KR"); ("snu", "KR"); ("yonsei", "KR"); ("postech", "KR");
    ("singapore", "SG"); ("nus", "SG"); ("ntu", "SG"); ("smu", "SG"); ("malaysia", "MY");
    ("kuala lumpur", "MY"); ("johor", "MY"); ("penang", "MY"); ("um", "MY");
    ("utm", "MY"); ("usm", "MY"); ("upm", "MY"); ("thailand", "TH"); ("bangkok", "TH");
    ("chiang mai", "TH"); ("chulalongkorn", "TH"); ("indonesia", "ID");
    ("jakarta", "ID"); ("bandung", "ID"); ("surabaya", "ID"); ("itb", "ID");
    ("ui", "ID"); ("ugm", "ID"); ("philippines", "PH"); ("manila", "PH");
    ("quezon", "PH"); ("up", "PH"); ("ateneo", "PH"); ("vietnam", "VN"); ("hanoi", "VN");
    ("ho chi minh", "VN"); ("hcmc", "VN"); ("iran", "IR"); ("tehran", "IR");
    ("isfahan", "IR"); ("mashhad", "IR"); ("shiraz", "IR"); ("sharif", "IR");
    ("ut", "IR"); ("turkey", "TR"); ("istanbul", "TR"); ("ankara", "TR");
    ("izmir", "TR"); ("bogazici", "TR"); ("metu", "TR"); ("bilkent", "TR");
    ("israel", "IL"); ("tel aviv", "IL"); ("jerusalem", "IL"); ("haifa", "IL");
    ("technion", "IL"); ("hebrew university", "IL"); ("weizmann", "IL");
    ("saudi arabia", "SA"); ("riyadh", "SA"); ("jeddah", "SA"); ("kaust", "SA");
    ("king saud", "SA"); ("kfupm", "SA"); ("uae", "AE"); ("dubai", "AE");
    ("abu dhabi", "AE"); ("aub", "AE"); ("united kingdom", "GB"); ("uk", "GB");
    ("england", "GB"); ("britain", "GB"); ("cambridge", "GB"); ("oxford", "GB");
    ("london", "GB"); ("manchester", "GB"); ("edinburgh", "GB"); ("glasgow", "GB");
    ("bristol", "GB"); ("imperial", "GB"); ("ucl", "GB"); ("kcl", "GB"); ("lse", "GB");
    ("germany", "DE"); ("berlin", "DE"); ("munich", "DE"); ("hamburg", "DE");
    ("cologne", "DE"); ("frankfurt", "DE"); ("stuttgart", "DE"); ("dusseldorf", "DE");
    ("max planck", "DE"); ("tum", "DE"); ("kit", "DE"); ("rwth", "DE"); ("france", "FR");
    ("paris", "FR"); ("lyon", "FR"); ("marseille", "FR"); ("toulouse", "FR");
    ("sorbonne", "FR"); ("inria", "FR"); ("cnrs", "FR"); ("italy", "IT"); ("rome", "IT");
    ("milan", "IT"); ("naples", "IT"); ("turin", "IT"); ("bologna", "IT");
    ("florence", "IT"); ("genoa", "IT"); ("spain", "ES"); ("madrid", "ES");
    ("barcelona", "ES"); ("valencia", "ES"); ("seville", "ES"); ("upc", "ES");
    ("uam", "ES"); ("netherlands", "NL"); ("amsterdam", "NL"); ("rotterdam", "NL");
    ("utrecht", "NL"); ("delft", "NL"); ("eindhoven", "NL"); ("tue", "NL");
    ("sweden", "SE"); ("stockholm", "SE"); ("gothenburg", "SE"); ("kth", "SE");
    ("chalmers", "SE"); ("lund", "SE"); ("switzerland", "CH"); ("zurich", "CH");
    ("geneva", "CH"); ("basel", "CH"); ("eth", "CH"); ("epfl", "CH"); ("cern", "CH");
    ("russia", "RU"); ("moscow", "RU"); ("st petersburg", "RU");
    ("saint petersburg", "RU"); ("novosibirsk", "RU"); ("msu", "RU");
    ("united states", "US"); ("usa", "US"); ("america", "US"); ("u.s.", "US");
    ("california", "US"); ("texas", "US"); ("new york", "US"); ("florida", "US");
    ("mit", "US"); ("stanford", "US"); ("harvard", "US"); ("berkeley", "US");
    ("caltech", "US"); ("princeton", "US"); ("yale", "US"); ("columbia", "US");
    ("university of", "US"); ("state university", "US"); ("tech", "US");
    ("canada", "CA"); ("toronto", "CA"); ("vancouver", "CA"); ("montreal", "CA");
    ("calgary", "CA"); ("ottawa", "CA"); ("ubc", "CA"); ("mcgill", "CA");
    ("waterloo", "CA"); ("uoft", "CA"); ("australia", "AU"); ("sydney", "AU");
    ("melbourne", "AU"); ("brisbane", "AU"); ("perth", "AU"); ("adelaide", "AU");
    ("unsw", "AU"); ("usyd", "AU"); ("unimelb", "AU"); ("anu", "AU"); ("monash", "AU");
    ("new zealand", "NZ"); ("auckland", "NZ"); ("wellington", "NZ");
    ("christchurch", "NZ"); ("south africa", "ZA"); ("cape town", "ZA");
    ("johannesburg", "ZA"); ("durban", "ZA"); ("uct", "ZA"); ("wits", "ZA");
    ("stellenbosch", "ZA"); ("egypt", "EG"); ("cairo", "EG"); ("alexandria", "EG");
    ("auc", "EG"); ("brazil", "BR"); ("sao paulo", "BR"); ("rio de janeiro", "BR");
    ("brasilia", "BR"); ("usp", "BR"); ("unicamp", "BR"); ("mexico", "MX");
    ("mexico city", "MX"); ("guadalajara", "MX"); ("monterrey", "MX"); ("unam", "MX");
    ("itesm", "MX"); ("argentina", "AR"); ("buenos aires", "AR"); ("cordoba", "AR");
    ("uba", "AR"); ("chile", "CL"); ("santiago", "CL"); ("valparaiso", "CL");
    ("uc", "CL") ].

(** *** Shapes of the two lookup services' answers

    The answers are read at their documented types: a title and an
    affiliation are strings, authors and affiliations are lists of objects
    and of strings. [Wire] reads the answers of the paper search without
    that assumption and agrees with this module on answers of these
    types. *)

Record Institution := { country_code : option string }.
Record Affiliation := { institution : option Institution }.
Record AuthorResult := {
  last_known_institution : option Institution;
  affiliations : option (list Affiliation)
}.
Record OpenAlexData := { results : option (list AuthorResult) }.

Record SSAuthor := { author_affiliations : option (list string) }.
Record SSPaper := {
  paper_title : option string;
  paper_authors : option (list SSAuthor);
  other_fields : bool              (* the object carries some other key *)
}.
Record SSData := { data : option (list SSPaper) }.

Record Response (D : Type) := {
  status_code : nat;
  json_body : option D             (* [None]: [response.json()] raises *)
}.
Arguments status_code {D} _.
Arguments json_body {D} _.

(** What [session.get] does: raise, or hand back a response. *)
Inductive Reply (D : Type) := NoReply | Replied (r : Response D).
Arguments NoReply {D}.
Arguments Replied {D} r.

(** A request is identified by the service and the text that is quoted
    into its url. *)
Inductive Request := OpenAlexAuthors (search : string) | SemanticScholarSearch (query : string).

Inductive exn := RequestException | HTTPError | JSONDecodeError.

(** *** The lookup object: two caches, and the log of the requests sent *)

Record Lookup := {
  paper_cache : gmap string (option SSPaper);
  author_cache : gmap string (option string);
  requests : list Request
}.

Inductive result (A : Type) := Returned (a : A) | Raised (e : exn).
Arguments Returned {A} a.
Arguments Raised {A} e.

Definition M (A : Type) : Type := Lookup -> result A * Lookup.

Definition ret {A} (a : A) : M A := fun st => (Returned a, st).

Definition bind {A B} (m : M A) (k : A -> M B) : M B :=
  fun st =>
    match m st with
    | (Returned a, st') => k a st'
    | (Raised e, st') => (Raised e, st')
    end.

Definition raise {A} (e : exn) : M A := fun st => (Raised e, st).

(** [try: body except Exception as e: handler] *)
Definition try_except {A} (body : M A) (handler : exn -> M A) : M A :=
  fun st =>
    match body st with
    | (Returned a, st') => (Returned a, st')
    | (Raised e, st') => handler e st'
    end.

Notation "x <- m ;; k" := (bind m (fun x => k))
  (at level 20, m at level 99, k at level 200, only parsing).
Notation "m ;;; k" := (bind m (fun _ => k))
  (at level 20, k at level 200, only parsing).

Definition set_author (author_name : string) (v : option string) : M unit :=
  fun st => (Returned tt,
             {| paper_cache := paper_cache st;
                author_cache := <[author_name := v]> (author_cache st);
                requests := requests st |}).

Definition set_paper (cache_key : string) (v : option SSPaper) : M unit :=
  fun st => (Returned tt,
             {| paper_cache := <[cache_key := v]> (paper_cache st);
                author_cache := author_cache st;
                requests := requests st |}).

Definition logged (r : Request) (st : Lookup) : Lookup :=
  {| paper_cache := paper_cache st;
     author_cache := author_cache st;
     requests := (requests st ++ [r])%list |}.

Definition raise_for_status {D} (response : Response D) : M unit :=
  if Nat.leb 400 (status_code response) && Nat.ltb (status_code response) 600
  then raise HTTPError else ret tt.

Definition json {D} (response : Response D) : M D :=
  match json_body response with
  | Some d => ret d
  | None => raise JSONDecodeError
  end.

(** Truthiness of [None] or a string *)
Definition truthy_opt (o : option string) : bool :=
  match o with Some s => truthy s | None => false end.

(** Truthiness of a paper object: a dictionary with at least one key *)
Definition truthy_paper (p : SSPaper) : bool :=
  match paper_title p, paper_authors p with
  | None, None => other_fields p
  | _, _ => true
  end.

(** *** Tier 1, the reading of the answer *)

(** [institution and institution.get("country_code")], then the code *)
Definition institution_country (o : option Institution) : option string :=
  match o with
  | Some i =>
      match country_code i with
      | Some cc => if truthy cc then Some cc else None
      | None => None
      end
  | None => None
  end.

Fixpoint first_affiliation_country (affs : list Affiliation) : option string :=
  match affs with
  | [] => None
  | affiliation :: rest =>
      match institution_country (institution affiliation) with
      | Some cc => Some cc
      | None => first_affiliation_country rest
      end
  end.

Definition openalex_country (d : OpenAlexData) : option string :=
  match results d with
  | Some (first_result :: _) =>
      match institution_country (last_known_institution first_result) with
      | Some cc => Some cc
      | None =>
          first_affiliation_country
            (match affiliations first_result with Some l => l | None => [] end)
      end
  | _ => None
  end.

(** *** Tier 2, the choice of the paper and the keyword scan *)

Definition clean_title (title : string) : string := strip (lower title).

Definition title_matches (clean : string) (paper : SSPaper) : bool :=
  let paper_title :=
    lower (match paper_title paper with Some t => t | None => EmptyString end) in
  is_in paper_title clean || is_in clean paper_title.

Fixpoint best_match (clean : string) (papers : list SSPaper) : option SSPaper :=
  match papers with
  | [] => None
  | paper :: rest => if title_matches clean paper then Some paper else best_match clean rest
  end.

(** [for keyword, country_code in country_keywords.items()] *)
Fixpoint keyword_loop (table : list (string * string)) (affiliation_name : string)
  : option string :=
  match table with
  | [] => None
  | (keyword, code) :: rest =>
      if is_in keyword affiliation_name then Some code
      else keyword_loop rest affiliation_name
  end.

(** The classification of one affiliation string *)
Definition classify_affiliation (affiliation : string) : option string :=
  keyword_loop country_keywords (lower affiliation).

Fixpoint affiliation_loop (affs : list string) : option string :=
  match affs with
  | [] => None
  | affiliation :: rest =>
      match classify_affiliation affiliation with
      | Some code => Some code
      | None => affiliation_loop rest
      end
  end.

Fixpoint author_loop (authors : list SSAuthor) : option string :=
  match authors with
  | [] => None
  | author :: rest =>
      match
        match author_affiliations author with
        | Some affs => affiliation_loop affs
        | None => None
        end
      with
      | Some code => Some code
      | None => author_loop rest
      end
  end.

Definition extract_country_from_semantic_scholar (paper : option SSPaper) : option string :=
  match paper with
  | None => None
  | Some p =>
      if negb (truthy_paper p) then None
      else match paper_authors p with
           | None => None
           | Some authors => author_loop authors
           end
  end.

(** The affiliation strings of a paper in the order the scan meets them *)
Definition affiliations_in_order (p : SSPaper) : list string :=
  match paper_authors p with
  | Some authors =>
      List.concat
        (List.map (fun a => match author_affiliations a with Some l => l | None => [] end)
                  authors)
  | None => []
  end.

(** The keywords enumerated before [keyword] *)
Fixpoint keywords_before (keyword : string) (table : list (string * string)) : list string :=
  match table with
  | [] => []
  | (k, _) :: rest =>
      if String.eqb k keyword then [] else k :: keywords_before keyword rest
  end.

(** The code the table gives [keyword] *)
Fixpoint keyword_code (keyword : string) (table : list (string * string)) : option string :=
  match table with
  | [] => None
  | (k, code) :: rest =>
      if String.eqb k keyword then Some code else keyword_code keyword rest
  end.

(** The keywords enumerated before [keyword] that stand for another
    country than [code] *)
Fixpoint other_country_before (keyword code : string) (table : list (string * string))
  : list string :=
  match table with
  | [] => []
  | (k, c) :: rest =>
      if String.eqb k keyword then []
      else if String.eqb c code then other_country_before keyword code rest
      else k :: other_country_before keyword code rest
  end.

(** *** What each tier makes of a reply *)

Definition error_status (status : nat) : bool := Nat.leb 400 status && Nat.ltb status 600.

(** The lookup of Tier 1 fails: no reply, an error status, or a body
    that is not JSON. *)
Definition tier1_error (r : Reply OpenAlexData) : bool :=
  match r with
  | NoReply => true
  | Replied resp =>
      error_status (status_code resp)
      || match json_body resp with None => true | Some _ => false end
  end.

(** The lookup of Tier 2 fails: no reply, a status other than 200, or a
    body that is not JSON. *)
Definition tier2_error (r : Reply SSData) : bool :=
  match r with
  | NoReply => true
  | Replied resp =>
      negb (Nat.eqb (status_code resp) 200)
      || match json_body resp with None => true | Some _ => false end
  end.

(** The country Tier 1 reads off a reply *)
Definition openalex_answer (r : Reply OpenAlexData) : option string :=
  match r with
  | NoReply => None
  | Replied resp =>
      if error_status (status_code resp) then None
      else match json_body resp with
           | Some d => openalex_country d
           | None => None
           end
  end.

(** The paper Tier 2 reads off a reply *)
Definition semantic_scholar_answer (clean : string) (r : Reply SSData) : option SSPaper :=
  match r with
  | NoReply => None
  | Replied resp =>
      if Nat.eqb (status_code resp) 200 then
        match json_body resp with
        | Some d => match data d with
                    | Some papers => best_match clean papers
                    | None => None
                    end
        | None => None
        end
      else None
  end.

Definition is_openalex_request (r : Request) : bool :=
  match r with OpenAlexAuthors _ => true | SemanticScholarSearch _ => false end.

Section Services.
(** The two services; the number is the count of requests sent before. *)
Variable openalex : nat -> string -> Reply OpenAlexData.
Variable semantic_scholar : nat -> string -> Reply SSData.

Definition get_openalex (author_name : string) : M (Response OpenAlexData) :=
  fun st =>
    match openalex (List.length (requests st)) author_name with
    | NoReply => (Raised RequestException, logged (OpenAlexAuthors author_name) st)
    | Replied r => (Returned r, logged (OpenAlexAuthors author_name) st)
    end.

Definition get_semantic_scholar (query : string) : M (Response SSData) :=
  fun st =>
    match semantic_scholar (List.length (requests st)) query with
    | NoReply => (Raised RequestException, logged (SemanticScholarSearch query) st)
    | Replied r => (Returned r, logged (SemanticScholarSearch query) st)
    end.

(** The [try] block of [get_country_from_openalex]: [Some cc] when it
    returns [cc] from the function, [None] when control leaves it. *)
Definition openalex_try (author_name : string) : M (option string) :=
  try_except
    (response <- get_openalex author_name ;;
     raise_for_status response ;;;
     d <- json response ;;
     match openalex_country d with
     | Some cc => set_author author_name (Some cc) ;;; ret (Some cc)
     | None => ret None
     end)
    (fun _ => ret None).

Definition get_country_from_openalex (author_name : string) : M (option string) :=
  fun st =>
    match author_cache st !! author_name with
    | Some cached => (Returned cached, st)
    | None =>
        (found <- openalex_try author_name ;;
         match found with
         | Some cc => ret (Some cc)
         | None => set_author author_name None ;;; ret None
         end) st
    end.

Definition get_semantic_scholar_paper (title : string) (authors : list string)
  : M (option SSPaper) :=
  let clean := clean_title title in
  let cache_key := "ss_" ++ clean in
  fun st =>
    match paper_cache st !! cache_key with
    | Some cached => (Returned cached, st)
    | None =>
        try_except
          (let first_author := List.hd EmptyString authors in
           let query := title ++ " " ++ first_author in
           response <- get_semantic_scholar query ;;
           found <- (if Nat.eqb (status_code response) 200
                     then d <- json response ;;
                          ret (match data d with
                               | Some papers => best_match clean papers
                               | None => None
                               end)
                     else ret None) ;;
           match found with
           | Some paper => set_paper cache_key (Some paper) ;;; ret (Some paper)
           | None => set_paper cache_key None ;;; ret None
           end)
          (fun _ => set_paper cache_key None ;;; ret None) st
    end.

Definition first_author_of (authors_str : string) : string :=
  List.hd EmptyString (List.map strip (split "," authors_str)).

Definition get_author_country (title authors_str : string) : M (option string) :=
  let authors := List.map strip (split "," authors_str) in
  let first_author := List.hd EmptyString authors in
  if negb (truthy first_author) then ret None
  else
    country <- get_country_from_openalex first_author ;;
    if truthy_opt country then ret country
    else
      paper <- get_semantic_scholar_paper title authors ;;
      match paper with
      | Some p =>
          if truthy_paper p then
            match extract_country_from_semantic_scholar (Some p) with
            | Some country' =>
                if truthy country'
                then set_author first_author (Some country') ;;; ret (Some country')
                else ret None
            | None => ret None
            end
          else ret None
      | None => ret None
      end.

End Services.

(** The requests of [st'] that [st] did not have yet *)
Definition sent_since (st st' : Lookup) : list Request :=
  List.skipn (List.length (requests st)) (requests st').

End Countries.

(** ** Sample inputs *)

Module EntryExamples.
Import ConfScraper.

(** A node with the given class attribute, author spans and title text,
    and nothing else the extractor could use. *)
Definition node (classes : string) (spans : list AuthorSpan) (title : string) : Element :=
  {| class_attr := Ok (Some classes);
     author_spans := Ok spans;
     title_span := Ok title;
     headline_span := Raise NoSuchElementException;
     cite_elem := Raise NoSuchElementException;
     rec_link := Raise NoSuchElementException;
     anchors := Ok [];
     text := Ok title;
     pages_found := None;
     location_found := None |}.

Definition jane : AuthorSpan :=
  {| author_name_span := Ok {| name_title := Some "Jane Doe"; name_text := "Jane Doe" |};
     author_text := "Jane Doe" |}.

(** A title whose text is padded to eleven characters. *)
Definition padded_title : string := "    A Study".

End EntryExamples.

Module SinkExamples.
Import ConfScraper.

Definition clock : nat -> string := fun _ => "2025-01-01T00:00:00".

Definition study : Element :=
  EntryExamples.node "entry inproceedings" [EntryExamples.jane] "A Study of X".

(** A content page that lists the same paper twice. *)
Definition twice_page : string -> outcome (list Element * list Element * list Element) :=
  fun _ => Ok ([study; study], [], [study; study]).

(** A content page that lists one paper. *)
Definition single_page : string -> outcome (list Element * list Element * list Element) :=
  fun _ => Ok ([study], [], [study]).

Definition empty_table : Sink :=
  {| db_file := true; conf_papers_table := true; rows := [] |}.

Definition study_record (page_url : string) : Paper :=
  {| name := "A Study of X"; authors := "Jane Doe";
     conference_href := page_url; paper_href := "";
     year := ""; isbn := ""; pages := ""; conference_location := "";
     created_at := ""; conference_processed := "SIGMOD"; edition_name := "" |}.

End SinkExamples.

Module LookupExamples.
Import Countries.

(** The name lookup is unreachable. *)
Definition openalex_down : nat -> string -> Reply OpenAlexData := fun _ _ => NoReply.

(** The name lookup answers every search, under the given status, with one
    author whose last known institution is in the country [cc]. *)
Definition openalex_knows (status : nat) (cc : string) : nat -> string -> Reply OpenAlexData :=
  fun _ _ =>
    Replied {| status_code := status;
               json_body := Some {| results := Some
                 [ {| last_known_institution := Some {| country_code := Some cc |};
                      affiliations := None |} ] |} |}.

(** A paper whose only author has the one affiliation [affiliation]. *)
Definition paper_from (affiliation : string) : SSPaper :=
  {| paper_title := Some "A Study of X";
     paper_authors := Some [ {| author_affiliations := Some [affiliation] |} ];
     other_fields := true |}.

(** The paper search answers every query with that paper. *)
Definition search_finds (affiliation : string) : nat -> string -> Reply SSData :=
  fun _ _ =>
    Replied {| status_code := 200;
               json_body := Some {| data := Some [paper_from affiliation] |} |}.

(** The paper search answers with status 429. *)
Definition search_throttled : nat -> string -> Reply SSData :=
  fun _ _ => Replied {| status_code := 429; json_body := None |}.

Definition fresh : Lookup := {| paper_cache := ∅; author_cache := ∅; requests := [] |}.

(** The author cache holds [v] for "Jane Doe". *)
Definition jane_cached (v : option string) : Lookup :=
  {| paper_cache := ∅; author_cache := {[ "Jane Doe" := v ]}; requests := [] |}.

End LookupExamples.

(** ** The batch script of [get_countries_conf_updated.py] *)

Module Batch.
Import Str Countries.

(** [country_map] *)
Definition country_map : gmap string string :=
  list_to_map
    [ ("IN", "India"); ("PK", "Pakistan"); ("BD", "Bangladesh"); ("CN", "China");
      ("SG", "Singapore"); ("MY", "Malaysia"); ("KR", "South Korea");
      ("US", "United States"); ("GB", "United Kingdom"); ("DE", "Germany");
      ("LK", "Sri Lanka"); ("IR", "Iran"); ("TR", "Turkey"); ("AU", "Australia");
      ("FR", "France") ].

Definition test_limit : nat := 2782.

(** [valid_papers]: the rows of [SELECT name, authors FROM conf_papers] whose
    two columns are truthy; a column may be NULL. *)
Definition valid_papers (rows : list (option string * option string))
  : list (string * string) :=
  List.flat_map
    (fun row =>
       match row with
       | (Some title, Some authors) =>
           if truthy title && truthy authors then [(title, authors)] else []
       | _ => []
       end)
    rows.

(** The counters of the first loop *)
Record Tally := {
  country_counter : gmap string nat;       (* Counter() *)
  successful_lookups : nat;
  total_lookups : nat;
  no_country_found : list (string * string)  (* ('Author Name', 'Paper Title') *)
}.

Definition empty_tally : Tally :=
  {| country_counter := ∅; successful_lookups := 0; total_lookups := 0;
     no_country_found := [] |}.

(** [counter[key] += 1] on a [Counter] *)
Definition increment (key : string) (counter : gmap string nat) : gmap string nat :=
  <[key := S (default 0 (counter !! key))]> counter.

(** The sum of the counts of a [Counter] *)
Definition counter_total (counter : gmap string nat) : nat :=
  map_fold (fun _ n acc => n + acc) 0 counter.

(** Every character of [s] is whitespace. *)
Fixpoint all_space (s : string) : bool :=
  match s with
  | EmptyString => true
  | String c s' => is_space c && all_space s'
  end.

Section Script.
Variable openalex : nat -> string -> Reply OpenAlexData.
Variable semantic_scholar : nat -> string -> Reply SSData.

(** One turn of [for i, (title, authors_str) in enumerate(valid_papers[:test_limit])] *)
Definition process_paper (tally : Tally) (paper : string * string) : M Tally :=
  let '(title, authors_str) := paper in
  let authors := List.map strip (split "," authors_str) in
  let first_author := List.hd EmptyString authors in
  if negb (truthy first_author) then ret tally
  else
    bind (get_author_country openalex semantic_scholar title authors_str)
      (fun country_code =>
         match country_code with
         | Some code =>
             if truthy code then
               ret {| country_counter :=
                        match country_map !! code with
                        | Some name => increment name (country_counter tally)
                        | None => country_counter tally
                        end;
                      successful_lookups := S (successful_lookups tally);
                      total_lookups := S (total_lookups tally);
                      no_country_found := no_country_found tally |}
             else
               ret {| country_counter := country_counter tally;
                      successful_lookups := successful_lookups tally;
                      total_lookups := S (total_lookups tally);
                      no_country_found :=
                        (no_country_found tally ++ [(first_author, title)])%list |}
         | None =>
             ret {| country_counter := country_counter tally;
                    successful_lookups := successful_lookups tally;
                    total_lookups := S (total_lookups tally);
                    no_country_found :=
                      (no_country_found tally ++ [(first_author, title)])%list |}
         end).

Fixpoint process_papers (papers : list (string * string)) (tally : Tally) : M Tally :=
  match papers with
  | [] => ret tally
  | paper :: rest =>
      bind (process_paper tally paper) (fun tally' => process_papers rest tally')
  end.

(** The first loop of the script *)
Definition first_pass (rows : list (option string * option string)) : M Tally :=
  process_papers (List.firstn test_limit (valid_papers rows)) empty_tally.

(** The inner loop of the summary: every paper is resolved again, and those
    of the country [country] are listed as (number, title, first author). *)
Fixpoint country_papers (country : string) (j : nat) (papers : list (string * string))
  : M (list (nat * string * string)) :=
  match papers with
  | [] => ret []
  | (title, authors_str) :: rest =>
      let first_author := List.hd EmptyString (List.map strip (split "," authors_str)) in
      if truthy first_author then
        bind (get_author_country openalex semantic_scholar title authors_str)
          (fun country_code =>
             bind (country_papers country (S j) rest)
               (fun found =>
                  ret (match country_code with
                       | Some code =>
                           if truthy code then
                             match country_map !! code with
                             | Some name =>
                                 if String.eqb name country
                                 then (S j, title, first_author) :: found
                                 else found
                             | None => found
                             end
                           else found
                       | None => found
                       end)))
      else country_papers country (S j) rest
  end.

(** The outer loop of the summary over the countries that [most_common()]
    enumerates *)
Fixpoint second_pass (countries : list string) (papers : list (string * string))
  : M (list (string * list (nat * string * string))) :=
  match countries with
  | [] => ret []
  | country :: rest =>
      bind (country_papers country 0 papers)
        (fun listed =>
           bind (second_pass rest papers) (fun more => ret ((country, listed) :: more)))
  end.

End Script.

(** The line that prints the success rate divides by [total_lookups]; the
    quotient is a float and is not modelled, only whether the division
    raises. *)
Inductive summary_outcome := Printed | ZeroDivisionError.

Definition success_rate (tally : Tally) : summary_outcome :=
  match total_lookups tally with
  | 0 => ZeroDivisionError
  | S _ => Printed
  end.

(** What a call of Tier 1 for [a] does to the lookup object: answered from
    the cache, or one request and the answer stored. *)
Definition tier1_step (a : string) (st : Lookup) (r : option string) (st1 : Lookup) : Prop :=
  (author_cache st !! a = Some r /\ st1 = st)
  \/ (author_cache st !! a = None
      /\ st1 = {| paper_cache := paper_cache st;
                  author_cache := <[a := r]> (author_cache st);
                  requests := (requests st ++ [OpenAlexAuthors a])%list |}).

(** The same for Tier 2, the title [title] and the query [query] *)
Definition tier2_step (title query : string) (st : Lookup) (r : option SSPaper)
    (st1 : Lookup) : Prop :=
  (paper_cache st !! ("ss_" ++ clean_title title) = Some r /\ st1 = st)
  \/ (paper_cache st !! ("ss_" ++ clean_title title) = None
      /\ st1 = {| paper_cache := <["ss_" ++ clean_title title := r]> (paper_cache st);
                  author_cache := author_cache st;
                  requests := (requests st ++ [SemanticScholarSearch query])%list |}).

(** [self.author_cache[first_author] = country] *)
Definition backfilled (a code : string) (st : Lookup) : Lookup :=
  {| paper_cache := paper_cache st;
     author_cache := <[a := Some code]> (author_cache st);
     requests := requests st |}.

(** The lookup object can answer for the paper without a request: the first
    author is blank, or cached with a country, or cached together with the
    title. *)
Definition settled (title authors_str : string) (st : Lookup) : Prop :=
  let first_author := first_author_of authors_str in
  truthy first_author = false
  \/ (exists cc, author_cache st !! first_author = Some (Some cc) /\ truthy cc = true)
  \/ (is_Some (author_cache st !! first_author)
      /\ is_Some (paper_cache st !! ("ss_" ++ clean_title title))).

(** What the counters satisfy after any number of turns *)
Definition tally_ok (tally : Tally) : Prop :=
  total_lookups tally = successful_lookups tally + List.length (no_country_found tally)
  /\ counter_total (country_counter tally) <= successful_lookups tally
  /\ Forall (fun entry => truthy (fst entry) = true) (no_country_found tally).

(** The papers of a list that have a first author *)
Definition with_first_author (papers : list (string * string)) : list (string * string) :=
  List.filter (fun paper => truthy (first_author_of (snd paper))) papers.

End Batch.

(** ** Link discovery of the conference scraper ([conf_scrapper.py]) *)

Module Discovery.
Import Str ConfScraper.

(** [s.endswith(suffix)] *)
Fixpoint endswith (suffix s : string) : bool :=
  String.eqb suffix s ||
  match s with
  | EmptyString => false
  | String _ s' => endswith suffix s'
  end.

(** The dictionaries collected in [content_links] *)
Record ContentLink := {
  url : string;
  title : string;
  section : string;
  type : string
}.

Record Anchor := {
  href : option string;        (* get_attribute("href") *)
  title_attr : option string;  (* get_attribute("title") *)
  anchor_text : string         (* .text *)
}.

(** What the driver shows of one [li.entry] of a publication list *)
Record Entry := {
  toc_link : outcome (option string);   (* find_element(a.toc-link), its href *)
  entry_title : outcome string;         (* find_element(span.title).text *)
  entry_cite : outcome string;          (* find_element(cite.data).text *)
  nav_links : outcome (list Anchor)     (* find_element(nav.publ), every a in it *)
}.

Definition extract_toc_links_from_entry (entry : Entry) : list ContentLink :=
  match toc_link entry with
  | Raise _ => []
  | Ok None => []
  | Ok (Some h) =>
      if truthy h && is_valid_content_link h then
        let title :=
          match entry_title entry with
          | Ok t => strip t
          | Raise _ =>
              match entry_cite entry with
              | Ok t => List.hd EmptyString (split newline (strip t))
              | Raise _ => "Unknown"
              end
          end in
        [ {| url := h; title := title; section := "toc-link";
             type := "table_of_contents" |} ]
      else []
  end.

(** One turn of [for link in nav_links] *)
Definition direct_link (link : Anchor) : list ContentLink :=
  match href link with
  | None => []
  | Some h =>
      if truthy h && is_valid_content_link h then
        if is_in "/db/" h && endswith ".html" h then
          let title :=
            match title_attr link with
            | Some t => if truthy t then t else strip (anchor_text link)
            | None => strip (anchor_text link)
            end in
          [ {| url := h; title := title; section := "nav-link";
               type := "database_page" |} ]
        else []
      else []
  end.

Definition extract_direct_links_from_entry (entry : Entry) : list ContentLink :=
  match nav_links entry with
  | Raise _ => []
  | Ok links => List.flat_map direct_link links
  end.

Definition content_keywords : list string :=
  ["contents"; "proceedings"; "papers"; "table of contents"].

(** One turn of [for link in all_links] *)
Definition additional_link (link : Anchor) : list ContentLink :=
  let text := lower (strip (anchor_text link)) in
  match href link with
  | None => []
  | Some h =>
      if truthy h && is_valid_content_link h then
        if existsb (fun keyword => is_in keyword text) content_keywords then
          [ {| url := h; title := strip (anchor_text link); section := "additional";
               type := "content_page" |} ]
        else []
      else []
  end.

(** [find_additional_content_links], on what [find_elements(a)] gives *)
Definition find_additional_content_links (all_links : outcome (list Anchor))
  : list ContentLink :=
  match all_links with
  | Raise _ => []
  | Ok links => List.flat_map additional_link links
  end.

(** The seed page: every [ul.publ-list] with its [li.entry] nodes, and
    every anchor of the page. A raise while the lists are walked ends the
    walk and keeps what has been collected. *)
Record SeedPage := {
  publ_lists : outcome (list (outcome (list Entry)));
  all_anchors : outcome (list Anchor)
}.

Definition entry_links (entry : Entry) : list ContentLink :=
  (extract_toc_links_from_entry entry ++ extract_direct_links_from_entry entry)%list.

Fixpoint walk_lists (lists : list (outcome (list Entry))) : list ContentLink :=
  match lists with
  | [] => []
  | Raise _ :: _ => []
  | Ok entries :: rest => (List.flat_map entry_links entries ++ walk_lists rest)%list
  end.

(** One turn of the [Remove duplicates] loop over
    [(unique_links, seen_urls)] *)
Definition unique_step (acc : list ContentLink * gset string) (link : ContentLink)
  : list ContentLink * gset string :=
  let '(unique_links, seen_urls) := acc in
  if bool_decide (url link ∉ seen_urls)
  then ((unique_links ++ [link])%list, {[url link]} ∪ seen_urls)
  else acc.

Definition unique_links (content_links : list ContentLink) : list ContentLink :=
  fst (fold_left unique_step content_links ([], ∅)).

(** What the loop keeps of [links] when [seen] holds the urls met so far,
    by recursion on the input *)
Fixpoint first_urls (seen : gset string) (links : list ContentLink) : list ContentLink :=
  match links with
  | [] => []
  | link :: rest =>
      if bool_decide (url link ∉ seen)
      then link :: first_urls ({[url link]} ∪ seen) rest
      else first_urls seen rest
  end.

(** What every link of the discovery satisfies *)
Definition discovered (l : ContentLink) : Prop :=
  is_valid_content_link (url l) = true
  /\ (section l = "toc-link" \/ section l = "nav-link" \/ section l = "additional")
  /\ (section l = "nav-link" ->
      is_in "/db/" (url l) = true /\ endswith ".html" (url l) = true).

Section Browser.
(** [driver.get] and the wait for the body *)
Variable browser : string -> outcome SeedPage.

Definition collected_links (page : SeedPage) : list ContentLink :=
  (match publ_lists page with
   | Ok lists => walk_lists lists
   | Raise _ => []
   end
   ++ find_additional_content_links (all_anchors page))%list.

Definition scrape_conference_content_links (conference_url : string) : list ContentLink :=
  match browser conference_url with
  | Raise _ => []
  | Ok page => unique_links (collected_links page)
  end.

End Browser.

End Discovery.

(** ** Shapes of the extracted tokens *)

Module Tokens.
Import Str Re.

(** Four characters: 19 or 20, then two digits. *)
Definition year_token (y : string) : bool :=
  match y with
  | String a (String b (String c (String d EmptyString))) =>
      century a b && is_digit c && is_digit d
  | _ => false
  end.

Fixpoint all_digits (s : string) : bool :=
  match s with
  | EmptyString => true
  | String c s' => is_digit c && all_digits s'
  end.

(** Empty, or a token of the given shape that occurs in [text] *)
Definition empty_or_token (shape : string -> bool) (text token : string) : Prop :=
  token = EmptyString \/ (shape token = true /\ truthy token = true /\ is_in token text = true).

End Tokens.

(** ** The journal scraper of [dblp_journals_scrapper.py] *)

Module JournalScraper.
Import Str Re ConfScraper.

(** *** The remaining searches of a journal record *)

Definition matches {A} (found : option A) : bool :=
  match found with Some _ => true | None => false end.

Definition non_empty (s : string) : option string :=
  match s with EmptyString => None | _ => Some s end.

(** A literal matched as written. The result is the text after it. *)
Fixpoint literal (lit s : string) : option string :=
  match lit, s with
  | EmptyString, _ => Some s
  | String a lit', String b s' => if Ascii.eqb a b then literal lit' s' else None
  | String _ _, EmptyString => None
  end.

(** [[\d-]] *)
Definition digit_or_dash (c : ascii) : bool := is_digit c || Ascii.eqb c "-".

(** [ISSN\s+([\d-]+)]; the result is group 1 *)
Definition issn_at (_ : option ascii) (s : string) : option string :=
  match literal "ISSN" s with
  | Some (String c r) =>
      if is_space c then non_empty (take_while digit_or_dash (drop_while is_space r))
      else None
  | _ => None
  end.

(** [(?:No\.?|Issue)\s*(\d+)] with [re.IGNORECASE]; the result is group 1 *)
Definition issue_at (_ : option ascii) (s : string) : option string :=
  let number :=
    match literal_ci "no" s with
    | Some r =>
        match spaces_digits (opt_dot r) with
        | Some ds => Some ds
        | None => spaces_digits r
        end
    | None => None
    end in
  match number with
  | Some ds => Some ds
  | None =>
      match literal_ci "issue" s with
      | Some r => spaces_digits r
      | None => None
      end
  end.

(** [(\d+-\d+)]; the result is group 1 *)
Definition pages_at (_ : option ascii) (s : string) : option string :=
  match take_while is_digit s, drop_while is_digit s with
  | String a first, String dash r =>
      if Ascii.eqb dash "-" then
        match take_while is_digit r with
        | EmptyString => None
        | last => Some (String a first ++ String "-" last)
        end
      else None
  | _, _ => None
  end.

(** [[:\s]] *)
Definition colon_or_space (c : ascii) : bool := Ascii.eqb c ":" || is_space c.

Definition not_space (c : ascii) : bool := negb (is_space c).

(** [doi[:\s]*(10\.\d+/[^\s]+)] with [re.IGNORECASE]; the result is group 1 *)
Definition doi_at (_ : option ascii) (s : string) : option string :=
  match literal_ci "doi" s with
  | Some r =>
      match literal "10." (drop_while colon_or_space r) with
      | Some r' =>
          match take_while is_digit r', drop_while is_digit r' with
          | String a registrant, String slash r'' =>
              if Ascii.eqb slash "/" then
                match take_while not_space r'' with
                | EmptyString => None
                | suffix => Some ("10." ++ String a registrant ++ String "/" suffix)
                end
              else None
          | _, _ => None
          end
      | None => None
      end
  | None => None
  end.

Definition found_or_empty (found : option string) : string :=
  match found with Some s => s | None => EmptyString end.

(** *** The main page of a journal *)

(** An [a] element as the driver shows it *)
Record Anchor := {
  a_text : string;          (* link.text *)
  a_href : option string    (* link.get_attribute('href') *)
}.

(** [{'text': ..., 'href': ...}] *)
Record VolumeLink := {
  text : string;
  href : option string
}.

Record JournalPage := {
  h1 : outcome string;                            (* find_element(h1).text *)
  page_source : string;
  css_links : string -> outcome (list Anchor);    (* find_elements(By.CSS_SELECTOR, selector) *)
  xpath_links : outcome (list Anchor)             (* find_elements(By.XPATH, ...) *)
}.

Record JournalInfo := {
  name : string;
  issn : string
}.

Definition extract_journal_info (page : JournalPage) : outcome JournalInfo :=
  let found_issn := found_or_empty (search issn_at (page_source page)) in
  match h1 page with
  | Ok heading => Ok {| name := strip heading; issn := found_issn |}
  | Raise NoSuchElementException => Ok {| name := "Unknown Journal"; issn := found_issn |}
  | Raise e => Raise e
  end.

Definition volume_selectors : list string :=
  [ "a[href*='Volume']"; "a[href*='volume']"; "a[href*='vol']"; ".volume-link"; "li a" ].

(** The test of one link, left to right; [None] when [link_href.lower()]
    raises on a missing attribute. *)
Definition looks_like_volume (link_text : string) (link_href : option string) : option bool :=
  if matches (search volume_at link_text) || matches (search vol_at link_text) then Some true
  else match link_href with
       | Some h => Some (is_in "volume" (lower h))
       | None => None
       end.

(** The [for link in links] loop: the list so far, and whether the loop
    was left by an exception. *)
Fixpoint scan_links (links : list Anchor) (volume_links : list VolumeLink)
  : list VolumeLink * bool :=
  match links with
  | [] => (volume_links, false)
  | link :: rest =>
      let link_text := strip (a_text link) in
      let link_href := a_href link in
      match looks_like_volume link_text link_href with
      | Some true =>
          scan_links rest (volume_links ++ [ {| text := link_text; href := link_href |} ])%list
      | Some false => scan_links rest volume_links
      | None => (volume_links, true)
      end
  end.

(** The [for selector in volume_selectors] loop *)
Fixpoint selector_loop (results : list (outcome (list Anchor)))
    (volume_links : list VolumeLink) : list VolumeLink :=
  match results with
  | [] => volume_links
  | Raise _ :: rest => selector_loop rest volume_links
  | Ok links :: rest =>
      match scan_links links volume_links with
      | (found, true) => selector_loop rest found
      | ([], false) => selector_loop rest []
      | (found, false) => found
      end
  end.

Definition find_volume_links (page : JournalPage) : list VolumeLink :=
  match selector_loop (List.map (css_links page) volume_selectors) [] with
  | [] =>
      match xpath_links page with
      | Ok links =>
          List.map (fun link => {| text := strip (a_text link); href := a_href link |}) links
      | Raise _ => []
      end
  | volume_links => volume_links
  end.

(** *** One record *)

(** What the driver shows of one paper element *)
Record PaperElement := {
  title_of : string -> outcome string;            (* find_element(selector).text *)
  authors_of : string -> outcome (list string);   (* find_elements(selector), each .text *)
  first_link : outcome (option string);           (* find_element(a).get_attribute('href') *)
  element_text : string                           (* paper_element.text *)
}.

Definition title_selectors : list string :=
  [ ".title"; "span[itemprop='name']"; "span.title"; "cite span:first-child" ].

Definition author_selectors : list string :=
  [ "span[itemprop='author']"; ".author"; "span.author"; "a[href*='/pers/']" ].

Fixpoint title_loop (paper_element : PaperElement) (selectors : list string)
  : outcome string :=
  match selectors with
  | [] => Ok EmptyString
  | selector :: rest =>
      match title_of paper_element selector with
      | Ok t => Ok (strip t)
      | Raise NoSuchElementException => title_loop paper_element rest
      | Raise e => Raise e
      end
  end.

(** The names of one selector: trimmed, the empty ones left out. *)
Definition author_names (texts : list string) : list string :=
  List.filter truthy (List.map strip texts).

Fixpoint authors_loop (paper_element : PaperElement) (selectors : list string)
  : outcome (list string) :=
  match selectors with
  | [] => Ok []
  | selector :: rest =>
      match authors_of paper_element selector with
      | Ok texts =>
          match author_names texts with
          | [] => authors_loop paper_element rest
          | authors => Ok authors
          end
      | Raise NoSuchElementException => authors_loop paper_element rest
      | Raise e => Raise e
      end
  end.

Definition paper_href (paper_element : PaperElement) : outcome (option string) :=
  match first_link paper_element with
  | Ok h => Ok h
  | Raise NoSuchElementException => Ok (Some EmptyString)
  | Raise e => Raise e
  end.

(** [paper_data] *)
Record JournalPaper := {
  title : string;
  authors_text : string;
  paper_link : option string;   (* key [href] *)
  year : string;
  volume : string;
  issue : string;
  pages : string;
  doi : string;
  journal_name : string
}.

(** [extract_journal_paper_info], the whole record; the keys [year] and
    [volume] are the ones of [Journals.extract_journal_paper_info]. *)
Definition extract_journal_paper_record (paper_element : PaperElement)
    (journal_info : JournalInfo) (volume_info : option (gmap string string))
  : option JournalPaper :=
  match title_loop paper_element title_selectors with
  | Raise _ => None
  | Ok found =>
      let paper_title :=
        if truthy found then found
        else strip (List.hd EmptyString (split newline (element_text paper_element))) in
      match authors_loop paper_element author_selectors with
      | Raise _ => None
      | Ok authors =>
          match paper_href paper_element with
          | Raise _ => None
          | Ok link =>
              let paper_text := element_text paper_element in
              let dated := Journals.extract_journal_paper_info paper_text volume_info in
              Some {| title := paper_title;
                      authors_text := String.concat ", " authors;
                      paper_link := link;
                      year := default EmptyString (dated !! "year");
                      volume := default EmptyString (dated !! "volume");
                      issue := found_or_empty (search issue_at paper_text);
                      pages := found_or_empty (search pages_at paper_text);
                      doi := found_or_empty (search doi_at paper_text);
                      journal_name := name journal_info |}
          end
      end
  end.

(** *** One volume *)

Definition paper_selectors : list string :=
  [ ".entry.article"; ".publ-list li"; "li[class*='entry']"; "cite.data";
    ".article-entry"; ".paper-entry" ].

(** A volume page: what [find_elements] gives for a selector *)
Definition VolumePage : Type := string -> outcome (list PaperElement).

Fixpoint first_elements (page : VolumePage) (selectors : list string) : list PaperElement :=
  match selectors with
  | [] => []
  | selector :: rest =>
      match page selector with
      | Ok (element :: elements) => element :: elements
      | _ => first_elements page rest
      end
  end.

(** *** The table [journal_papers] *)

(** A row: the columns named in the INSERT and their values, [None] for
    NULL. *)
Definition Row : Type := list (string * option string).

(** [columns] is what [PRAGMA table_info] lists, empty when the table does
    not exist. *)
Record Table := {
  columns : list string;
  rows : list Row
}.

Definition additional_columns : list string :=
  [ "journal_href"; "paper_href"; "year"; "volume"; "issue"; "pages"; "doi";
    "journal_name"; "created_at" ].

Definition created_columns : list string :=
  [ "id"; "name"; "authors"; "journal_href"; "paper_href"; "year"; "volume"; "issue";
    "pages"; "doi"; "journal_name"; "created_at" ].

(** The columns an INSERT may name, in the order of the assignments *)
Definition insert_columns : list string :=
  [ "name"; "authors"; "journal_href"; "paper_href"; "year"; "volume"; "issue"; "pages";
    "doi"; "journal_name" ].

(** [s[:n]] *)
Definition prefix (n : nat) (s : string) : string := String.substring 0 n s.

(** [insert_data]: the ten assignments in order, each under its
    [if column in existing_columns]. *)
Definition insert_data (paper : JournalPaper) (journal_href : string)
    (existing_columns : list string) : Row :=
  List.filter (fun assignment => bool_decide (fst assignment ∈ existing_columns))
    [ ("name", Some (prefix 500 (title paper)));
      ("authors", Some (prefix 1000 (authors_text paper)));
      ("journal_href", Some journal_href);
      ("paper_href", paper_link paper);
      ("year", Some (year paper));
      ("volume", Some (volume paper));
      ("issue", Some (issue paper));
      ("pages", Some (pages paper));
      ("doi", Some (doi paper));
      ("journal_name", Some (journal_name paper)) ].

(** The value a row gives to a column *)
Definition field (column : string) (row : Row) : option (option string) :=
  match List.find (fun assignment => String.eqb (fst assignment) column) row with
  | Some assignment => Some (snd assignment)
  | None => None
  end.

Section Scraper.
(** The pages the driver loads, and the answers of the database engine:
    whether an [ALTER TABLE ... ADD COLUMN] succeeds on the columns so far,
    and whether an INSERT is accepted after the rows so far. *)
Variable journal_web : string -> outcome JournalPage.
Variable volume_web : string -> outcome VolumePage.
Variable alter_ok : list string -> string -> bool.
Variable accepts : list Row -> Row -> bool.

Definition add_column (existing_columns : list string) (table_columns : list string)
    (column_name : string) : list string :=
  if bool_decide (column_name ∈ existing_columns) then table_columns
  else if alter_ok table_columns column_name then (table_columns ++ [column_name])%list
  else table_columns.

Definition setup_database (db : Table) : Table :=
  match columns db with
  | [] => {| columns := created_columns; rows := rows db |}
  | existing_columns =>
      {| columns := List.fold_left (add_column existing_columns) additional_columns
                      existing_columns;
         rows := rows db |}
  end.

(** A link without [href] gives the url [None], on which [driver.get]
    raises; a page that fails to load and a page without paper elements
    give the empty list alike. *)
Definition scrape_papers_from_volume (volume_url : option string)
    (journal_info : JournalInfo) (volume_info : option (gmap string string))
  : list JournalPaper :=
  match volume_url with
  | None => []
  | Some url =>
      match volume_web url with
      | Raise _ => []
      | Ok page =>
          List.flat_map
            (fun paper_element =>
               match extract_journal_paper_record paper_element journal_info volume_info with
               | Some paper_data => [paper_data]
               | None => []
               end)
            (first_elements page paper_selectors)
      end
  end.

Definition save_step (journal_href : string) (existing_columns : list string)
    (table_rows : list Row) (paper : JournalPaper) : list Row :=
  match insert_data paper journal_href existing_columns with
  | [] => table_rows
  | row => if accepts table_rows row then (table_rows ++ [row])%list else table_rows
  end.

Definition save_journal_papers_to_db (papers : list JournalPaper) (journal_href : string)
    (db : Table) : Table :=
  {| columns := columns db;
     rows := List.fold_left (save_step journal_href (columns db)) papers (rows db) |}.

(** The papers of the volumes of one journal, in the order of the links *)
Definition volume_papers (journal_info : JournalInfo) (volume_link : VolumeLink)
  : list JournalPaper :=
  scrape_papers_from_volume (href volume_link) journal_info
    (Some (Journals.extract_volume_info (text volume_link))).

Definition scrape_journal (journal_name journal_href : string) (db : Table) : Table :=
  match journal_web journal_href with
  | Raise _ => db
  | Ok page =>
      match extract_journal_info page with
      | Raise _ => db
      | Ok journal_info =>
          match find_volume_links page with
          | [] => db
          | volume_links =>
              match List.flat_map (volume_papers journal_info) volume_links with
              | [] => db
              | all_papers => save_journal_papers_to_db all_papers journal_href db
              end
          end
      end
  end.

Definition scrape_all_journals (journal_hrefs : list (string * string)) (db : Table) : Table :=
  List.fold_left (fun db entry => scrape_journal (fst entry) (snd entry) db) journal_hrefs db.

End Scraper.

(** *** Shapes of the values *)

(** Digits, a hyphen, digits *)
Definition pages_token (p : string) : bool :=
  match drop_while is_digit p with
  | String dash last =>
      Ascii.eqb dash "-" && truthy (take_while is_digit p) && truthy last
      && Tokens.all_digits last
  | EmptyString => false
  end.

Fixpoint no_space (s : string) : bool :=
  match s with
  | EmptyString => true
  | String c s' => not_space c && no_space s'
  end.

(** [10.], digits, a slash, then at least one character, none of them
    whitespace *)
Definition doi_token (d : string) : bool :=
  match literal "10." d with
  | Some r =>
      match drop_while is_digit r with
      | String slash suffix =>
          Ascii.eqb slash "/" && truthy (take_while is_digit r) && truthy suffix
          && no_space suffix
      | EmptyString => false
      end
  | None => false
  end.

(** The links of [links] that pass the test, as the scan records them *)
Definition passing (links : list Anchor) : list VolumeLink :=
  List.flat_map
    (fun link =>
       match looks_like_volume (strip (a_text link)) (a_href link) with
       | Some true => [ {| text := strip (a_text link); href := a_href link |} ]
       | _ => []
       end)
    links.

(** No link of [links] makes the test raise. *)
Definition scan_safe (links : list Anchor) : Prop :=
  Forall (fun link => looks_like_volume (strip (a_text link)) (a_href link) <> None) links.

(** A selector that gives no volume link: it raises, or none of its links
    passes. *)
Definition fruitless (result : outcome (list Anchor)) : Prop :=
  match result with
  | Ok links => passing links = []
  | Raise _ => True
  end.

(** A selector that shows no author name: no element, or only elements
    whose trimmed text is empty. *)
Definition shows_no_name (paper_element : PaperElement) (selector : string) : Prop :=
  match authors_of paper_element selector with
  | Ok texts => author_names texts = []
  | Raise NoSuchElementException => True
  | Raise _ => False
  end.

End JournalScraper.

(** ** The author-country lookup on answers as JSON delivers them

    [Countries] reads the answers of the paper search at their documented
    types. Here a value that should be a string may be something else, a
    value that should be a list may be something that cannot be iterated,
    and an author or a candidate may be something that is no object, so the
    steps of the source that raise [TypeError] or [AttributeError] on such
    values are part of the model. A string or an object where a list is
    expected is left out. The name lookup is read inside one [try] block,
    so there a body of another shape counts as a body that is not JSON. *)

Module Wire.
Import Str.

(** A value where a string is expected: a string, or [null], a number, a
    list or an object, on which [.lower()] raises [AttributeError]. *)
Inductive JText := JString (s : string) | NotString.

(** A value where a list is expected: a list, or [null], a number or a
    boolean, on which [for ... in] raises [TypeError]. *)
Inductive Listing (A : Type) := Items (l : list A) | NotIterable.
Arguments Items {A} l.
Arguments NotIterable {A}.

(** An author object; [None] for a key that is absent. *)
Record Author := { affiliations : option (Listing JText) }.

(** A paper object. An element of [authors] that is no object is [None]:
    [null], a number or a boolean, on which ['affiliations' in author]
    raises [TypeError]. *)
Record Paper := {
  title : option JText;
  authors : option (Listing (option Author));
  other_fields : bool              (* the object carries some other key *)
}.

(** The body of an answer. [data] is [None] when the key is absent or its
    value is no list: the tier then finds no paper, by its test or by an
    exception caught in its [try]. A candidate that is no object is
    [None]. *)
Record Data := { data : option (list (option Paper)) }.

Inductive exn :=
  RequestException | HTTPError | JSONDecodeError | TypeError | AttributeError.

Record Lookup := {
  paper_cache : gmap string (option Paper);
  author_cache : gmap string (option string);
  requests : list Countries.Request
}.

Inductive result (A : Type) := Returned (a : A) | Raised (e : exn).
Arguments Returned {A} a.
Arguments Raised {A} e.

Definition M (A : Type) : Type := Lookup -> result A * Lookup.

Definition ret {A} (a : A) : M A := fun st => (Returned a, st).

Definition bind {A B} (m : M A) (k : A -> M B) : M B :=
  fun st =>
    match m st with
    | (Returned a, st') => k a st'
    | (Raised e, st') => (Raised e, st')
    end.

Definition raise {A} (e : exn) : M A := fun st => (Raised e, st).

(** A computation that does not touch the lookup object *)
Definition pure {A} (r : result A) : M A := fun st => (r, st).

(** [try: body except Exception as e: handler] *)
Definition try_except {A} (body : M A) (handler : exn -> M A) : M A :=
  fun st =>
    match body st with
    | (Returned a, st') => (Returned a, st')
    | (Raised e, st') => handler e st'
    end.

Notation "x <- m ;; k" := (bind m (fun x => k))
  (at level 20, m at level 99, k at level 200, only parsing).
Notation "m ;;; k" := (bind m (fun _ => k))
  (at level 20, k at level 200, only parsing).

Definition set_author (author_name : string) (v : option string) : M unit :=
  fun st => (Returned tt,
             {| paper_cache := paper_cache st;
                author_cache := <[author_name := v]> (author_cache st);
                requests := requests st |}).

Definition set_paper (cache_key : string) (v : option Paper) : M unit :=
  fun st => (Returned tt,
             {| paper_cache := <[cache_key := v]> (paper_cache st);
                author_cache := author_cache st;
                requests := requests st |}).

Definition logged (r : Countries.Request) (st : Lookup) : Lookup :=
  {| paper_cache := paper_cache st;
     author_cache := author_cache st;
     requests := (requests st ++ [r])%list |}.

Definition raise_for_status {D} (response : Countries.Response D) : M unit :=
  if Nat.leb 400 (Countries.status_code response)
     && Nat.ltb (Countries.status_code response) 600
  then raise HTTPError else ret tt.

Definition json {D} (response : Countries.Response D) : M D :=
  match Countries.json_body response with
  | Some d => ret d
  | None => raise JSONDecodeError
  end.

(** Truthiness of a paper object: a dictionary with at least one key *)
Definition truthy_paper (p : Paper) : bool :=
  match title p, authors p with
  | None, None => other_fields p
  | _, _ => true
  end.

(** *** Tier 2, the choice of the paper *)

(** [paper.get('title', '').lower()] *)
Definition candidate_title (candidate : option Paper) : result string :=
  match candidate with
  | None => Raised AttributeError
  | Some paper =>
      match title paper with
      | None => Returned EmptyString
      | Some (JString t) => Returned (lower t)
      | Some NotString => Raised AttributeError
      end
  end.

(** [for paper in data['data']], up to the [return paper] *)
Fixpoint best_match (clean : string) (candidates : list (option Paper))
  : result (option Paper) :=
  match candidates with
  | [] => Returned None
  | candidate :: rest =>
      match candidate_title candidate with
      | Raised e => Raised e
      | Returned paper_title =>
          if is_in paper_title clean || is_in clean paper_title then Returned candidate
          else best_match clean rest
      end
  end.

(** *** The keyword scan *)

(** [for affiliation in author['affiliations']] *)
Fixpoint affiliation_loop (affs : list JText) : result (option string) :=
  match affs with
  | [] => Returned None
  | NotString :: _ => Raised AttributeError
  | JString affiliation :: rest =>
      match Countries.classify_affiliation affiliation with
      | Some code => Returned (Some code)
      | None => affiliation_loop rest
      end
  end.

(** The body of [for author in paper['authors']] *)
Definition author_scan (author : option Author) : result (option string) :=
  match author with
  | None => Raised TypeError
  | Some a =>
      match affiliations a with
      | None => Returned None
      | Some NotIterable => Raised TypeError
      | Some (Items affs) => affiliation_loop affs
      end
  end.

Fixpoint author_loop (paper_authors : list (option Author)) : result (option string) :=
  match paper_authors with
  | [] => Returned None
  | author :: rest =>
      match author_scan author with
      | Raised e => Raised e
      | Returned (Some code) => Returned (Some code)
      | Returned None => author_loop rest
      end
  end.

Definition extract_country_from_semantic_scholar (paper : option Paper)
  : result (option string) :=
  match paper with
  | None => Returned None
  | Some p =>
      if negb (truthy_paper p) then Returned None
      else match authors p with
           | None => Returned None
           | Some NotIterable => Raised TypeError
           | Some (Items paper_authors) => author_loop paper_authors
           end
  end.

(** *** What each tier makes of a reply *)

(** The lookup of Tier 2 fails: no reply, a status other than 200, or a
    body that is not JSON. *)
Definition tier2_error (r : Countries.Reply Data) : bool :=
  match r with
  | Countries.NoReply => true
  | Countries.Replied resp =>
      negb (Nat.eqb (Countries.status_code resp) 200)
      || match Countries.json_body resp with None => true | Some _ => false end
  end.

(** Reading the candidates of a reply raises: a candidate that is no
    object, or a title that is no string, comes before any match. *)
Definition tier2_misread (clean : string) (r : Countries.Reply Data) : bool :=
  match r with
  | Countries.NoReply => false
  | Countries.Replied resp =>
      Nat.eqb (Countries.status_code resp) 200
      && match Countries.json_body resp with
         | Some d =>
             match data d with
             | Some candidates =>
                 match best_match clean candidates with
                 | Raised _ => true
                 | Returned _ => false
                 end
             | None => false
             end
         | None => false
         end
  end.

(** The paper Tier 2 reads off a reply; none when reading it raises *)
Definition semantic_scholar_answer (clean : string) (r : Countries.Reply Data)
  : option Paper :=
  match r with
  | Countries.NoReply => None
  | Countries.Replied resp =>
      if Nat.eqb (Countries.status_code resp) 200 then
        match Countries.json_body resp with
        | Some d =>
            match data d with
            | Some candidates =>
                match best_match clean candidates with
                | Returned found => found
                | Raised _ => None
                end
            | None => None
            end
        | None => None
        end
      else None
  end.

Section Services.
(** The two services; the number is the count of requests sent before. *)
Variable openalex : nat -> string -> Countries.Reply Countries.OpenAlexData.
Variable semantic_scholar : nat -> string -> Countries.Reply Data.

Definition get_openalex (author_name : string)
  : M (Countries.Response Countries.OpenAlexData) :=
  fun st =>
    match openalex (List.length (requests st)) author_name with
    | Countries.NoReply =>
        (Raised RequestException, logged (Countries.OpenAlexAuthors author_name) st)
    | Countries.Replied r =>
        (Returned r, logged (Countries.OpenAlexAuthors author_name) st)
    end.

Definition get_semantic_scholar (query : string) : M (Countries.Response Data) :=
  fun st =>
    match semantic_scholar (List.length (requests st)) query with
    | Countries.NoReply =>
        (Raised RequestException, logged (Countries.SemanticScholarSearch query) st)
    | Countries.Replied r =>
        (Returned r, logged (Countries.SemanticScholarSearch query) st)
    end.

(** The [try] block of [get_country_from_openalex]: [Some cc] when it
    returns [cc] from the function, [None] when control leaves it. *)
Definition openalex_try (author_name : string) : M (option string) :=
  try_except
    (response <- get_openalex author_name ;;
     raise_for_status response ;;;
     d <- json response ;;
     match Countries.openalex_country d with
     | Some cc => set_author author_name (Some cc) ;;; ret (Some cc)
     | None => ret None
     end)
    (fun _ => ret None).

Definition get_country_from_openalex (author_name : string) : M (option string) :=
  fun st =>
    match author_cache st !! author_name with
    | Some cached => (Returned cached, st)
    | None =>
        (found <- openalex_try author_name ;;
         match found with
         | Some cc => ret (Some cc)
         | None => set_author author_name None ;;; ret None
         end) st
    end.

Definition get_semantic_scholar_paper (paper_title : string) (paper_authors : list string)
  : M (option Paper) :=
  let clean := Countries.clean_title paper_title in
  let cache_key := "ss_" ++ clean in
  fun st =>
    match paper_cache st !! cache_key with
    | Some cached => (Returned cached, st)
    | None =>
        try_except
          (let first_author := List.hd EmptyString paper_authors in
           let query := paper_title ++ " " ++ first_author in
           response <- get_semantic_scholar query ;;
           found <- (if Nat.eqb (Countries.status_code response) 200
                     then d <- json response ;;
                          match data d with
                          | Some candidates => pure (best_match clean candidates)
                          | None => ret None
                          end
                     else ret None) ;;
           match found with
           | Some paper => set_paper cache_key (Some paper) ;;; ret (Some paper)
           | None => set_paper cache_key None ;;; ret None
           end)
          (fun _ => set_paper cache_key None ;;; ret None) st
    end.

(** The scan of the paper runs outside every [try]. *)
Definition get_author_country (paper_title authors_str : string) : M (option string) :=
  let paper_authors := List.map strip (split "," authors_str) in
  let first_author := List.hd EmptyString paper_authors in
  if negb (truthy first_author) then ret None
  else
    country <- get_country_from_openalex first_author ;;
    if Countries.truthy_opt country then ret country
    else
      paper <- get_semantic_scholar_paper paper_title paper_authors ;;
      match paper with
      | Some p =>
          if truthy_paper p then
            found <- pure (extract_country_from_semantic_scholar (Some p)) ;;
            match found with
            | Some country' =>
                if truthy country'
                then set_author first_author (Some country') ;;; ret (Some country')
                else ret None
            | None => ret None
            end
          else ret None
      | None => ret None
      end.

End Services.

(** *** Answers of the documented types *)

Definition of_author (a : Countries.SSAuthor) : Author :=
  {| affiliations :=
       match Countries.author_affiliations a with
       | Some affs => Some (Items (List.map JString affs))
       | None => None
       end |}.

Definition of_paper (p : Countries.SSPaper) : Paper :=
  {| title := match Countries.paper_title p with
              | Some t => Some (JString t)
              | None => None
              end;
     authors := match Countries.paper_authors p with
                | Some l => Some (Items (List.map (fun a => Some (of_author a)) l))
                | None => None
                end;
     other_fields := Countries.other_fields p |}.

Definition of_cached (cached : option Countries.SSPaper) : option Paper :=
  match cached with
  | Some p => Some (of_paper p)
  | None => None
  end.

Definition of_data (d : Countries.SSData) : Data :=
  {| data := match Countries.data d with
             | Some papers => Some (List.map (fun p => Some (of_paper p)) papers)
             | None => None
             end |}.

Definition of_reply (r : Countries.Reply Countries.SSData) : Countries.Reply Data :=
  match r with
  | Countries.NoReply => Countries.NoReply
  | Countries.Replied resp =>
      Countries.Replied
        {| Countries.status_code := Countries.status_code resp;
           Countries.json_body :=
             match Countries.json_body resp with
             | Some d => Some (of_data d)
             | None => None
             end |}
  end.

Definition of_lookup (st : Countries.Lookup) : Lookup :=
  {| paper_cache := of_cached <$> Countries.paper_cache st;
     author_cache := Countries.author_cache st;
     requests := Countries.requests st |}.

Definition of_result {A} (r : Countries.result A) : result A :=
  match r with
  | Countries.Returned a => Returned a
  | Countries.Raised Countries.RequestException => Raised RequestException
  | Countries.Raised Countries.HTTPError => Raised HTTPError
  | Countries.Raised Countries.JSONDecodeError => Raised JSONDecodeError
  end.

(** No cache entry of [st] is missing in [st']. *)
Definition keeps_entries (st st' : Lookup) : Prop :=
  (forall b, is_Some (author_cache st !! b) -> is_Some (author_cache st' !! b))
  /\ (forall k, is_Some (paper_cache st !! k) -> is_Some (paper_cache st' !! k)).

(** The requests of [st'] that [st] did not have yet *)
Definition sent_since (st st' : Lookup) : list Countries.Request :=
  List.skipn (List.length (requests st)) (requests st').

End Wire.

(** ** More sample inputs *)

Module DiscoveryExamples.
Import ConfScraper Discovery.

Definition toc (h : string) : ContentLink :=
  {| url := h; title := "SIGMOD 2020"; section := "toc-link"; type := "table_of_contents" |}.

Definition nav (h : string) : ContentLink :=
  {| url := h; title := "SIGMOD"; section := "nav-link"; type := "database_page" |}.

Definition sigmod2020 : string := "https://dblp.org/db/conf/sigmod/sigmod2020.html".

(** An entry with a table-of-contents link, an export link and a venue
    link in its navigation. *)
Definition entry2020 : Entry :=
  {| toc_link := Ok (Some sigmod2020);
     entry_title := Ok " SIGMOD 2020 ";
     entry_cite := Raise NoSuchElementException;
     nav_links := Ok
       [ {| href := Some "https://dblp.org/rec/conf/sigmod/2020.xml";
            title_attr := Some "XML"; anchor_text := "XML" |};
         {| href := Some sigmod2020; title_attr := None; anchor_text := " SIGMOD " |} ] |}.

Definition seed : SeedPage :=
  {| publ_lists := Ok [Ok [entry2020]];
     all_anchors := Ok
       [ {| href := Some sigmod2020; title_attr := None;
            anchor_text := "[contents]" |};
         {| href := Some "https://doi.org/10.1145/3318464"; title_attr := None;
            anchor_text := "proceedings" |} ] |}.

Definition browser : string -> outcome SeedPage := fun _ => Ok seed.

End DiscoveryExamples.

Module JournalExamples.
Import ConfScraper JournalScraper.

Definition volume12 : Anchor :=
  {| a_text := " Volume 12: 2019 "; a_href := Some "https://dblp.org/db/journals/tods/tods12.html" |}.

Definition home : Anchor :=
  {| a_text := "home"; a_href := Some "https://dblp.org/" |}.

(** An element of class [volume-link] that carries no [href] *)
Definition bare : Anchor := {| a_text := "more"; a_href := None |}.

Definition tods : JournalPage :=
  {| h1 := Ok " ACM Transactions on Database Systems ";
     page_source := "ISSN 0362-5915";
     css_links := fun selector =>
       if String.eqb selector "li a" then Ok [home; volume12] else Ok [];
     xpath_links := Ok [] |}.

(** The same page, where the class [volume-link] is also given to an
    element without [href]. *)
Definition tods_bare : JournalPage :=
  {| h1 := Raise NoSuchElementException;
     page_source := "";
     css_links := fun selector =>
       if String.eqb selector ".volume-link" then Ok [volume12; bare]
       else if String.eqb selector "li a" then Ok [home; volume12] else Ok [];
     xpath_links := Ok [] |}.

Definition article : PaperElement :=
  {| title_of := fun selector =>
       if String.eqb selector "span.title" then Ok " Access Path Selection. "
       else Raise NoSuchElementException;
     authors_of := fun selector =>
       if String.eqb selector "span[itemprop='author']" then Ok [" P. Griffiths Selinger "; " "; "M. Astrahan"]
       else Ok [];
     first_link := Ok (Some "https://doi.org/10.1145/582095.582099");
     element_text := "Access Path Selection. Vol. 4 No. 2 (1979) 23-34 doi:10.1145/582095.582099" |}.

(** A paper element whose authors are shown by two selectors, with
    different texts *)
Definition two_lists : PaperElement :=
  {| title_of := fun _ => Ok "Access Path Selection.";
     authors_of := fun selector =>
       if String.eqb selector ".author" then Ok ["P. Selinger"]
       else if String.eqb selector "a[href*='/pers/']" then Ok ["Patricia G. Selinger"]
       else Ok [" "];
     first_link := Raise NoSuchElementException;
     element_text := "" |}.

Definition tods12 : VolumePage :=
  fun selector => if String.eqb selector "cite.data" then Ok [article] else Ok [].

Definition journal_web : string -> outcome JournalPage := fun _ => Ok tods.

Definition volume_web : string -> outcome VolumePage := fun _ => Ok tods12.

Definition alter_ok : list string -> string -> bool := fun _ _ => true.

Definition accepts : list Row -> Row -> bool := fun _ _ => true.

(** A table made by an earlier program, with two columns of its own *)
Definition legacy : Table := {| columns := ["id"; "title"]; rows := [] |}.

Definition no_table : Table := {| columns := []; rows := [] |}.

End JournalExamples.

Module WireExamples.
Import Wire.

(** A candidate whose [authors] is [null] *)
Definition null_authors : Paper :=
  {| title := Some (JString "A Study of X"); authors := Some NotIterable;
     other_fields := true |}.

(** A candidate whose title is [null] *)
Definition null_title : Paper :=
  {| title := Some NotString; authors := None; other_fields := true |}.

(** The paper search answers every query with the given candidates. *)
Definition search_answers (candidates : list (option Paper))
  : nat -> string -> Countries.Reply Data :=
  fun _ _ =>
    Countries.Replied {| Countries.status_code := 200;
                         Countries.json_body := Some {| data := Some candidates |} |}.

Definition fresh : Lookup := {| paper_cache := ∅; author_cache := ∅; requests := [] |}.

End WireExamples.

(** * Properties *)

Example split_ex : Str.split "," "Jane Doe, John Roe" = ["Jane Doe"; " John Roe"].
Proof. reflexivity. Qed.

Example strip_ex : Str.strip "  A Study of X  " = "A Study of X".
Proof. reflexivity. Qed.

Example lower_ex : Str.lower "Tsinghua University" = "tsinghua university".
Proof. reflexivity. Qed.

Example re_year_ex : Re.search Re.year_at "presented in 1999 at" = Some "1999".
Proof. reflexivity. Qed.
Example re_vol_ex : Re.search Re.vol_at "J. Vol. 12, 2019" = Some "12".
Proof. reflexivity. Qed.
Example re_range_ex : Re.search Re.year_range_at "2017-2019" = Some "2017-2019".
Proof. reflexivity. Qed.
Example re_range_ex2 : Re.search Re.year_range_at "a 2017-19." = Some "2017-19".
Proof. reflexivity. Qed.
Example vol_info_ex :
  Journals.extract_volume_info "Volume 12, 2019" !! "year" = Some "2019"
  /\ Journals.extract_volume_info "Volume 12, 2019" !! "volume" = Some "12".
Proof. split; vm_compute; reflexivity. Qed.

(** Facts on the primitives shared by the developments below. *)
Section StrFacts.
Import Str.

Lemma lower_char_idem c : lower_char (lower_char c) = lower_char c.
Proof.
  destruct c as [[] [] [] [] [] [] [] []]; reflexivity.
Qed.

Lemma lower_idem s : lower (lower s) = lower s.
Proof.
  induction s as [|c s IH]; simpl; [reflexivity|].
  now rewrite lower_char_idem, IH.
Qed.

Lemma startswith_lower p s :
  startswith p s = true -> startswith (lower p) (lower s) = true.
Proof.
  revert s; induction p as [|a p IH]; intros [|b s]; simpl; try easy.
  destruct (Ascii.eqb a b) eqn:E; [|discriminate].
  apply Ascii.eqb_eq in E; subst b.
  rewrite Ascii.eqb_refl. apply IH.
Qed.

Lemma is_in_lower p s : is_in p s = true -> is_in (lower p) (lower s) = true.
Proof.
  induction s as [|c s IH]; simpl; intros H.
  - apply orb_true_iff in H as [H|H]; [|discriminate].
    destruct p; [reflexivity|discriminate].
  - apply orb_true_iff in H as [H|H].
    + apply (startswith_lower p (String c s)) in H. simpl in H.
      rewrite H. reflexivity.
    + rewrite (IH H). apply orb_true_r.
Qed.

Lemma any_in_Exists ps s :
  any_in ps s = true <-> Exists (fun p => is_in p s = true) ps.
Proof.
  unfold any_in. induction ps as [|p ps IH]; simpl.
  - split; [discriminate | intros H; inversion H].
  - rewrite orb_true_iff, IH. split.
    + intros [H|H]; [now left | now right].
    + intros H; inversion H; subst; [now left | now right].
Qed.

Lemma any_in_false ps s :
  any_in ps s = false <-> Forall (fun p => is_in p s = false) ps.
Proof.
  unfold any_in. induction ps as [|p ps IH]; simpl.
  - split; [constructor | reflexivity].
  - rewrite orb_false_iff, IH. split.
    + intros [H1 H2]. now constructor.
    + intros H; inversion H; subst. now split.
Qed.

End StrFacts.

(** ** Link classifier *)

Example link_ok :
  ConfScraper.is_valid_content_link "https://dblp.org/db/conf/sigmod/sigmod2020.html" = true.
Proof. reflexivity. Qed.

Example link_export :
  ConfScraper.is_valid_content_link "https://dblp.org/db/conf/sigmod/sigmod2020.xml" = false.
Proof. reflexivity. Qed.

Section LinkClassifier.
Import Str ConfScraper.

Lemma skip_loop_any pats url : skip_loop pats url = any_in pats (lower url).
Proof.
  unfold any_in. induction pats as [|p pats IH]; simpl; [reflexivity|].
  rewrite IH. now destruct (is_in p (lower url)).
Qed.

Lemma skip_patterns_lowercase : Forall (fun p => lower p = p) skip_patterns.
Proof.
  unfold skip_patterns.
  repeat (apply List.Forall_cons; [reflexivity|]).
  apply List.Forall_nil.
Qed.

(** The three tests in the order the function makes them. *)
Lemma is_valid_content_link_order url :
  is_valid_content_link url =
  is_in "dblp.org" url && (negb (any_in skip_patterns (lower url)) && any_in valid_patterns url).
Proof.
  unfold is_valid_content_link. rewrite skip_loop_any.
  destruct url as [|c u]; [reflexivity|].
  change (negb (truthy (String c u))) with false. cbv iota.
  destruct (is_in "dblp.org" (String c u)); [|reflexivity].
  now destruct (any_in skip_patterns (lower (String c u))).
Qed.

Lemma is_valid_content_link_iff url :
  is_valid_content_link url = true <-> decided_content_link url.
Proof.
  rewrite is_valid_content_link_order. unfold decided_content_link.
  rewrite <- any_in_false, <- any_in_Exists.
  rewrite !andb_true_iff, negb_true_iff. reflexivity.
Qed.

Lemma skip_pattern_rejects url p :
  In p skip_patterns -> is_in p (lower url) = true ->
  is_valid_content_link url = false.
Proof.
  intros Hin Hp. rewrite is_valid_content_link_order.
  assert (any_in skip_patterns (lower url) = true) as ->.
  { apply any_in_Exists, List.Exists_exists. exists p. split; assumption. }
  simpl. apply andb_false_r.
Qed.

End LinkClassifier.

(** C1, as the function decides it. A link is accepted exactly when it
    contains "dblp.org", its lowercased form contains none of the skip
    patterns, and it contains one of the valid patterns; the tests are made
    in this order, each one cutting the later ones short; a link that
    contains a skip pattern, such as the citation aggregators
    "semanticscholar" and "citeseer", is rejected whatever else it
    contains. *)
Theorem is_valid_content_link_decides (url : string) :
  (ConfScraper.is_valid_content_link url = true <-> ConfScraper.decided_content_link url)
  /\ ConfScraper.is_valid_content_link url =
       Str.is_in "dblp.org" url
       && (negb (Str.any_in ConfScraper.skip_patterns (Str.lower url))
           && Str.any_in ConfScraper.valid_patterns url)
  /\ (forall p, In p ConfScraper.skip_patterns -> Str.is_in p url = true ->
        ConfScraper.is_valid_content_link url = false).
Proof.
  split; [apply is_valid_content_link_iff|].
  split; [apply is_valid_content_link_order|].
  intros p Hp Hin.
  pose proof skip_patterns_lowercase as Hall.
  rewrite List.Forall_forall in Hall.
  apply (skip_pattern_rejects url p Hp).
  rewrite <- (Hall p Hp). now apply is_in_lower.
Qed.

Lemma is_valid_content_link_decides_witness :
  Str.is_in "semanticscholar" "https://dblp.org/db/conf/semanticscholar/contents" = true
  /\ ConfScraper.is_valid_content_link "https://dblp.org/db/conf/semanticscholar/contents" = false.
Proof.
  split; [reflexivity|].
  apply (proj2 (proj2 (is_valid_content_link_decides
                         "https://dblp.org/db/conf/semanticscholar/contents"))
           "semanticscholar").
  - simpl; tauto.
  - reflexivity.
Defined.

(** C1 as stated fails when a skip pattern occurs in the link in another
    case: this link contains "dblp.org", none of the skip patterns and the
    valid pattern "/db/conf/", and is rejected, because its lowercased form
    contains "ris". *)
Lemma is_valid_content_link_case_counterexample :
  ~ (ConfScraper.is_valid_content_link "https://dblp.org/db/conf/IRIS/index.html" = true
     <-> ConfScraper.contains_read_content_link "https://dblp.org/db/conf/IRIS/index.html").
Proof.
  intros [_ H].
  assert (ConfScraper.is_valid_content_link "https://dblp.org/db/conf/IRIS/index.html" = true)
    as Hv; [|discriminate Hv].
  apply H. unfold ConfScraper.contains_read_content_link.
  split; [reflexivity|]. split.
  - unfold ConfScraper.skip_patterns.
    repeat (apply List.Forall_cons; [reflexivity|]). apply List.Forall_nil.
  - apply List.Exists_cons_hd. reflexivity.
Qed.

(** ** Record classifier *)

Example entry_editor_with_author :
  ConfScraper.is_paper_entry
    (EntryExamples.node "entry editor" [EntryExamples.jane] "Proceedings of X 2020") = false.
Proof. reflexivity. Qed.

Example entry_study :
  ConfScraper.is_paper_entry (EntryExamples.node "entry" [] "A Study of X") = true.
Proof. reflexivity. Qed.

Section RecordClassifier.
Import Str ConfScraper.

Lemma is_paper_entry_unreadable element e :
  class_attr element = Raise e -> is_paper_entry element = false.
Proof. unfold is_paper_entry. now intros ->. Qed.

Lemma is_paper_entry_readable element c :
  class_attr element = Ok c ->
  is_paper_entry element = cascade has_substantial_title (or_empty c) element.
Proof. unfold is_paper_entry, cascade. now intros ->. Qed.

Lemma cascade_editorial rule4 classes element :
  editorial classes = true -> cascade rule4 classes element = false.
Proof. unfold cascade. now intros ->. Qed.

Lemma cascade_type rule4 classes element :
  editorial classes = false -> publication_type classes = true ->
  cascade rule4 classes element = true.
Proof. unfold cascade. now intros -> ->. Qed.

Lemma cascade_authors rule4 classes element :
  editorial classes = false -> has_authors element = true ->
  cascade rule4 classes element = true.
Proof.
  unfold cascade. intros -> ->. now destruct (publication_type classes).
Qed.

Lemma cascade_rule4 rule4 classes element :
  editorial classes = false -> rule4 element = true ->
  cascade rule4 classes element = true.
Proof.
  unfold cascade. intros -> ->.
  destruct (publication_type classes); [reflexivity|].
  now destruct (has_authors element).
Qed.

Lemma cascade_otherwise rule4 classes element :
  publication_type classes = false -> has_authors element = false ->
  rule4 element = false -> cascade rule4 classes element = false.
Proof.
  unfold cascade. intros -> -> ->. now destruct (editorial classes).
Qed.

End RecordClassifier.

(** C2, as the function decides it. On a node whose class attribute can be
    read, [is_paper_entry] is the five-rule cascade, first match winning,
    with rule (4) reading the title text trimmed of surrounding whitespace:
    (1) an editorial or table-of-contents class rejects, author spans or not;
    (2) a publication-type class accepts; (3) an author span accepts; (4) a
    trimmed title of more than 10 characters accepts; (5) otherwise the node
    is rejected. A node with title "A Study of X", no author span and no
    class of rules (1) and (2) is accepted by rule (4). *)
Theorem is_paper_entry_cascade (element : ConfScraper.Element) (c : option string) :
  ConfScraper.class_attr element = ConfScraper.Ok c ->
  let classes := ConfScraper.or_empty c in
  ConfScraper.is_paper_entry element
    = ConfScraper.cascade ConfScraper.has_substantial_title classes element
  /\ (ConfScraper.editorial classes = true -> ConfScraper.is_paper_entry element = false)
  /\ (ConfScraper.editorial classes = false ->
      ConfScraper.publication_type classes = true
      \/ ConfScraper.has_authors element = true
      \/ ConfScraper.has_substantial_title element = true ->
      ConfScraper.is_paper_entry element = true)
  /\ (ConfScraper.publication_type classes = false ->
      ConfScraper.has_authors element = false ->
      ConfScraper.has_substantial_title element = false ->
      ConfScraper.is_paper_entry element = false)
  /\ (ConfScraper.editorial classes = false ->
      ConfScraper.publication_type classes = false ->
      ConfScraper.author_spans element = ConfScraper.Ok [] ->
      ConfScraper.title_span element = ConfScraper.Ok "A Study of X" ->
      ConfScraper.has_substantial_title element = true
      /\ ConfScraper.is_paper_entry element = true).
Proof.
  intros Hc classes.
  rewrite (is_paper_entry_readable element c Hc). fold classes.
  split; [reflexivity|].
  split; [apply cascade_editorial|].
  split.
  { intros He [H|[H|H]].
    - now apply cascade_type.
    - now apply cascade_authors.
    - now apply cascade_rule4. }
  split; [apply cascade_otherwise|].
  intros He Hp Ha Ht.
  assert (ConfScraper.has_substantial_title element = true) as H4.
  { unfold ConfScraper.has_substantial_title. rewrite Ht. reflexivity. }
  split; [exact H4 | now apply cascade_rule4].
Qed.

Lemma is_paper_entry_cascade_witness :
  ConfScraper.class_attr (EntryExamples.node "entry" [] "A Study of X")
    = ConfScraper.Ok (Some "entry")
  /\ ConfScraper.is_paper_entry (EntryExamples.node "entry" [] "A Study of X") = true.
Proof.
  split; [reflexivity|].
  apply (proj2 (proj2 (proj2 (proj2
           (is_paper_entry_cascade (EntryExamples.node "entry" [] "A Study of X")
              (Some "entry") eq_refl))))); reflexivity.
Defined.

(** C2 as stated fails on rule (4): the title text below has 11 characters,
    the node has neither class nor author span, and it is rejected, because
    the trimmed title has 7 characters. *)
Lemma is_paper_entry_padded_title_counterexample :
  Str.longer_than 10 EntryExamples.padded_title = true
  /\ ConfScraper.cascade ConfScraper.title_text_exceeds_10 "entry"
       (EntryExamples.node "entry" [] EntryExamples.padded_title) = true
  /\ ConfScraper.is_paper_entry
       (EntryExamples.node "entry" [] EntryExamples.padded_title) = false.
Proof. repeat split; reflexivity. Qed.

(** ** Record-level deduplication *)

Section Dedup.
Import Str ConfScraper.

Lemma is_space_lower_char c : is_space (lower_char c) = is_space c.
Proof. destruct c as [[] [] [] [] [] [] [] []]; reflexivity. Qed.

Lemma lstrip_lower s : lstrip (lower s) = lower (lstrip s).
Proof.
  induction s as [|c s IH]; simpl; [reflexivity|].
  rewrite is_space_lower_char. now destruct (is_space c).
Qed.

Lemma rstrip_lower s : rstrip (lower s) = lower (rstrip s).
Proof.
  induction s as [|c s IH]; simpl; [reflexivity|].
  rewrite IH, is_space_lower_char.
  destruct (rstrip s); simpl; [now destruct (is_space c) | reflexivity].
Qed.

Lemma strip_lower s : strip (lower s) = lower (strip s).
Proof. unfold strip. now rewrite lstrip_lower, rstrip_lower. Qed.

Lemma truthy_lower s : truthy (lower s) = truthy s.
Proof. now destruct s. Qed.

(** Whether a title is blank can be read off the key. *)
Lemma key_blank p q :
  paper_key p = paper_key q ->
  truthy (strip (name p)) = truthy (strip (name q)).
Proof.
  unfold paper_key. intros [= H _].
  rewrite <- (truthy_lower (strip (name p))), <- (truthy_lower (strip (name q))).
  now rewrite <- !strip_lower, H.
Qed.

Lemma fold_dedup_step papers acc seen :
  fst (fold_left dedup_step papers (acc, seen)) = (acc ++ first_occurrences seen papers)%list.
Proof.
  revert acc seen; induction papers as [|p papers IH]; intros acc seen; simpl.
  - now rewrite app_nil_r.
  - destruct (bool_decide (paper_key p ∉ seen) && truthy (strip (name p))).
    + rewrite IH, <- app_assoc. reflexivity.
    + apply IH.
Qed.

Lemma dedup_papers_first_occurrences papers :
  dedup_papers papers = first_occurrences ∅ papers.
Proof. unfold dedup_papers. now rewrite fold_dedup_step. Qed.

Lemma first_occurrences_elem seen papers q :
  (q ∈ first_occurrences seen papers) ->
  (paper_key q ∉ seen) /\ truthy (strip (name q)) = true /\ (q ∈ papers).
Proof.
  revert seen; induction papers as [|p papers IH]; intros seen; simpl.
  - intros H; inversion H.
  - destruct (bool_decide (paper_key p ∉ seen)) eqn:Hs;
      destruct (truthy (strip (name p))) eqn:Ht; simpl;
      try (intros H; destruct (IH _ H) as (? & ? & ?);
           repeat split; [assumption | assumption | now apply list_elem_of_further]).
    intros H. apply elem_of_cons in H as [->|H].
    + apply bool_decide_eq_true in Hs.
      repeat split; [assumption | assumption | apply list_elem_of_here].
    + destruct (IH _ H) as (Hk & ? & ?).
      repeat split; [| assumption | now apply list_elem_of_further].
      intros Hq. apply Hk, elem_of_union. now right.
Qed.

Lemma first_occurrences_nodup seen papers :
  NoDup (List.map paper_key (first_occurrences seen papers)).
Proof.
  revert seen; induction papers as [|p papers IH]; intros seen; simpl.
  - constructor.
  - destruct (bool_decide (paper_key p ∉ seen) && truthy (strip (name p))); [|apply IH].
    simpl. constructor; [|apply IH].
    intros Hin. apply list_elem_of_fmap in Hin as (q & Hq & Hin).
    apply first_occurrences_elem in Hin as (Hk & _ & _).
    rewrite <- Hq in Hk. set_solver.
Qed.

Lemma first_occurrences_idem seen papers :
  first_occurrences seen (first_occurrences seen papers) = first_occurrences seen papers.
Proof.
  revert seen; induction papers as [|p papers IH]; intros seen; simpl; [reflexivity|].
  destruct (bool_decide (paper_key p ∉ seen) && truthy (strip (name p))) eqn:E.
  - simpl. rewrite E. f_equal. apply IH.
  - apply IH.
Qed.

Lemma first_occurrences_sublist seen papers :
  sublist (first_occurrences seen papers) papers.
Proof.
  revert seen; induction papers as [|p papers IH]; intros seen; simpl.
  - constructor.
  - destruct (bool_decide (paper_key p ∉ seen) && truthy (strip (name p))).
    + apply sublist_skip, IH.
    + apply sublist_cons, IH.
Qed.

(** The first record of a key with a title is kept. *)
Lemma first_occurrences_keeps seen l1 p l2 :
  truthy (strip (name p)) = true ->
  (paper_key p ∉ seen) ->
  (paper_key p ∉ List.map paper_key l1) ->
  (p ∈ first_occurrences seen (l1 ++ p :: l2)%list).
Proof.
  intros Ht. revert seen; induction l1 as [|q l1 IH]; intros seen Hs Hl; simpl.
  - rewrite Ht, bool_decide_eq_true_2 by assumption. apply list_elem_of_here.
  - simpl in Hl. apply not_elem_of_cons in Hl as [Hne Hl].
    destruct (bool_decide (paper_key q ∉ seen) && truthy (strip (name q))).
    + apply list_elem_of_further, IH; [|assumption].
      rewrite not_elem_of_union, not_elem_of_singleton. now split.
    + now apply IH.
Qed.

(** A record is dropped when its key is in [seen], when its title is
    blank, or when an earlier record has its key. *)
Lemma first_occurrences_drops seen l1 p l2 :
  (paper_key p ∈ seen) \/ truthy (strip (name p)) = false
  \/ (paper_key p ∈ List.map paper_key l1) ->
  first_occurrences seen (l1 ++ p :: l2)%list = first_occurrences seen (l1 ++ l2)%list.
Proof.
  revert seen; induction l1 as [|q l1 IH]; intros seen H; simpl.
  - destruct H as [H|[H|H]].
    + now rewrite bool_decide_eq_false_2 by (intros Hn; now apply Hn).
    + rewrite H. now rewrite andb_false_r.
    + inversion H.
  - destruct (bool_decide (paper_key q ∉ seen)) eqn:Hs;
      destruct (truthy (strip (name q))) eqn:Ht; simpl.
    + f_equal. apply IH. destruct H as [H|[H|H]].
      * left. set_solver.
      * now (right; left).
      * simpl in H. apply elem_of_cons in H as [H|H].
        -- left. rewrite H. set_solver.
        -- now (right; right).
    + apply IH. destruct H as [H|[H|H]]; [now left | now (right; left) |].
      simpl in H. apply elem_of_cons in H as [H|H]; [|now (right; right)].
      right; left. now rewrite (key_blank p q H).
    + apply IH. destruct H as [H|[H|H]]; [now left | now (right; left) |].
      simpl in H. apply elem_of_cons in H as [H|H]; [|now (right; right)].
      left. rewrite H. apply bool_decide_eq_false in Hs.
      destruct (decide (paper_key q ∈ seen)); [assumption | contradiction].
    + apply IH. destruct H as [H|[H|H]]; [now left | now (right; left) |].
      simpl in H. apply elem_of_cons in H as [H|H]; [|now (right; right)].
      right; left. now rewrite (key_blank p q H).
Qed.

(** Every record of a list has a first record of its key in the list. *)
Lemma first_occurrence_of_key papers p :
  In p papers ->
  exists l1 first l2,
    papers = (l1 ++ first :: l2)%list
    /\ paper_key first = paper_key p
    /\ (paper_key first ∉ List.map paper_key l1).
Proof.
  induction papers as [|q papers IH]; [intros []|].
  intros Hin.
  destruct (decide (paper_key q = paper_key p)) as [Hq|Hq].
  - exists [], q, papers. repeat split; [exact Hq | apply not_elem_of_nil].
  - destruct Hin as [->|Hin]; [contradiction|].
    destruct (IH Hin) as (l1 & first & l2 & -> & Hk & Hnew).
    exists (q :: l1), first, l2. repeat split; [exact Hk|].
    cbn [List.map]. apply not_elem_of_cons. split; [|exact Hnew].
    rewrite Hk. intros H. now apply Hq.
Qed.

End Dedup.

(** What the page loop collects has a title on every record, so the pass
    that follows sees no blank title. *)
Section CollectedTitles.
Import Str ConfScraper.
Variable now : nat -> string.

Lemma insert_conf_paper_name p db : name (fst (insert_conf_paper now p db)) = name p.
Proof.
  unfold insert_conf_paper.
  destruct (negb (db_file db)); [reflexivity|].
  destruct (truthy (created_at p)); destruct (conf_papers_table db); reflexivity.
Qed.

Lemma scrape_step_titled conference_name content_url papers db e :
  Forall (fun p => truthy (strip (name p)) = true) papers ->
  Forall (fun p => truthy (strip (name p)) = true)
         (fst (scrape_step now conference_name content_url (papers, db) e)).
Proof.
  intros Hall. unfold scrape_step.
  destruct (is_paper_entry e); [|exact Hall].
  destruct (extract_paper_data e conference_name content_url) as [pd|]; [|exact Hall].
  destruct (truthy (strip (name pd))) eqn:Hname; [|exact Hall].
  pose proof (insert_conf_paper_name pd db) as Hn.
  destruct (insert_conf_paper now pd db) as [pd' db']. cbn [fst] in *.
  apply Forall_app. split; [exact Hall|].
  constructor; [now rewrite Hn | constructor].
Qed.

Lemma scrape_loop_titled conference_name content_url elements papers db :
  Forall (fun p => truthy (strip (name p)) = true) papers ->
  Forall (fun p => truthy (strip (name p)) = true)
         (fst (fold_left (scrape_step now conference_name content_url) elements (papers, db))).
Proof.
  revert papers db; induction elements as [|e elements IH]; intros papers db Hall.
  - exact Hall.
  - cbn [fold_left].
    pose proof (scrape_step_titled conference_name content_url papers db e Hall) as Hstep.
    destruct (scrape_step now conference_name content_url (papers, db) e) as [papers1 db1].
    now apply IH.
Qed.

End CollectedTitles.

Example dedup_other_page :
  ConfScraper.dedup_papers
    [SinkExamples.study_record "https://dblp.org/db/conf/sigmod/sigmod2020.html";
     SinkExamples.study_record "https://dblp.org/db/conf/sigmod/sigmod2021.html"]
  = [SinkExamples.study_record "https://dblp.org/db/conf/sigmod/sigmod2020.html"].
Proof. vm_compute. reflexivity. Qed.

(** C6. The key of a record is the pair of its lowercased, trimmed title
    and its lowercased, trimmed authors string: two records have one key
    exactly when their titles agree up to letter case and surrounding
    whitespace and their authors strings do. The deduplication pass gives
    back its own output unchanged; its output has no two records of one key
    and keeps the order of the input; the first record of every key with a
    title is kept, and a record whose key an earlier record carries is
    dropped, whatever its other fields. The list that the page loop hands to
    the pass has a title on every record, so there the first record of every
    key is kept. *)
Theorem dedup_papers_idempotent_first_seen (papers : list ConfScraper.Paper) :
  (forall p q,
      ConfScraper.paper_key p = ConfScraper.paper_key q
      <-> Str.lower (Str.strip (ConfScraper.name p)) = Str.lower (Str.strip (ConfScraper.name q))
          /\ Str.lower (Str.strip (ConfScraper.authors p))
             = Str.lower (Str.strip (ConfScraper.authors q)))
  /\ (forall p q,
        In p papers ->
        ConfScraper.paper_key p
        = (Str.lower (Str.strip (ConfScraper.name q)),
           Str.lower (Str.strip (ConfScraper.authors q))) ->
        Str.truthy (Str.strip (ConfScraper.name q)) = true ->
        exists kept,
          In kept (ConfScraper.dedup_papers papers)
          /\ Str.lower (Str.strip (ConfScraper.name kept))
             = Str.lower (Str.strip (ConfScraper.name q))
          /\ Str.lower (Str.strip (ConfScraper.authors kept))
             = Str.lower (Str.strip (ConfScraper.authors q)))
  /\ ConfScraper.dedup_papers (ConfScraper.dedup_papers papers) = ConfScraper.dedup_papers papers
  /\ ConfScraper.unique_keys (ConfScraper.dedup_papers papers)
  /\ sublist (ConfScraper.dedup_papers papers) papers
  /\ (forall l1 p l2,
        papers = (l1 ++ p :: l2)%list ->
        Str.truthy (Str.strip (ConfScraper.name p)) = true ->
        (ConfScraper.paper_key p ∉ List.map ConfScraper.paper_key l1) ->
        (p ∈ ConfScraper.dedup_papers papers))
  /\ (forall l1 p l2,
        papers = (l1 ++ p :: l2)%list ->
        (ConfScraper.paper_key p ∈ List.map ConfScraper.paper_key l1) ->
        ConfScraper.dedup_papers papers = ConfScraper.dedup_papers (l1 ++ l2)%list)
  /\ (forall now conference_name content_url elements db l1 p l2,
        papers = fst (fold_left (ConfScraper.scrape_step now conference_name content_url)
                        elements ([], db)) ->
        papers = (l1 ++ p :: l2)%list ->
        (ConfScraper.paper_key p ∉ List.map ConfScraper.paper_key l1) ->
        (p ∈ ConfScraper.dedup_papers papers)).
Proof.
  assert (forall p,
             ConfScraper.paper_key p
             = (Str.lower (Str.strip (ConfScraper.name p)),
                Str.lower (Str.strip (ConfScraper.authors p)))) as Hkey.
  { intros p. unfold ConfScraper.paper_key. now rewrite !strip_lower. }
  split.
  { intros p q. rewrite !Hkey. split; [now intros [= -> ->] | now intros [-> ->]]. }
  split.
  { intros p q Hin Hpq Hq.
    assert (ConfScraper.paper_key p = ConfScraper.paper_key q) as Hsame
      by (now rewrite Hpq, Hkey).
    destruct (first_occurrence_of_key papers p Hin) as (l1 & first & l2 & -> & Hk & Hnew).
    exists first. split.
    - apply list_elem_of_In. rewrite dedup_papers_first_occurrences.
      apply first_occurrences_keeps; [|apply not_elem_of_empty | exact Hnew].
      rewrite (key_blank first q); [exact Hq | now rewrite Hk].
    - assert (ConfScraper.paper_key first = ConfScraper.paper_key q) as Hfq
        by (now rewrite Hk).
      rewrite !Hkey in Hfq. injection Hfq as H1 H2. now split. }
  rewrite !dedup_papers_first_occurrences.
  split; [apply first_occurrences_idem|].
  split; [apply first_occurrences_nodup|].
  split; [apply first_occurrences_sublist|].
  assert (forall l1 p l2,
             papers = (l1 ++ p :: l2)%list ->
             Str.truthy (Str.strip (ConfScraper.name p)) = true ->
             (ConfScraper.paper_key p ∉ List.map ConfScraper.paper_key l1) ->
             (p ∈ ConfScraper.first_occurrences ∅ papers)) as Hkeep.
  { intros l1 p l2 -> Ht Hk.
    apply first_occurrences_keeps; [assumption | apply not_elem_of_empty | assumption]. }
  split; [exact Hkeep|]. split.
  - intros l1 p l2 -> Hk.
    rewrite dedup_papers_first_occurrences.
    apply first_occurrences_drops. now (right; right).
  - intros now conference_name content_url elements db l1 p l2 Hloop Hsplit Hk.
    apply (Hkeep l1 p l2 Hsplit); [|exact Hk].
    pose proof (scrape_loop_titled now conference_name content_url elements [] db
                  (List.Forall_nil _)) as Hall.
    rewrite <- Hloop, Hsplit in Hall.
    apply Forall_app in Hall as [_ Hall].
    now apply List.Forall_cons_iff in Hall as [Hp _].
Qed.

Lemma dedup_papers_idempotent_first_seen_witness :
  let first := SinkExamples.study_record "https://dblp.org/db/conf/sigmod/sigmod2020.html" in
  let later :=
    {| ConfScraper.name := "  a STUDY of x "; ConfScraper.authors := " JANE doe";
       ConfScraper.conference_href := "https://dblp.org/db/conf/sigmod/sigmod2021.html";
       ConfScraper.paper_href := ""; ConfScraper.year := "2021"; ConfScraper.isbn := "";
       ConfScraper.pages := ""; ConfScraper.conference_location := "";
       ConfScraper.created_at := ""; ConfScraper.conference_processed := "SIGMOD";
       ConfScraper.edition_name := "" |} in
  first <> later
  /\ ConfScraper.paper_key first = ConfScraper.paper_key later
  /\ (ConfScraper.paper_key later ∈ List.map ConfScraper.paper_key [first])
  /\ ConfScraper.dedup_papers [first; later] = ConfScraper.dedup_papers [first]
  /\ (first ∈ ConfScraper.dedup_papers [first; later]).
Proof.
  intros first later.
  split; [discriminate|].
  assert (ConfScraper.paper_key first = ConfScraper.paper_key later) as Hsame.
  { apply (proj1 (dedup_papers_idempotent_first_seen [first; later]) first later).
    split; vm_compute; reflexivity. }
  split; [exact Hsame|].
  assert (ConfScraper.paper_key later ∈ List.map ConfScraper.paper_key [first]) as Hk.
  { rewrite <- Hsame. apply list_elem_of_here. }
  split; [exact Hk|]. split.
  - apply (proj1 (proj2 (proj2 (proj2 (proj2 (proj2 (proj2
             (dedup_papers_idempotent_first_seen [first; later]))))))) [first] later []
             eq_refl Hk).
  - apply (proj1 (proj2 (proj2 (proj2 (proj2 (proj2
             (dedup_papers_idempotent_first_seen [first; later])))))) [] first [later]
             eq_refl eq_refl).
    simpl. apply not_elem_of_nil.
Defined.

(** ** What reaches the persistence sink *)

Section SinkFacts.
Import Str ConfScraper.
Variable now : nat -> string.
Variable web : string -> outcome (list Element * list Element * list Element).

Lemma insert_conf_paper_open p db :
  table_open db ->
  exists p',
    insert_conf_paper now p db = (p', {| db_file := true; conf_papers_table := true;
                                         rows := (rows db ++ [p'])%list |})
    /\ name p' = name p /\ authors p' = authors p.
Proof.
  intros [Hf Ht]. unfold insert_conf_paper. rewrite Hf, Ht. simpl.
  destruct (truthy (created_at p)); eexists; (split; [reflexivity|]); now split.
Qed.

Lemma scrape_step_rows conference_name content_url papers db e :
  table_open db ->
  exists new db',
    scrape_step now conference_name content_url (papers, db) e = ((papers ++ new)%list, db')
    /\ rows db' = (rows db ++ new)%list
    /\ table_open db'
    /\ Forall (fun p => truthy (strip (name p)) = true) new.
Proof.
  intros Hopen.
  assert (exists new db', (papers, db) = ((papers ++ new)%list, db')
            /\ rows db' = (rows db ++ new)%list /\ table_open db'
            /\ Forall (fun p => truthy (strip (name p)) = true) new) as Hskip.
  { exists [], db. rewrite !app_nil_r. repeat split; try apply Hopen. constructor. }
  unfold scrape_step.
  destruct (is_paper_entry e); [|exact Hskip].
  destruct (extract_paper_data e conference_name content_url) as [pd|]; [|exact Hskip].
  destruct (truthy (strip (name pd))) eqn:Hname; [|exact Hskip].
  destruct (insert_conf_paper_open pd db Hopen) as (p' & -> & Hn & _).
  exists [p'], {| db_file := true; conf_papers_table := true;
                  rows := (rows db ++ [p'])%list |}.
  repeat split. constructor; [now rewrite Hn | constructor].
Qed.

(** With the table there, the loop hands every accepted record to the
    sink at the moment it collects it. *)
Lemma scrape_loop_rows conference_name content_url elements papers db :
  table_open db ->
  exists new db',
    fold_left (scrape_step now conference_name content_url) elements (papers, db)
      = ((papers ++ new)%list, db')
    /\ rows db' = (rows db ++ new)%list
    /\ table_open db'
    /\ Forall (fun p => truthy (strip (name p)) = true) new.
Proof.
  revert papers db; induction elements as [|e elements IH]; intros papers db Hopen.
  - exists [], db. simpl. rewrite !app_nil_r. repeat split; try apply Hopen. constructor.
  - cbn [fold_left].
    destruct (scrape_step_rows conference_name content_url papers db e Hopen)
      as (new1 & db1 & -> & Hrows1 & Hopen1 & Hall1).
    destruct (IH (papers ++ new1)%list db1 Hopen1) as (new2 & db2 & -> & Hrows2 & Hopen2 & Hall2).
    exists (new1 ++ new2)%list, db2.
    rewrite Hrows2, Hrows1, <- !app_assoc.
    repeat split; try apply Hopen2. now apply Forall_app.
Qed.

(** The page function returns the deduplicated records, and has by then
    handed the records as collected, duplicates included, to the sink. *)
Lemma scrape_page_rows content_url conference_name db dom :
  table_open db -> web content_url = Ok dom ->
  exists collected db',
    scrape_papers_from_content_page now web content_url conference_name db
      = (dedup_papers collected, db')
    /\ rows db' = (rows db ++ collected)%list
    /\ Forall (fun p => truthy (strip (name p)) = true) collected.
Proof.
  intros Hopen Hweb. unfold scrape_papers_from_content_page. rewrite Hweb.
  destruct (scrape_loop_rows conference_name content_url (select_elements dom) [] db Hopen)
    as (new & db' & Hfold & Hrows & _ & Hall).
  exists new, db'. rewrite Hfold. simpl. now repeat split.
Qed.

End SinkFacts.

(** C7 on the code. A content page that lists one paper twice: the page
    function returns one record, and two records of one key have been handed
    to the sink. A conference with a single content link that lists a single
    paper: the record is handed to the sink three times. *)
Theorem scrape_hands_duplicate_keys_to_sink :
  let url := "https://dblp.org/db/conf/sigmod/sigmod2020.html" in
  let page := ConfScraper.scrape_papers_from_content_page
                SinkExamples.clock SinkExamples.twice_page url "SIGMOD"
                SinkExamples.empty_table in
  let conf := ConfScraper.run_conference
                SinkExamples.clock SinkExamples.single_page "SIGMOD" [url]
                SinkExamples.empty_table in
  List.length (fst page) = 1
  /\ List.map ConfScraper.paper_key (ConfScraper.rows (snd page))
     = [("a study of x", "jane doe"); ("a study of x", "jane doe")]
  /\ ~ ConfScraper.unique_keys (ConfScraper.rows (snd page))
  /\ List.length (fst conf) = 1
  /\ List.map ConfScraper.paper_key (ConfScraper.rows (snd conf))
     = [("a study of x", "jane doe"); ("a study of x", "jane doe"); ("a study of x", "jane doe")]
  /\ ~ ConfScraper.unique_keys (ConfScraper.rows (snd conf)).
Proof.
  intros url page conf.
  assert (List.map ConfScraper.paper_key (ConfScraper.rows (snd page))
          = [("a study of x", "jane doe"); ("a study of x", "jane doe")]) as Hp
    by (vm_compute; reflexivity).
  assert (List.map ConfScraper.paper_key (ConfScraper.rows (snd conf))
          = [("a study of x", "jane doe"); ("a study of x", "jane doe");
             ("a study of x", "jane doe")]) as Hc
    by (vm_compute; reflexivity).
  unfold ConfScraper.unique_keys. rewrite Hp, Hc.
  split; [vm_compute; reflexivity|].
  split; [reflexivity|].
  split.
  { intros Hn. apply NoDup_cons in Hn as [Hn _]. apply Hn, list_elem_of_here. }
  split; [vm_compute; reflexivity|].
  split; [reflexivity|].
  intros Hn. apply NoDup_cons in Hn as [Hn _]. apply Hn, list_elem_of_here.
Qed.

(** ** Volume and year of journal records *)

Example volume_year_sentence :
  Journals.volume_year "presented in 1999 at" = (Journals.ExactMatch, "1999").
Proof. reflexivity. Qed.

Example volume_year_range_only :
  Journals.volume_year "2017-2019" = (Journals.ExactMatch, "2017").
Proof. reflexivity. Qed.

Example volume_year_glued : Journals.volume_year "x2017-2019" = (Journals.ExactMatch, "2019").
Proof. reflexivity. Qed.

Section YearSearch.
Import Str Re.

Lemma digit_word c : is_digit c = true -> is_word c = true.
Proof. unfold is_word. now intros ->. Qed.

Lemma century_digit a b : century a b = true -> is_digit b = true.
Proof.
  unfold century. rewrite orb_true_iff, !andb_true_iff.
  intros [[_ H]|[_ H]]; apply Ascii.eqb_eq in H; now subst.
Qed.

Lemma range_tail_dash s t : range_tail s = Some t -> exists s', s = String "-" s'.
Proof.
  destruct s as [|h s']; simpl; [discriminate|].
  destruct (Ascii.eqb h "-") eqn:E; [|discriminate].
  apply Ascii.eqb_eq in E. subst h. now exists s'.
Qed.

(** Where the range pattern matches, the exact pattern matches. *)
Lemma year_range_at_exact prev s r :
  year_range_at prev s = Some r -> exists y, year_at prev s = Some y.
Proof.
  destruct s as [|a [|b [|c [|d rest]]]]; simpl; try discriminate.
  destruct (boundary prev (String a (String b (String c (String d rest))))
            && century a b && is_digit c && is_digit d) eqn:E; [|discriminate].
  destruct (range_tail rest) as [t|] eqn:T; [|discriminate].
  intros _. destruct (range_tail_dash rest t T) as [s' ->].
  apply andb_true_iff in E as [_ Hd].
  unfold boundary at 1. cbn [word_before word_at].
  rewrite (digit_word d Hd). cbn. eexists; reflexivity.
Qed.

Lemma search_range_exact prev s r :
  search_from year_range_at prev s = Some r ->
  exists y, search_from year_at prev s = Some y.
Proof.
  revert prev; induction s as [|c s IH]; intros prev; cbn [search_from].
  - destruct (year_range_at prev "") eqn:E; [|discriminate].
    intros _. destruct (year_range_at_exact _ _ _ E) as [y ->]. now exists y.
  - destruct (year_range_at prev (String c s)) eqn:E.
    + intros _. destruct (year_range_at_exact _ _ _ E) as [y ->]. now exists y.
    + intros H. destruct (year_at prev (String c s)) as [y|]; [now exists y|].
      now apply IH.
Qed.

(** The range branch of [extract_volume_info] is never taken. *)
Lemma volume_year_exact text :
  Journals.volume_year text =
  match search year_at text with
  | Some y => (Journals.ExactMatch, y)
  | None => (Journals.NoYear, EmptyString)
  end.
Proof.
  unfold Journals.volume_year.
  destruct (search year_at text) eqn:E; [reflexivity|].
  destruct (search year_range_at text) eqn:R; [|reflexivity].
  destruct (search_range_exact None text _ R) as [y Hy].
  unfold search in E. congruence.
Qed.

End YearSearch.

Section RangeText.
Import Str Re.
Variable post : string.

Let range_text : string := "2017-2019" ++ post.

Lemma nonword_not_digit c : is_word c = false -> is_digit c = false.
Proof.
  intros H. destruct (is_digit c) eqn:E; [|reflexivity].
  now rewrite (digit_word c E) in H.
Qed.

Lemma nonword_not_century a b : is_word b = false -> century a b = false.
Proof.
  intros H. destruct (century a b) eqn:E; [|reflexivity].
  now rewrite (digit_word b (century_digit a b E)) in H.
Qed.

Lemma century_before_2 a : century a "2" = false.
Proof. unfold century. cbn. now rewrite !andb_false_r. Qed.

(** No exact match starts inside a prefix that has none of its own and
    does not end in a word character. *)
Lemma year_at_prefix prev c pre :
  word_before (last_char prev (String c pre)) = false ->
  year_at prev (String c pre) = None ->
  year_at prev (String c pre ++ range_text) = None.
Proof.
  subst range_text.
  destruct pre as [|b [|c' [|d [|e rest]]]]; cbn [last_char word_before]; intros Hw Hy.
  - cbv [append]. unfold year_at.
    rewrite century_before_2, andb_false_r. reflexivity.
  - cbv [append]. unfold year_at.
    rewrite (nonword_not_century c b Hw), andb_false_r. reflexivity.
  - cbv [append]. unfold year_at.
    rewrite (nonword_not_digit c' Hw), andb_false_r. reflexivity.
  - cbv [append]. unfold year_at.
    rewrite (nonword_not_digit d Hw), andb_false_r. reflexivity.
  - exact Hy.
Qed.

Lemma search_prefix pre prev :
  word_before (last_char prev pre) = false ->
  search_from year_at prev pre = None ->
  search_from year_at prev (pre ++ range_text) = Some "2017".
Proof.
  revert prev; induction pre as [|c pre IH]; intros prev Hw Hs.
  - cbn [last_char] in Hw. subst range_text. cbv [append].
    cbn [search_from]. unfold year_at, boundary at 1. rewrite Hw. reflexivity.
  - cbn [search_from] in Hs.
    destruct (year_at prev (String c pre)) eqn:E; [discriminate|].
    change (String c pre ++ range_text) with (String c (pre ++ range_text)).
    cbn [search_from].
    change (String c (pre ++ range_text)) with (String c pre ++ range_text).
    rewrite (year_at_prefix prev c pre Hw E).
    change (String c pre ++ range_text) with (String c (pre ++ range_text)).
    cbn iota. apply IH; assumption.
Qed.

End RangeText.

(** C8, as the function decides it. The year of a volume link is the first
    exact four-digit match, 19xx or 20xx between word boundaries, of its
    text, and empty when there is none: the range pattern is tried only
    after the exact pattern has failed, and then it cannot match, because a
    range starts with an exact match. A text in which "2017-2019" follows a
    prefix without exact match that does not end in a word character yields
    "2017", on the exact-match branch. *)
Theorem volume_year_exact_match_only (volume_text : string) :
  fst (Journals.volume_year volume_text) <> Journals.RangeFallback
  /\ (forall r, Re.search Re.year_range_at volume_text = Some r ->
        exists y, Re.search Re.year_at volume_text = Some y)
  /\ Journals.extract_volume_info volume_text !! "year"
     = Some (Journals.year_from_text volume_text)
  /\ (forall pre post,
        volume_text = pre ++ "2017-2019" ++ post ->
        Re.word_before (Re.last_char None pre) = false ->
        Re.search Re.year_at pre = None ->
        Journals.volume_year volume_text = (Journals.ExactMatch, "2017")).
Proof.
  split.
  { rewrite volume_year_exact. now destruct (Re.search Re.year_at volume_text). }
  split; [intros r; apply search_range_exact|].
  split.
  { unfold Journals.extract_volume_info, Journals.year_from_text.
    rewrite lookup_insert_eq, volume_year_exact.
    now destruct (Re.search Re.year_at volume_text). }
  intros pre post -> Hw Hs.
  rewrite volume_year_exact. unfold Re.search.
  now rewrite (search_prefix post pre None Hw Hs).
Qed.

Lemma volume_year_exact_match_only_witness :
  Re.word_before (Re.last_char None "Volumes 12-14: ") = false
  /\ Re.search Re.year_at "Volumes 12-14: " = None
  /\ Journals.volume_year "Volumes 12-14: 2017-2019" = (Journals.ExactMatch, "2017").
Proof.
  split; [reflexivity|]. split; [reflexivity|].
  apply (proj2 (proj2 (proj2 (volume_year_exact_match_only "Volumes 12-14: 2017-2019")))
           "Volumes 12-14: " "" eq_refl); reflexivity.
Defined.

(** C8 as stated fails on the branch: for the text "2017-2019" the exact
    pattern matches "2017", so the year is not taken on the range branch. *)
Lemma volume_year_range_counterexample :
  Re.search Re.year_at "2017-2019" = Some "2017"
  /\ Journals.volume_year "2017-2019" <> (Journals.RangeFallback, "2017").
Proof. split; [reflexivity | discriminate]. Qed.

Section VolumeContext.
Import Journals.

Lemma extract_volume_info_nonempty volume_text : extract_volume_info volume_text <> ∅.
Proof. unfold extract_volume_info. apply insert_non_empty. Qed.

Lemma from_volume_info_some key d v :
  d !! key = Some v -> from_volume_info key (Some d) = Some v.
Proof.
  intros H. unfold from_volume_info.
  rewrite bool_decide_eq_false_2; [assumption|].
  intros ->. now rewrite lookup_empty in H.
Qed.

Lemma from_volume_info_missing key d :
  d !! key = None -> from_volume_info key (Some d) = None.
Proof. intros H. unfold from_volume_info. now destruct (bool_decide (d = ∅)). Qed.

(** The function on its own: a key of the dictionary is taken over, a
    missing dictionary or key sends the function to the text. *)
Lemma extract_journal_paper_info_year paper_text volume_info :
  extract_journal_paper_info paper_text volume_info !! "year"
  = Some (match from_volume_info "year" volume_info with
          | Some y => y
          | None => year_from_text paper_text
          end).
Proof.
  unfold extract_journal_paper_info.
  rewrite lookup_insert_ne by discriminate. apply lookup_insert_eq.
Qed.

Lemma extract_journal_paper_info_volume paper_text volume_info :
  extract_journal_paper_info paper_text volume_info !! "volume"
  = Some (match from_volume_info "volume" volume_info with
          | Some v => v
          | None => volume_from_text paper_text
          end).
Proof. unfold extract_journal_paper_info. apply lookup_insert_eq. Qed.

Lemma extract_volume_info_year volume_text :
  extract_volume_info volume_text !! "year" = Some (snd (volume_year volume_text)).
Proof. unfold extract_volume_info. apply lookup_insert_eq. Qed.

Lemma extract_volume_info_volume volume_text :
  extract_volume_info volume_text !! "volume" = Some (volume_number volume_text).
Proof.
  unfold extract_volume_info.
  rewrite lookup_insert_ne by discriminate. apply lookup_insert_eq.
Qed.

End VolumeContext.

Example journal_no_context :
  Journals.extract_journal_paper_info "J. Doe: A Study of X. Vol. 12, 2019" None !! "year"
  = Some "2019"
  /\ Journals.extract_journal_paper_info "J. Doe: A Study of X. Vol. 12, 2019" None !! "volume"
     = Some "12".
Proof. split; vm_compute; reflexivity. Qed.

(** C9 on the code. The dictionary made from a volume link always carries
    the keys [year] and [volume], so a record of the volume takes both from
    it and its own text is never read for them. For the link text
    "Special Issue", which supplies neither, the record
    "J. Doe: A Study of X. Vol. 12, 2019" gets an empty year and an empty
    volume, where its text holds "2019" and "12". *)
Theorem paper_of_volume_never_reparses :
  (forall volume_link_text paper_text,
      Journals.paper_of_volume volume_link_text paper_text !! "year"
      = Journals.extract_volume_info volume_link_text !! "year"
      /\ Journals.paper_of_volume volume_link_text paper_text !! "volume"
         = Journals.extract_volume_info volume_link_text !! "volume")
  /\ Journals.extract_volume_info "Special Issue" !! "year" = Some ""
  /\ Journals.extract_volume_info "Special Issue" !! "volume" = Some ""
  /\ Journals.year_from_text "J. Doe: A Study of X. Vol. 12, 2019" = "2019"
  /\ Journals.volume_from_text "J. Doe: A Study of X. Vol. 12, 2019" = "12"
  /\ Journals.paper_of_volume "Special Issue" "J. Doe: A Study of X. Vol. 12, 2019" !! "year"
     = Some ""
  /\ Journals.paper_of_volume "Special Issue" "J. Doe: A Study of X. Vol. 12, 2019" !! "volume"
     = Some "".
Proof.
  split.
  { intros vt pt. unfold Journals.paper_of_volume.
    rewrite extract_journal_paper_info_year, extract_journal_paper_info_volume.
    rewrite (from_volume_info_some "year" _ _ (extract_volume_info_year vt)).
    rewrite (from_volume_info_some "volume" _ _ (extract_volume_info_volume vt)).
    now rewrite extract_volume_info_year, extract_volume_info_volume. }
  repeat split; vm_compute; reflexivity.
Qed.

(** ** Author-country lookup: the two tiers *)

Section Tiers.
Import Str Countries.
Variable openalex : nat -> string -> Reply OpenAlexData.
Variable semantic_scholar : nat -> string -> Reply SSData.

Lemma tier1_hit author_name st v :
  author_cache st !! author_name = Some v ->
  get_country_from_openalex openalex author_name st = (Returned v, st).
Proof. unfold get_country_from_openalex. now intros ->. Qed.

(** A miss of the author cache: one request, and whatever the reply gives
    is stored under the name and returned. *)
Lemma tier1_miss author_name st :
  author_cache st !! author_name = None ->
  let answer := openalex_answer (openalex (List.length (requests st)) author_name) in
  get_country_from_openalex openalex author_name st
  = (Returned answer,
     {| paper_cache := paper_cache st;
        author_cache := <[author_name := answer]> (author_cache st);
        requests := (requests st ++ [OpenAlexAuthors author_name])%list |}).
Proof.
  intros Hmiss. unfold get_country_from_openalex. rewrite Hmiss.
  unfold openalex_try, bind, try_except, get_openalex, openalex_answer.
  destruct (openalex (List.length (requests st)) author_name) as [|resp]; [reflexivity|].
  unfold raise_for_status, error_status.
  destruct (Nat.leb 400 (status_code resp) && Nat.ltb (status_code resp) 600);
    [reflexivity|].
  cbn. unfold json. destruct (json_body resp) as [d|]; [|reflexivity].
  cbn. destruct (openalex_country d); reflexivity.
Qed.

Lemma tier2_hit title authors st v :
  paper_cache st !! ("ss_" ++ clean_title title) = Some v ->
  get_semantic_scholar_paper semantic_scholar title authors st = (Returned v, st).
Proof. unfold get_semantic_scholar_paper. now intros ->. Qed.

Lemma tier2_miss title authors st :
  paper_cache st !! ("ss_" ++ clean_title title) = None ->
  let query := title ++ " " ++ List.hd EmptyString authors in
  let answer := semantic_scholar_answer (clean_title title)
                  (semantic_scholar (List.length (requests st)) query) in
  get_semantic_scholar_paper semantic_scholar title authors st
  = (Returned answer,
     {| paper_cache := <["ss_" ++ clean_title title := answer]> (paper_cache st);
        author_cache := author_cache st;
        requests := (requests st ++ [SemanticScholarSearch query])%list |}).
Proof.
  intros Hmiss. unfold get_semantic_scholar_paper. rewrite Hmiss.
  unfold bind, try_except, get_semantic_scholar, semantic_scholar_answer.
  destruct (semantic_scholar (List.length (requests st))
              (title ++ " " ++ List.hd EmptyString authors)) as [|resp]; [reflexivity|].
  destruct (Nat.eqb (status_code resp) 200); [|reflexivity].
  unfold json. destruct (json_body resp) as [d|]; [|reflexivity].
  cbn. destruct (data d) as [papers|]; [|reflexivity].
  destruct (best_match (clean_title title) papers); reflexivity.
Qed.

(** The paper chosen among the candidates is the first whose lowercased
    title is inside the cleaned query title or holds it. *)
Lemma best_match_first clean papers p :
  best_match clean papers = Some p <->
  exists l1 l2, papers = (l1 ++ p :: l2)%list
                /\ Forall (fun q => title_matches clean q = false) l1
                /\ title_matches clean p = true.
Proof.
  induction papers as [|q papers IH]; simpl.
  - split; [discriminate|]. intros (l1 & l2 & H & _). now destruct l1.
  - destruct (title_matches clean q) eqn:E.
    + split.
      * intros [= <-]. exists [], papers. repeat split; [constructor | assumption].
      * intros (l1 & l2 & H & Hall & Hp). destruct l1 as [|q' l1].
        -- now injection H as ->.
        -- injection H as <- _. apply List.Forall_cons_iff in Hall as [Hq _]. congruence.
    + rewrite IH. split.
      * intros (l1 & l2 & -> & Hall & Hp). exists (q :: l1), l2.
        repeat split; [now constructor | assumption].
      * intros (l1 & l2 & H & Hall & Hp). destruct l1 as [|q' l1].
        -- injection H as -> _. congruence.
        -- injection H as _ ->. apply List.Forall_cons_iff in Hall as [_ Hall].
           now exists l1, l2.
Qed.

(** A fresh search that is answered with candidates finds that paper and
    stores it under the cleaned title. *)
Lemma tier2_finds title authors st resp d papers p :
  paper_cache st !! ("ss_" ++ clean_title title) = None ->
  semantic_scholar (List.length (requests st)) (title ++ " " ++ List.hd EmptyString authors)
  = Replied resp ->
  status_code resp = 200 -> json_body resp = Some d -> data d = Some papers ->
  best_match (clean_title title) papers = Some p ->
  get_semantic_scholar_paper semantic_scholar title authors st
  = (Returned (Some p),
     {| paper_cache := <["ss_" ++ clean_title title := Some p]> (paper_cache st);
        author_cache := author_cache st;
        requests := (requests st
                     ++ [SemanticScholarSearch (title ++ " " ++ List.hd EmptyString authors)])%list |}).
Proof.
  intros Hmiss Hreply Hstatus Hbody Hdata Hbest.
  rewrite (tier2_miss _ _ _ Hmiss). cbv zeta. rewrite Hreply.
  unfold semantic_scholar_answer. now rewrite Hstatus, Hbody, Hdata, Hbest.
Qed.

Lemma tier1_error_answer r : tier1_error r = true -> openalex_answer r = None.
Proof.
  destruct r as [|resp]; [reflexivity|]. cbn.
  destruct (error_status (status_code resp)); [reflexivity|].
  now destruct (json_body resp).
Qed.

Lemma tier2_error_answer clean r : tier2_error r = true -> semantic_scholar_answer clean r = None.
Proof.
  destruct r as [|resp]; [reflexivity|]. cbn.
  destruct (Nat.eqb (status_code resp) 200); [|reflexivity].
  now destruct (json_body resp).
Qed.

End Tiers.

(** ** The affiliation keyword table *)

Example classify_toronto : Countries.classify_affiliation "University of Toronto" = Some "US".
Proof. vm_compute. reflexivity. Qed.

Example classify_tsinghua :
  Countries.classify_affiliation "Tsinghua University, Beijing, China" = Some "CN".
Proof. vm_compute. reflexivity. Qed.

Example classify_tsinghua_education :
  Countries.classify_affiliation "School of Education, Tsinghua University" = Some "BD".
Proof. vm_compute. reflexivity. Qed.

Section Keywords.
Import Str Countries.

(** The first keyword of the table found in the text decides. *)
Lemma keyword_loop_before table keyword text :
  is_in keyword text = true ->
  Forall (fun k => is_in k text = false) (keywords_before keyword table) ->
  keyword_loop table text = keyword_code keyword table.
Proof.
  intros Hin. induction table as [|[k c] table IH]; simpl; [reflexivity|].
  destruct (String.eqb k keyword) eqn:E.
  - apply String.eqb_eq in E. subst k. now rewrite Hin.
  - intros H. apply List.Forall_cons_iff in H as [Hk H]. rewrite Hk. now apply IH.
Qed.

(** Keywords of the same country may come first without changing the
    outcome. *)
Lemma keyword_loop_other_country table keyword code text :
  keyword_code keyword table = Some code ->
  is_in keyword text = true ->
  Forall (fun k => is_in k text = false) (other_country_before keyword code table) ->
  keyword_loop table text = Some code.
Proof.
  intros Hcode Hin. induction table as [|[k c] table IH]; simpl in *; [discriminate|].
  destruct (String.eqb k keyword) eqn:E.
  - apply String.eqb_eq in E. subst k. now rewrite Hin.
  - intros H. destruct (String.eqb c code) eqn:Ec.
    + apply String.eqb_eq in Ec. subst c.
      destruct (is_in k text); [reflexivity | now apply IH].
    + apply List.Forall_cons_iff in H as [Hk H]. rewrite Hk. now apply IH.
Qed.

(** The first entry of the table whose keyword is found decides. *)
Lemma keyword_loop_first before keyword code after text :
  Forall (fun entry => is_in (fst entry) text = false) before ->
  is_in keyword text = true ->
  keyword_loop (before ++ (keyword, code) :: after)%list text = Some code.
Proof.
  intros Hbefore Hin. induction before as [|[k c] before IH]; cbn [app keyword_loop].
  - now rewrite Hin.
  - apply List.Forall_cons_iff in Hbefore as [Hk Hbefore]. cbn [fst] in Hk.
    rewrite Hk. now apply IH.
Qed.

Lemma keyword_loop_none_iff table text :
  keyword_loop table text = None
  <-> Forall (fun entry => is_in (fst entry) text = false) table.
Proof.
  induction table as [|[k c] table IH]; cbn [keyword_loop].
  - split; [constructor | reflexivity].
  - destruct (is_in k text) eqn:E.
    + split; [discriminate|]. intros H. apply List.Forall_cons_iff in H as [Hk _].
      cbn [fst] in Hk. congruence.
    + rewrite IH. split; [now constructor|].
      intros H. now apply List.Forall_cons_iff in H as [_ H].
Qed.

Lemma affiliation_loop_first pre a post code :
  Forall (fun b => classify_affiliation b = None) pre ->
  classify_affiliation a = Some code ->
  affiliation_loop (pre ++ a :: post)%list = Some code.
Proof.
  intros Hpre Ha. induction pre as [|b pre IH]; simpl.
  - now rewrite Ha.
  - apply List.Forall_cons_iff in Hpre as [Hb Hpre]. rewrite Hb. now apply IH.
Qed.

Lemma affiliation_loop_app l1 l2 :
  affiliation_loop (l1 ++ l2)%list =
  match affiliation_loop l1 with
  | Some code => Some code
  | None => affiliation_loop l2
  end.
Proof.
  induction l1 as [|a l1 IH]; simpl; [reflexivity|].
  now destruct (classify_affiliation a).
Qed.

(** The scan of a paper is the scan of its affiliation strings in the
    order of its authors. *)
Lemma extract_country_in_order p :
  extract_country_from_semantic_scholar (Some p) = affiliation_loop (affiliations_in_order p).
Proof.
  unfold extract_country_from_semantic_scholar, affiliations_in_order, truthy_paper.
  destruct (paper_authors p) as [authors|].
  - destruct (paper_title p); cbn [negb];
      (induction authors as [|a authors IH]; simpl; [reflexivity|];
       rewrite affiliation_loop_app;
       destruct (author_affiliations a) as [affs|]; simpl;
       [destruct (affiliation_loop affs); [reflexivity | exact IH] | exact IH]).
  - destruct (paper_title p); cbn [negb]; [reflexivity|].
    now destruct (other_fields p).
Qed.

End Keywords.

(** C10. The classification of an affiliation is decided by the order of
    the keyword table, the first match wins: the classifier returns the code
    of the first entry of the table whose keyword occurs in the lowercased
    affiliation, whatever later entries match, and none exactly when no
    keyword of the table occurs. So an affiliation whose lowercased form
    contains "university of" and none of the keywords enumerated before it
    is classified "US", and so is a paper whose only affiliation string it
    is. "University of Toronto" is such an affiliation, although the later
    keyword "toronto" stands for "CA". *)
Theorem university_of_classified_US (affiliation : string) :
  (forall before keyword code after,
      Countries.country_keywords = (before ++ (keyword, code) :: after)%list ->
      Forall (fun entry => Str.is_in (fst entry) (Str.lower affiliation) = false) before ->
      Str.is_in keyword (Str.lower affiliation) = true ->
      Countries.classify_affiliation affiliation = Some code)
  /\ (Countries.classify_affiliation affiliation = None
      <-> Forall (fun entry => Str.is_in (fst entry) (Str.lower affiliation) = false)
                 Countries.country_keywords)
  /\ (Str.is_in "university of" (Str.lower affiliation) = true ->
      Forall (fun k => Str.is_in k (Str.lower affiliation) = false)
             (Countries.keywords_before "university of" Countries.country_keywords) ->
      Countries.classify_affiliation affiliation = Some "US"
      /\ forall title other,
           Countries.extract_country_from_semantic_scholar
             (Some {| Countries.paper_title := title;
                      Countries.paper_authors :=
                        Some [ {| Countries.author_affiliations := Some [affiliation] |} ];
                      Countries.other_fields := other |}) = Some "US").
Proof.
  split; [|split].
  - intros before keyword code after Htable Hbefore Hin.
    unfold Countries.classify_affiliation. rewrite Htable.
    now apply keyword_loop_first.
  - unfold Countries.classify_affiliation. apply keyword_loop_none_iff.
  - intros Hin Hbefore.
    assert (Countries.classify_affiliation affiliation = Some "US") as Hc.
    { unfold Countries.classify_affiliation.
      rewrite (keyword_loop_before _ "university of" _ Hin Hbefore).
      vm_compute. reflexivity. }
    split; [exact Hc|].
    intros title other. rewrite extract_country_in_order.
    change (Countries.affiliation_loop [affiliation] = Some "US").
    cbn [Countries.affiliation_loop]. now rewrite Hc.
Qed.

Lemma university_of_classified_US_witness :
  Str.is_in "toronto" (Str.lower "University of Toronto") = true
  /\ Countries.keyword_code "toronto" Countries.country_keywords = Some "CA"
  /\ Countries.classify_affiliation "University of Toronto" = Some "US"
  /\ Countries.classify_affiliation "Tsinghua" = Some "CN"
  /\ Countries.classify_affiliation "Zzz" = None.
Proof.
  split; [vm_compute; reflexivity|].
  split; [vm_compute; reflexivity|].
  split; [|split].
  - apply (proj2 (proj2 (university_of_classified_US "University of Toronto"))).
    + vm_compute; reflexivity.
    + apply (bool_decide_unpack _). vm_compute. exact I.
  - apply (proj1 (university_of_classified_US "Tsinghua")
             (firstn 52 Countries.country_keywords) "tsinghua" "CN"
             (skipn 53 Countries.country_keywords)).
    + vm_compute; reflexivity.
    + apply (bool_decide_unpack _). vm_compute. exact I.
    + vm_compute; reflexivity.
  - apply (proj2 (proj1 (proj2 (university_of_classified_US "Zzz")))).
    apply (bool_decide_unpack _). vm_compute. exact I.
Defined.

(** ** Author-country lookup: the resolver *)

Section Resolver.
Import Str Countries.
Variable openalex : nat -> string -> Reply OpenAlexData.
Variable semantic_scholar : nat -> string -> Reply SSData.

Lemma sent_since_app st st' l :
  requests st' = (requests st ++ l)%list -> sent_since st st' = l.
Proof. unfold sent_since. intros ->. apply drop_app_length. Qed.

Lemma insert_keeps_keys {V} (m : gmap string V) k v b :
  is_Some (m !! b) -> is_Some (<[k := v]> m !! b).
Proof.
  intros H. destruct (decide (k = b)) as [->|Hne].
  - rewrite lookup_insert_eq. eauto.
  - now rewrite lookup_insert_ne.
Qed.

(** Tier 1 never raises, leaves the paper cache alone, forgets no author,
    and sends requests to the name lookup only. *)
Lemma tier1_total author_name st :
  exists r st1,
    get_country_from_openalex openalex author_name st = (Returned r, st1)
    /\ paper_cache st1 = paper_cache st
    /\ (forall b, is_Some (author_cache st !! b) -> is_Some (author_cache st1 !! b))
    /\ exists l, requests st1 = (requests st ++ l)%list
                 /\ forallb is_openalex_request l = true.
Proof.
  destruct (author_cache st !! author_name) as [v|] eqn:E.
  - exists v, st. rewrite (tier1_hit openalex _ _ _ E).
    repeat split; [tauto|]. exists []. now rewrite app_nil_r.
  - eexists _, _. rewrite (tier1_miss openalex _ _ E).
    split; [reflexivity|]. cbn. split; [reflexivity|]. split.
    + intros b. apply insert_keeps_keys.
    + now exists [OpenAlexAuthors author_name].
Qed.

(** Tier 2 never raises, leaves the author cache alone and forgets no
    paper. *)
Lemma tier2_total title authors st :
  exists r st1,
    get_semantic_scholar_paper semantic_scholar title authors st = (Returned r, st1)
    /\ author_cache st1 = author_cache st
    /\ (forall k, is_Some (paper_cache st !! k) -> is_Some (paper_cache st1 !! k)).
Proof.
  destruct (paper_cache st !! ("ss_" ++ clean_title title)) as [v|] eqn:E.
  - exists v, st. rewrite (tier2_hit semantic_scholar _ _ _ _ E). repeat split. tauto.
  - eexists _, _. rewrite (tier2_miss semantic_scholar _ _ _ E).
    split; [reflexivity|]. cbn. split; [reflexivity|].
    intros k. apply insert_keeps_keys.
Qed.

(** The resolver never raises and never drops a cache entry. *)
Lemma get_author_country_total title authors_str st :
  exists r st',
    get_author_country openalex semantic_scholar title authors_str st = (Returned r, st')
    /\ (forall b, is_Some (author_cache st !! b) -> is_Some (author_cache st' !! b))
    /\ (forall k, is_Some (paper_cache st !! k) -> is_Some (paper_cache st' !! k)).
Proof.
  unfold get_author_country.
  destruct (truthy (List.hd EmptyString (List.map strip (split "," authors_str))));
    cbn [negb]; [|exists None, st; repeat split; tauto].
  unfold bind.
  destruct (tier1_total (List.hd EmptyString (List.map strip (split "," authors_str))) st)
    as (r & st1 & -> & Hp1 & Ha1 & _).
  destruct (truthy_opt r).
  { exists r, st1. split; [reflexivity|]. split; [exact Ha1|]. now rewrite Hp1. }
  destruct (tier2_total title (List.map strip (split "," authors_str)) st1)
    as (paper & st2 & -> & Ha2 & Hp2).
  assert (forall b, is_Some (author_cache st !! b) -> is_Some (author_cache st2 !! b)) as Ha.
  { intros b Hb. rewrite Ha2. now apply Ha1. }
  assert (forall k, is_Some (paper_cache st !! k) -> is_Some (paper_cache st2 !! k)) as Hp.
  { intros k Hk. apply Hp2. now rewrite Hp1. }
  assert (exists r' st', (@Returned (option string) None, st2) = (Returned r', st')
            /\ (forall b, is_Some (author_cache st !! b) -> is_Some (author_cache st' !! b))
            /\ (forall k, is_Some (paper_cache st !! k) -> is_Some (paper_cache st' !! k)))
    as Hnone by (exists None, st2; now repeat split).
  destruct paper as [p|]; [|exact Hnone].
  destruct (truthy_paper p); [|exact Hnone].
  destruct (extract_country_from_semantic_scholar (Some p)) as [c|]; [|exact Hnone].
  destruct (truthy c); [|exact Hnone].
  eexists _, _. split; [reflexivity|]. cbn. split; [|exact Hp].
  intros b Hb. apply insert_keeps_keys. now apply Ha.
Qed.

(** The resolver on a first author that Tier 1 knows. *)
Lemma get_author_country_tier1 title authors_str st r st1 :
  truthy (first_author_of authors_str) = true ->
  get_country_from_openalex openalex (first_author_of authors_str) st = (Returned r, st1) ->
  truthy_opt r = true ->
  get_author_country openalex semantic_scholar title authors_str st = (Returned r, st1).
Proof.
  unfold get_author_country, first_author_of. intros -> H1 Hr. cbn [negb].
  unfold bind. now rewrite H1, Hr.
Qed.

(** The resolver on a first author that Tier 1 does not know, when the
    paper found by Tier 2 is classified. *)
Lemma get_author_country_tier2 title authors_str st r st1 p st2 code :
  truthy (first_author_of authors_str) = true ->
  get_country_from_openalex openalex (first_author_of authors_str) st = (Returned r, st1) ->
  truthy_opt r = false ->
  get_semantic_scholar_paper semantic_scholar title
    (List.map strip (split "," authors_str)) st1 = (Returned (Some p), st2) ->
  truthy_paper p = true ->
  extract_country_from_semantic_scholar (Some p) = Some code ->
  truthy code = true ->
  get_author_country openalex semantic_scholar title authors_str st
  = (Returned (Some code),
     {| paper_cache := paper_cache st2;
        author_cache := <[first_author_of authors_str := Some code]> (author_cache st2);
        requests := requests st2 |}).
Proof.
  unfold get_author_country, first_author_of. intros -> H1 Hr H2 Hp Hc Ht. cbn [negb].
  unfold bind. rewrite H1, Hr, H2, Hp, Hc, Ht. reflexivity.
Qed.

End Resolver.

(** C3, as the resolver decides it. For a non-empty first author that the
    author cache maps to a country code, the resolver returns that code and
    leaves the lookup object as it is, so no request is sent. A country that
    Tier 1 finds is returned at once, with requests to the name lookup only;
    a request to the paper search is sent only when Tier 1 yields none. An
    author whom the cache maps to "no country known" skips the request of
    Tier 1 only: Tier 2 is run on the lookup object as it is, sending its
    search unless the title is cached, and the resolver returns what the
    scan of the paper of Tier 2 gives, stored for the author when it is a
    country. *)
Theorem cached_country_short_circuits
    (openalex : nat -> string -> Countries.Reply Countries.OpenAlexData)
    (semantic_scholar : nat -> string -> Countries.Reply Countries.SSData)
    (title authors_str : string) (st : Countries.Lookup) :
  let first_author := Countries.first_author_of authors_str in
  Str.truthy first_author = true ->
  (forall cc,
      Countries.author_cache st !! first_author = Some (Some cc) ->
      Str.truthy cc = true ->
      Countries.get_author_country openalex semantic_scholar title authors_str st
      = (Countries.Returned (Some cc), st))
  /\ (forall r st1,
        Countries.get_country_from_openalex openalex first_author st
        = (Countries.Returned r, st1) ->
        Countries.truthy_opt r = true ->
        Countries.get_author_country openalex semantic_scholar title authors_str st
        = (Countries.Returned r, st1)
        /\ forallb Countries.is_openalex_request (Countries.sent_since st st1) = true)
  /\ (forall query,
        In (Countries.SemanticScholarSearch query)
           (Countries.sent_since st
              (snd (Countries.get_author_country openalex semantic_scholar
                      title authors_str st))) ->
        exists r st1,
          Countries.get_country_from_openalex openalex first_author st
          = (Countries.Returned r, st1)
          /\ Countries.truthy_opt r = false)
  /\ (Countries.author_cache st !! first_author = Some None ->
      exists paper st2,
        Countries.get_semantic_scholar_paper semantic_scholar title
          (List.map Str.strip (Str.split "," authors_str)) st
        = (Countries.Returned paper, st2)
        /\ Countries.sent_since st st2
           = match Countries.paper_cache st !! ("ss_" ++ Countries.clean_title title) with
             | Some _ => []
             | None => [Countries.SemanticScholarSearch (title ++ " " ++ first_author)]
             end
        /\ Countries.get_author_country openalex semantic_scholar title authors_str st
           = match Countries.extract_country_from_semantic_scholar paper with
             | Some code =>
                 if Str.truthy code
                 then (Countries.Returned (Some code),
                       {| Countries.paper_cache := Countries.paper_cache st2;
                          Countries.author_cache :=
                            <[first_author := Some code]> (Countries.author_cache st2);
                          Countries.requests := Countries.requests st2 |})
                 else (Countries.Returned None, st2)
             | None => (Countries.Returned None, st2)
             end).
Proof.
  intros first_author Hfa.
  assert (forall r st1,
             Countries.get_country_from_openalex openalex first_author st
             = (Countries.Returned r, st1) ->
             Countries.truthy_opt r = true ->
             Countries.get_author_country openalex semantic_scholar title authors_str st
             = (Countries.Returned r, st1)
             /\ forallb Countries.is_openalex_request (Countries.sent_since st st1) = true)
    as Htier1.
  { intros r st1 H1 Hr. split.
    - now apply get_author_country_tier1.
    - destruct (tier1_total openalex first_author st) as (r' & st1' & H1' & _ & _ & l & Hl & Hall).
      rewrite H1 in H1'. injection H1' as _ <-.
      now rewrite (sent_since_app st st1 l Hl). }
  split; [|split; [exact Htier1|split]].
  - intros cc Hcache Hcc.
    apply get_author_country_tier1; [assumption | | assumption].
    now apply tier1_hit.
  - intros query Hin.
    destruct (tier1_total openalex first_author st) as (r & st1 & H1 & _).
    exists r, st1. split; [exact H1|].
    destruct (Countries.truthy_opt r) eqn:Hr; [|reflexivity].
    destruct (Htier1 r st1 H1 Hr) as [Hrun Hall].
    rewrite Hrun in Hin. cbn [snd] in Hin.
    rewrite forallb_forall in Hall. now apply Hall in Hin.
  - intros Hnone.
    set (authors := List.map Str.strip (Str.split "," authors_str)).
    assert (exists paper st2,
               Countries.get_semantic_scholar_paper semantic_scholar title authors st
               = (Countries.Returned paper, st2)
               /\ Countries.sent_since st st2
                  = match Countries.paper_cache st !! ("ss_" ++ Countries.clean_title title) with
                    | Some _ => []
                    | None => [Countries.SemanticScholarSearch (title ++ " " ++ first_author)]
                    end) as (paper & st2 & H2 & Hsent).
    { destruct (Countries.paper_cache st !! ("ss_" ++ Countries.clean_title title))
        as [v|] eqn:E.
      - exists v, st. rewrite (tier2_hit semantic_scholar _ _ _ _ E).
        split; [reflexivity|]. apply sent_since_app. now rewrite app_nil_r.
      - eexists _, _. rewrite (tier2_miss semantic_scholar _ _ _ E).
        split; [reflexivity|]. now apply sent_since_app. }
    exists paper, st2. split; [exact H2|]. split; [exact Hsent|].
    unfold Countries.get_author_country. fold authors.
    change (List.hd EmptyString authors) with first_author.
    rewrite Hfa. cbn [negb]. unfold Countries.bind.
    rewrite (tier1_hit openalex _ _ _ Hnone). cbn [Countries.truthy_opt].
    rewrite H2.
    destruct paper as [p|]; [|reflexivity].
    destruct (Countries.truthy_paper p) eqn:Hp.
    + destruct (Countries.extract_country_from_semantic_scholar (Some p)) as [code|];
        [|reflexivity].
      now destruct (Str.truthy code).
    + unfold Countries.extract_country_from_semantic_scholar. now rewrite Hp.
Qed.

Lemma cached_country_short_circuits_witness :
  Str.truthy (Countries.first_author_of "Jane Doe, John Roe") = true
  /\ Countries.author_cache (LookupExamples.jane_cached (Some "US"))
       !! Countries.first_author_of "Jane Doe, John Roe" = Some (Some "US")
  /\ Countries.get_author_country LookupExamples.openalex_down
       (LookupExamples.search_finds "Tsinghua University")
       "A Study of X" "Jane Doe, John Roe" (LookupExamples.jane_cached (Some "US"))
     = (Countries.Returned (Some "US"), LookupExamples.jane_cached (Some "US"))
  /\ Countries.author_cache (LookupExamples.jane_cached None)
       !! Countries.first_author_of "Jane Doe, John Roe" = Some None
  /\ fst (Countries.get_author_country LookupExamples.openalex_down
            (LookupExamples.search_finds "Tsinghua University")
            "A Study of X" "Jane Doe, John Roe" (LookupExamples.jane_cached None))
     = Countries.Returned (Some "CN").
Proof.
  split; [reflexivity|]. split; [vm_compute; reflexivity|]. split.
  - apply (proj1 (cached_country_short_circuits LookupExamples.openalex_down
                    (LookupExamples.search_finds "Tsinghua University")
                    "A Study of X" "Jane Doe, John Roe"
                    (LookupExamples.jane_cached (Some "US")) eq_refl) "US").
    + vm_compute; reflexivity.
    + reflexivity.
  - assert (Countries.author_cache (LookupExamples.jane_cached None)
              !! Countries.first_author_of "Jane Doe, John Roe" = Some None) as Hnone
      by (vm_compute; reflexivity).
    split; [exact Hnone|].
    destruct (proj2 (proj2 (proj2 (cached_country_short_circuits LookupExamples.openalex_down
                                     (LookupExamples.search_finds "Tsinghua University")
                                     "A Study of X" "Jane Doe, John Roe"
                                     (LookupExamples.jane_cached None) eq_refl))) Hnone)
      as (paper & st2 & H2 & _ & Hrun).
    rewrite Hrun. vm_compute in H2. injection H2 as <- <-. vm_compute. reflexivity.
Defined.

(** C3 as stated fails for an author whom the cache maps to "no country
    known": the author is in the cache, yet the resolver goes on to Tier 2,
    sends a request to the paper search and returns what that finds. *)
Lemma cached_none_counterexample :
  let st := LookupExamples.jane_cached None in
  let run := Countries.get_author_country LookupExamples.openalex_down
               (LookupExamples.search_finds "Tsinghua University")
               "A Study of X" "Jane Doe" st in
  Countries.author_cache st !! "Jane Doe" = Some None
  /\ fst run = Countries.Returned (Some "CN")
  /\ Countries.sent_since st (snd run)
     = [Countries.SemanticScholarSearch "A Study of X Jane Doe"].
Proof. repeat split; vm_compute; reflexivity. Qed.

(** C4, as the resolver decides it. Let Tier 1 yield none for a non-empty
    first author and Tier 2 find a paper. If the first affiliation string of
    the paper, in the order of its authors, that contains any keyword of the
    table contains "tsinghua" in its lowercased form and none of the
    keywords that the table enumerates before "tsinghua" for another
    country, the resolver returns "CN" and stores "CN" for the first author
    in the author cache, and a later Tier-1 lookup of that author returns
    "CN" from the cache. *)
Theorem tsinghua_resolves_CN
    (openalex : nat -> string -> Countries.Reply Countries.OpenAlexData)
    (semantic_scholar : nat -> string -> Countries.Reply Countries.SSData)
    (title authors_str : string) (st st1 st2 : Countries.Lookup)
    (r : option string) (p : Countries.SSPaper)
    (pre post : list string) (a : string) :
  let first_author := Countries.first_author_of authors_str in
  Str.truthy first_author = true ->
  Countries.get_country_from_openalex openalex first_author st = (Countries.Returned r, st1) ->
  Countries.truthy_opt r = false ->
  Countries.get_semantic_scholar_paper semantic_scholar title
    (List.map Str.strip (Str.split "," authors_str)) st1 = (Countries.Returned (Some p), st2) ->
  Countries.affiliations_in_order p = (pre ++ a :: post)%list ->
  Forall (fun b => Countries.classify_affiliation b = None) pre ->
  Str.is_in "tsinghua" (Str.lower a) = true ->
  Forall (fun k => Str.is_in k (Str.lower a) = false)
         (Countries.other_country_before "tsinghua" "CN" Countries.country_keywords) ->
  let st' := {| Countries.paper_cache := Countries.paper_cache st2;
                Countries.author_cache :=
                  <[first_author := Some "CN"]> (Countries.author_cache st2);
                Countries.requests := Countries.requests st2 |} in
  Countries.get_author_country openalex semantic_scholar title authors_str st
  = (Countries.Returned (Some "CN"), st')
  /\ Countries.get_country_from_openalex openalex first_author st'
     = (Countries.Returned (Some "CN"), st').
Proof.
  intros first_author Hfa H1 Hr H2 Haffs Hpre Hin Hother st'.
  split.
  - apply (get_author_country_tier2 openalex semantic_scholar title authors_str st r st1 p st2);
      try assumption; try reflexivity.
    + unfold Countries.affiliations_in_order in Haffs. unfold Countries.truthy_paper.
      destruct (Countries.paper_authors p); [now destruct (Countries.paper_title p)|].
      now destruct pre.
    + rewrite extract_country_in_order, Haffs.
      apply affiliation_loop_first; [assumption|].
      apply (keyword_loop_other_country _ "tsinghua"); [vm_compute; reflexivity | assumption..].
  - apply tier1_hit. cbn. apply lookup_insert_eq.
Qed.

Lemma tsinghua_resolves_CN_witness :
  let run := Countries.get_author_country LookupExamples.openalex_down
               (LookupExamples.search_finds "Tsinghua University, Beijing, China")
               "A Study of X" "Jane Doe, John Roe" LookupExamples.fresh in
  fst run = Countries.Returned (Some "CN")
  /\ Countries.author_cache (snd run) !! "Jane Doe" = Some (Some "CN").
Proof.
  pose proof (tsinghua_resolves_CN LookupExamples.openalex_down
                (LookupExamples.search_finds "Tsinghua University, Beijing, China")
                "A Study of X" "Jane Doe, John Roe" LookupExamples.fresh
                (snd (Countries.get_country_from_openalex LookupExamples.openalex_down
                        "Jane Doe" LookupExamples.fresh))
                (snd (Countries.get_semantic_scholar_paper
                        (LookupExamples.search_finds "Tsinghua University, Beijing, China")
                        "A Study of X" ["Jane Doe"; "John Roe"]
                        (snd (Countries.get_country_from_openalex LookupExamples.openalex_down
                                "Jane Doe" LookupExamples.fresh))))
                None
                (LookupExamples.paper_from "Tsinghua University, Beijing, China")
                [] [] "Tsinghua University, Beijing, China") as H.
  cbv zeta in H.
  destruct H as [Hrun _].
  - reflexivity.
  - vm_compute; reflexivity.
  - reflexivity.
  - vm_compute; reflexivity.
  - vm_compute; reflexivity.
  - constructor.
  - vm_compute; reflexivity.
  - apply (bool_decide_unpack _). vm_compute. exact I.
  - cbv zeta. rewrite Hrun. split; [reflexivity|]. cbn [snd Countries.author_cache].
    apply lookup_insert_eq.
Defined.

(** C4 as stated fails when the affiliation also contains a keyword that
    the table enumerates earlier for another country: "education" contains
    "du", so this Tsinghua affiliation resolves to "BD", which is also what
    the author cache receives. *)
Lemma tsinghua_education_counterexample :
  let run := Countries.get_author_country LookupExamples.openalex_down
               (LookupExamples.search_finds "School of Education, Tsinghua University")
               "A Study of X" "Jane Doe" LookupExamples.fresh in
  Str.is_in "tsinghua" (Str.lower "School of Education, Tsinghua University") = true
  /\ fst run = Countries.Returned (Some "BD")
  /\ Countries.author_cache (snd run) !! "Jane Doe" = Some (Some "BD").
Proof. repeat split; vm_compute; reflexivity. Qed.

Example throttled_search_cached :
  let run := Countries.get_author_country LookupExamples.openalex_down
               LookupExamples.search_throttled "A Study of X" "Jane Doe"
               LookupExamples.fresh in
  fst run = Countries.Returned None
  /\ Countries.paper_cache (snd run) !! "ss_a study of x" = Some None
  /\ Countries.author_cache (snd run) !! "Jane Doe" = Some None
  /\ Countries.sent_since (snd run)
       (snd (Countries.get_author_country LookupExamples.openalex_down
               LookupExamples.search_throttled "A Study of X" "Jane Doe" (snd run))) = [].
Proof. repeat split; vm_compute; reflexivity. Qed.

(** ** The lookup on answers as JSON delivers them *)

Section WireTiers.
Import Str Wire.
Variable openalex : nat -> string -> Countries.Reply Countries.OpenAlexData.
Variable semantic_scholar : nat -> string -> Countries.Reply Data.

Lemma wire_tier1_hit author_name st v :
  author_cache st !! author_name = Some v ->
  get_country_from_openalex openalex author_name st = (Returned v, st).
Proof. unfold get_country_from_openalex. now intros ->. Qed.

Lemma wire_tier1_miss author_name st :
  author_cache st !! author_name = None ->
  let answer :=
    Countries.openalex_answer (openalex (List.length (requests st)) author_name) in
  get_country_from_openalex openalex author_name st
  = (Returned answer,
     {| paper_cache := paper_cache st;
        author_cache := <[author_name := answer]> (author_cache st);
        requests := (requests st ++ [Countries.OpenAlexAuthors author_name])%list |}).
Proof.
  intros Hmiss. unfold get_country_from_openalex. rewrite Hmiss.
  unfold openalex_try, bind, try_except, get_openalex, Countries.openalex_answer.
  destruct (openalex (List.length (requests st)) author_name) as [|resp]; [reflexivity|].
  unfold raise_for_status, Countries.error_status.
  destruct (Nat.leb 400 (Countries.status_code resp)
            && Nat.ltb (Countries.status_code resp) 600); [reflexivity|].
  cbn. unfold json. destruct (Countries.json_body resp) as [d|]; [|reflexivity].
  cbn. destruct (Countries.openalex_country d); reflexivity.
Qed.

Lemma wire_tier2_hit paper_title paper_authors st v :
  paper_cache st !! ("ss_" ++ Countries.clean_title paper_title) = Some v ->
  get_semantic_scholar_paper semantic_scholar paper_title paper_authors st = (Returned v, st).
Proof. unfold get_semantic_scholar_paper. now intros ->. Qed.

(** A miss of the paper cache: one request, and whatever is read off the
    reply, none when the reading raises, is stored under the cleaned title
    and returned. *)
Lemma wire_tier2_miss paper_title paper_authors st :
  paper_cache st !! ("ss_" ++ Countries.clean_title paper_title) = None ->
  let query := paper_title ++ " " ++ List.hd EmptyString paper_authors in
  let answer := semantic_scholar_answer (Countries.clean_title paper_title)
                  (semantic_scholar (List.length (requests st)) query) in
  get_semantic_scholar_paper semantic_scholar paper_title paper_authors st
  = (Returned answer,
     {| paper_cache := <["ss_" ++ Countries.clean_title paper_title := answer]> (paper_cache st);
        author_cache := author_cache st;
        requests := (requests st ++ [Countries.SemanticScholarSearch query])%list |}).
Proof.
  intros Hmiss. unfold get_semantic_scholar_paper. rewrite Hmiss.
  unfold bind, try_except, get_semantic_scholar, semantic_scholar_answer.
  destruct (semantic_scholar (List.length (requests st))
              (paper_title ++ " " ++ List.hd EmptyString paper_authors)) as [|resp];
    [reflexivity|].
  destruct (Nat.eqb (Countries.status_code resp) 200); [|reflexivity].
  unfold json. destruct (Countries.json_body resp) as [d|]; [|reflexivity].
  cbn. destruct (data d) as [candidates|]; [|reflexivity].
  unfold pure.
  destruct (best_match (Countries.clean_title paper_title) candidates) as [[p|]|e];
    reflexivity.
Qed.

Lemma wire_tier2_error_answer clean r :
  tier2_error r = true \/ tier2_misread clean r = true ->
  semantic_scholar_answer clean r = None.
Proof.
  destruct r as [|resp]; [reflexivity|]. cbn.
  destruct (Nat.eqb (Countries.status_code resp) 200); [|reflexivity]. cbn.
  destruct (Countries.json_body resp) as [d|]; [|reflexivity].
  destruct (data d) as [candidates|]; [|reflexivity].
  destruct (best_match clean candidates) as [found|e]; [|reflexivity].
  intros [H|H]; discriminate.
Qed.

Lemma wire_insert_keeps_keys {V} (m : gmap string V) k v b :
  is_Some (m !! b) -> is_Some (<[k := v]> m !! b).
Proof.
  intros H. destruct (decide (k = b)) as [->|Hne].
  - rewrite lookup_insert_eq. eauto.
  - now rewrite lookup_insert_ne.
Qed.

Lemma keeps_entries_refl st : keeps_entries st st.
Proof. split; tauto. Qed.

Lemma keeps_entries_trans st1 st2 st3 :
  keeps_entries st1 st2 -> keeps_entries st2 st3 -> keeps_entries st1 st3.
Proof. intros [Ha Hp] [Ha' Hp']. split; intros x Hx; [apply Ha', Ha | apply Hp', Hp]; exact Hx. Qed.

(** Tier 1 never raises and drops no cache entry. *)
Lemma wire_tier1_total author_name st :
  exists r st1,
    get_country_from_openalex openalex author_name st = (Returned r, st1)
    /\ keeps_entries st st1.
Proof.
  destruct (author_cache st !! author_name) as [v|] eqn:E.
  - exists v, st. rewrite (wire_tier1_hit _ _ _ E). split; [reflexivity | apply keeps_entries_refl].
  - eexists _, _. rewrite (wire_tier1_miss _ _ E). split; [reflexivity|].
    split; cbn; [intros b; apply wire_insert_keeps_keys | tauto].
Qed.

(** Tier 2 never raises and drops no cache entry; what it returns is in
    the paper cache afterwards. *)
Lemma wire_tier2_total paper_title paper_authors st :
  exists r st1,
    get_semantic_scholar_paper semantic_scholar paper_title paper_authors st
    = (Returned r, st1)
    /\ keeps_entries st st1
    /\ paper_cache st1 !! ("ss_" ++ Countries.clean_title paper_title) = Some r.
Proof.
  destruct (paper_cache st !! ("ss_" ++ Countries.clean_title paper_title)) as [v|] eqn:E.
  - exists v, st. rewrite (wire_tier2_hit _ _ _ _ E).
    split; [reflexivity|]. split; [apply keeps_entries_refl | exact E].
  - eexists _, _. rewrite (wire_tier2_miss _ _ _ E). split; [reflexivity|]. split.
    + split; cbn; [tauto | intros k; apply wire_insert_keeps_keys].
    + cbn. apply lookup_insert_eq.
Qed.

Lemma affiliation_loop_raises affs e :
  affiliation_loop affs = Raised e -> e = AttributeError.
Proof.
  induction affs as [|[affiliation|] affs IH]; cbn [affiliation_loop].
  - discriminate.
  - destruct (Countries.classify_affiliation affiliation); [discriminate | exact IH].
  - now intros [= <-].
Qed.

Lemma author_loop_raises paper_authors e :
  author_loop paper_authors = Raised e -> e = TypeError \/ e = AttributeError.
Proof.
  induction paper_authors as [|author rest IH]; cbn [author_loop]; [discriminate|].
  destruct (author_scan author) as [[code|]|e'] eqn:E; [discriminate | exact IH |].
  intros [= <-]. unfold author_scan in E.
  destruct author as [a|]; [|injection E as <-; now left].
  destruct (affiliations a) as [[affs|]|]; [| injection E as <-; now left | discriminate].
  right. now apply (affiliation_loop_raises affs).
Qed.

(** The scan raises nothing but [TypeError] and [AttributeError]. *)
Lemma scan_raises paper e :
  extract_country_from_semantic_scholar paper = Raised e ->
  e = TypeError \/ e = AttributeError.
Proof.
  unfold extract_country_from_semantic_scholar.
  destruct paper as [p|]; [|discriminate].
  destruct (negb (truthy_paper p)); [discriminate|].
  destruct (authors p) as [[paper_authors|]|]; [| intros [= <-]; now left | discriminate].
  apply author_loop_raises.
Qed.

(** Every run of the resolver: it drops no cache entry, and when it
    raises, the exception is the one that the scan raises on the paper
    that Tier 2 has just returned and cached. *)
Lemma wire_get_author_country_runs paper_title authors_str st :
  let run := get_author_country openalex semantic_scholar paper_title authors_str st in
  keeps_entries st (snd run)
  /\ forall e,
       fst run = Raised e ->
       (e = TypeError \/ e = AttributeError)
       /\ exists p,
            paper_cache (snd run) !! ("ss_" ++ Countries.clean_title paper_title)
            = Some (Some p)
            /\ extract_country_from_semantic_scholar (Some p) = Raised e.
Proof.
  cbv zeta. unfold get_author_country.
  destruct (truthy (List.hd EmptyString (List.map strip (split "," authors_str))));
    cbn [negb]; [|split; [apply keeps_entries_refl | discriminate]].
  unfold bind.
  destruct (wire_tier1_total (List.hd EmptyString (List.map strip (split "," authors_str))) st)
    as (r & st1 & -> & Hk1).
  destruct (Countries.truthy_opt r); [split; [exact Hk1 | discriminate]|].
  destruct (wire_tier2_total paper_title (List.map strip (split "," authors_str)) st1)
    as (paper & st2 & -> & Hk2 & Hcached).
  pose proof (keeps_entries_trans _ _ _ Hk1 Hk2) as Hk.
  destruct paper as [p|]; [|split; [exact Hk | discriminate]].
  destruct (truthy_paper p); [|split; [exact Hk | discriminate]].
  unfold pure.
  destruct (extract_country_from_semantic_scholar (Some p)) as [[code|]|e] eqn:Hscan.
  - destruct (truthy code); [|split; [exact Hk | discriminate]].
    cbn. split; [|discriminate].
    destruct Hk as [Ha Hp]. split; [|exact Hp].
    cbn. intros b Hb. now apply wire_insert_keeps_keys, Ha.
  - split; [exact Hk | discriminate].
  - cbn [fst snd]. split; [exact Hk|].
    intros e' [= <-]. split; [now apply (scan_raises (Some p))|].
    exists p. split; [exact Hcached | exact Hscan].
Qed.

(** What the scan raises on the paper of Tier 2 leaves the resolver: no
    [try] is around it. *)
Lemma wire_scan_propagates paper_title authors_str st r st1 p st2 e :
  truthy (Countries.first_author_of authors_str) = true ->
  get_country_from_openalex openalex (Countries.first_author_of authors_str) st
  = (Returned r, st1) ->
  Countries.truthy_opt r = false ->
  get_semantic_scholar_paper semantic_scholar paper_title
    (List.map strip (split "," authors_str)) st1 = (Returned (Some p), st2) ->
  extract_country_from_semantic_scholar (Some p) = Raised e ->
  get_author_country openalex semantic_scholar paper_title authors_str st = (Raised e, st2).
Proof.
  unfold get_author_country, Countries.first_author_of.
  intros -> H1 Hr H2 Hscan. cbn [negb].
  unfold bind. rewrite H1, Hr, H2.
  assert (truthy_paper p = true) as ->.
  { unfold extract_country_from_semantic_scholar in Hscan.
    destruct (truthy_paper p); [reflexivity | discriminate]. }
  unfold pure. now rewrite Hscan.
Qed.

End WireTiers.

(** On answers of the documented types the lookup of this model is the one
    of [Countries]. *)
Section Documented.
Import Str Wire.
Variable openalex : nat -> string -> Countries.Reply Countries.OpenAlexData.
Variable typed_search : nat -> string -> Countries.Reply Countries.SSData.

Let search : nat -> string -> Countries.Reply Data :=
  fun sent query => of_reply (typed_search sent query).

Lemma of_lookup_cached st k :
  paper_cache (of_lookup st) !! k = of_cached <$> (Countries.paper_cache st !! k).
Proof. unfold of_lookup. cbn [paper_cache]. apply lookup_fmap. Qed.

Lemma documented_tier1 author_name st :
  get_country_from_openalex openalex author_name (of_lookup st)
  = (of_result (fst (Countries.get_country_from_openalex openalex author_name st)),
     of_lookup (snd (Countries.get_country_from_openalex openalex author_name st))).
Proof.
  destruct (Countries.author_cache st !! author_name) as [v|] eqn:E.
  - rewrite (tier1_hit openalex _ _ _ E). now rewrite (wire_tier1_hit openalex _ (of_lookup st) v).
  - rewrite (tier1_miss openalex _ _ E).
    rewrite (wire_tier1_miss openalex author_name (of_lookup st) E). reflexivity.
Qed.

Lemma documented_best_match clean papers :
  best_match clean (List.map (fun p => Some (of_paper p)) papers)
  = Returned (of_cached (Countries.best_match clean papers)).
Proof.
  induction papers as [|p papers IH]; [reflexivity|].
  cbn [List.map best_match Countries.best_match].
  unfold Countries.title_matches.
  assert (candidate_title (Some (of_paper p))
          = Returned (lower (match Countries.paper_title p with
                             | Some t => t
                             | None => EmptyString
                             end))) as ->.
  { unfold candidate_title, of_paper. cbn [title].
    now destruct (Countries.paper_title p). }
  destruct (is_in _ clean || is_in clean _); [reflexivity | exact IH].
Qed.

Lemma documented_answer clean r :
  semantic_scholar_answer clean (of_reply r)
  = of_cached (Countries.semantic_scholar_answer clean r).
Proof.
  destruct r as [|resp]; [reflexivity|]. cbn.
  destruct (Nat.eqb (Countries.status_code resp) 200); [|reflexivity].
  destruct (Countries.json_body resp) as [d|]; [|reflexivity]. cbn.
  destruct (Countries.data d) as [papers|]; [|reflexivity].
  now rewrite documented_best_match.
Qed.

Lemma documented_tier2 paper_title paper_authors st :
  get_semantic_scholar_paper search paper_title paper_authors (of_lookup st)
  = (Returned (of_cached (match fst (Countries.get_semantic_scholar_paper typed_search
                                       paper_title paper_authors st) with
                          | Countries.Returned found => found
                          | Countries.Raised _ => None
                          end)),
     of_lookup (snd (Countries.get_semantic_scholar_paper typed_search
                       paper_title paper_authors st))).
Proof.
  destruct (Countries.paper_cache st !! ("ss_" ++ Countries.clean_title paper_title))
    as [v|] eqn:E.
  - rewrite (tier2_hit typed_search _ _ _ _ E). cbn [fst snd].
    apply wire_tier2_hit. now rewrite of_lookup_cached, E.
  - rewrite (tier2_miss typed_search _ _ _ E). cbn [fst snd].
    rewrite (wire_tier2_miss search paper_title paper_authors (of_lookup st));
      [|now rewrite of_lookup_cached, E].
    cbv zeta. unfold search. cbn [requests of_lookup].
    rewrite documented_answer. f_equal.
    unfold of_lookup. cbn. f_equal. now rewrite fmap_insert.
Qed.

Lemma documented_affiliation_loop affs :
  affiliation_loop (List.map JString affs) = Returned (Countries.affiliation_loop affs).
Proof.
  induction affs as [|a affs IH]; [reflexivity|].
  cbn [List.map affiliation_loop Countries.affiliation_loop].
  now destruct (Countries.classify_affiliation a).
Qed.

Lemma documented_author_loop l :
  author_loop (List.map (fun a => Some (of_author a)) l) = Returned (Countries.author_loop l).
Proof.
  induction l as [|a l IH]; [reflexivity|].
  cbn [List.map author_loop Countries.author_loop].
  unfold author_scan, of_author. cbn [affiliations].
  destruct (Countries.author_affiliations a) as [affs|]; [|exact IH].
  rewrite documented_affiliation_loop.
  now destruct (Countries.affiliation_loop affs).
Qed.

Lemma documented_truthy_paper p : truthy_paper (of_paper p) = Countries.truthy_paper p.
Proof.
  unfold truthy_paper, Countries.truthy_paper, of_paper. cbn.
  now destruct (Countries.paper_title p), (Countries.paper_authors p).
Qed.

Lemma documented_scan p :
  extract_country_from_semantic_scholar (Some (of_paper p))
  = Returned (Countries.extract_country_from_semantic_scholar (Some p)).
Proof.
  unfold extract_country_from_semantic_scholar,
    Countries.extract_country_from_semantic_scholar.
  rewrite documented_truthy_paper.
  destruct (negb (Countries.truthy_paper p)); [reflexivity|].
  unfold of_paper. cbn [authors].
  destruct (Countries.paper_authors p) as [l|]; [|reflexivity].
  apply documented_author_loop.
Qed.

(** The resolver of this model, run on typed answers, does what the
    resolver of [Countries] does, and so returns. *)
Lemma documented_get_author_country paper_title authors_str st :
  exists r st',
    Countries.get_author_country openalex typed_search paper_title authors_str st
    = (Countries.Returned r, st')
    /\ get_author_country openalex search paper_title authors_str (of_lookup st)
       = (Returned r, of_lookup st').
Proof.
  unfold get_author_country, Countries.get_author_country.
  destruct (truthy (List.hd EmptyString (List.map strip (split "," authors_str))));
    cbn [negb]; [|now exists None, st].
  unfold bind, Countries.bind. rewrite documented_tier1.
  destruct (tier1_total openalex
              (List.hd EmptyString (List.map strip (split "," authors_str))) st)
    as (r1 & st1 & -> & _). cbn [fst snd of_result].
  destruct (Countries.truthy_opt r1); [now exists r1, st1|].
  rewrite documented_tier2.
  destruct (tier2_total typed_search paper_title
              (List.map strip (split "," authors_str)) st1) as (r2 & st2 & -> & _).
  cbn [fst snd].
  destruct r2 as [p|]; cbn [of_cached]; [|now exists None, st2].
  rewrite documented_truthy_paper.
  destruct (Countries.truthy_paper p); [|now exists None, st2].
  unfold pure. rewrite documented_scan.
  destruct (Countries.extract_country_from_semantic_scholar (Some p)) as [code|];
    [|now exists None, st2].
  destruct (truthy code); [|now exists None, st2].
  eexists _, _. split; reflexivity.
Qed.

End Documented.

(** C5, as the tiers and the resolver decide it, on answers as JSON
    delivers them. A failing lookup of Tier 1 (no reply, a status from 400
    to 599, a body that is not JSON) stores "none" for the author in the
    author cache and returns none; a failing lookup of Tier 2 (no reply, a
    status other than 200, a body that is not JSON, or candidates whose
    reading raises) stores "none" for the title in the paper cache and
    returns none; each has sent its one request. Neither tier ever raises. A
    cached author or title is answered from the cache with the lookup
    object unchanged, and the resolver never removes a cache entry, so no
    lookup is sent twice. The resolver itself raises what the scan of the
    paper that Tier 2 has returned raises, a [TypeError] or an
    [AttributeError], and nothing else; on answers of the documented types
    it returns, with the result of the typed resolver. *)
Theorem lookup_errors_swallowed
    (openalex : nat -> string -> Countries.Reply Countries.OpenAlexData)
    (semantic_scholar : nat -> string -> Countries.Reply Wire.Data) :
  (forall author_name st,
      Wire.author_cache st !! author_name = None ->
      Countries.tier1_error (openalex (List.length (Wire.requests st)) author_name) = true ->
      Wire.get_country_from_openalex openalex author_name st
      = (Wire.Returned None,
         {| Wire.paper_cache := Wire.paper_cache st;
            Wire.author_cache := <[author_name := None]> (Wire.author_cache st);
            Wire.requests :=
              (Wire.requests st ++ [Countries.OpenAlexAuthors author_name])%list |}))
  /\ (forall title authors st,
        let cache_key := "ss_" ++ Countries.clean_title title in
        let query := title ++ " " ++ List.hd EmptyString authors in
        let reply := semantic_scholar (List.length (Wire.requests st)) query in
        Wire.paper_cache st !! cache_key = None ->
        Wire.tier2_error reply = true
        \/ Wire.tier2_misread (Countries.clean_title title) reply = true ->
        Wire.get_semantic_scholar_paper semantic_scholar title authors st
        = (Wire.Returned None,
           {| Wire.paper_cache := <[cache_key := None]> (Wire.paper_cache st);
              Wire.author_cache := Wire.author_cache st;
              Wire.requests :=
                (Wire.requests st ++ [Countries.SemanticScholarSearch query])%list |}))
  /\ (forall author_name st,
        exists r st',
          Wire.get_country_from_openalex openalex author_name st = (Wire.Returned r, st')
          /\ Wire.keeps_entries st st')
  /\ (forall title authors st,
        exists r st',
          Wire.get_semantic_scholar_paper semantic_scholar title authors st
          = (Wire.Returned r, st')
          /\ Wire.keeps_entries st st')
  /\ (forall author_name st v,
        Wire.author_cache st !! author_name = Some v ->
        Wire.get_country_from_openalex openalex author_name st = (Wire.Returned v, st))
  /\ (forall title authors st v,
        Wire.paper_cache st !! ("ss_" ++ Countries.clean_title title) = Some v ->
        Wire.get_semantic_scholar_paper semantic_scholar title authors st
        = (Wire.Returned v, st))
  /\ (forall title authors_str st,
        let run := Wire.get_author_country openalex semantic_scholar title authors_str st in
        Wire.keeps_entries st (snd run)
        /\ forall e,
             fst run = Wire.Raised e ->
             (e = Wire.TypeError \/ e = Wire.AttributeError)
             /\ exists p,
                  Wire.paper_cache (snd run) !! ("ss_" ++ Countries.clean_title title)
                  = Some (Some p)
                  /\ Wire.extract_country_from_semantic_scholar (Some p) = Wire.Raised e)
  /\ (forall title authors_str st r st1 p st2 e,
        Str.truthy (Countries.first_author_of authors_str) = true ->
        Wire.get_country_from_openalex openalex (Countries.first_author_of authors_str) st
        = (Wire.Returned r, st1) ->
        Countries.truthy_opt r = false ->
        Wire.get_semantic_scholar_paper semantic_scholar title
          (List.map Str.strip (Str.split "," authors_str)) st1
        = (Wire.Returned (Some p), st2) ->
        Wire.extract_country_from_semantic_scholar (Some p) = Wire.Raised e ->
        Wire.get_author_country openalex semantic_scholar title authors_str st
        = (Wire.Raised e, st2))
  /\ (forall typed_search title authors_str st,
        exists r st',
          Countries.get_author_country openalex typed_search title authors_str st
          = (Countries.Returned r, st')
          /\ Wire.get_author_country openalex
               (fun sent query => Wire.of_reply (typed_search sent query))
               title authors_str (Wire.of_lookup st)
             = (Wire.Returned r, Wire.of_lookup st')).
Proof.
  split.
  { intros author_name st Hmiss Herr.
    rewrite (wire_tier1_miss openalex _ _ Hmiss).
    now rewrite (tier1_error_answer _ Herr). }
  split.
  { intros title authors st cache_key query reply Hmiss Herr.
    rewrite (wire_tier2_miss semantic_scholar _ _ _ Hmiss).
    fold query. fold reply. now rewrite (wire_tier2_error_answer _ _ Herr). }
  split; [apply wire_tier1_total|].
  split.
  { intros title authors st.
    destruct (wire_tier2_total semantic_scholar title authors st) as (r & st' & H & Hk & _).
    now exists r, st'. }
  split; [apply wire_tier1_hit|].
  split; [apply wire_tier2_hit|].
  split; [apply wire_get_author_country_runs|].
  split; [apply wire_scan_propagates|].
  intros typed_search title authors_str st.
  apply documented_get_author_country.
Qed.

Lemma lookup_errors_swallowed_witness :
  let st1 := snd (Wire.get_country_from_openalex LookupExamples.openalex_down
                    "Jane Doe" WireExamples.fresh) in
  Countries.tier1_error (LookupExamples.openalex_down 0 "Jane Doe") = true
  /\ Wire.get_country_from_openalex LookupExamples.openalex_down "Jane Doe" WireExamples.fresh
     = (Wire.Returned None,
        {| Wire.paper_cache := ∅;
           Wire.author_cache := <["Jane Doe" := None]> ∅;
           Wire.requests := [Countries.OpenAlexAuthors "Jane Doe"] |})
  /\ Wire.get_country_from_openalex LookupExamples.openalex_down "Jane Doe" st1
     = (Wire.Returned None, st1)
  /\ Wire.tier2_misread "a study of x"
       (WireExamples.search_answers [Some WireExamples.null_title] 1 "A Study of X Jane Doe")
     = true
  /\ fst (Wire.get_semantic_scholar_paper
            (WireExamples.search_answers [Some WireExamples.null_title])
            "A Study of X" ["Jane Doe"] st1)
     = Wire.Returned None.
Proof.
  intros st1. split; [reflexivity|].
  destruct (lookup_errors_swallowed LookupExamples.openalex_down
              (WireExamples.search_answers [Some WireExamples.null_title]))
    as (Htier1 & Htier2 & _ & _ & Hhit & _).
  split; [|split; [|split; [reflexivity|]]].
  - apply (Htier1 "Jane Doe" WireExamples.fresh); reflexivity.
  - apply (Hhit "Jane Doe" st1 None). vm_compute; reflexivity.
  - rewrite (Htier2 "A Study of X" ["Jane Doe"] st1);
      [reflexivity | vm_compute; reflexivity | right; vm_compute; reflexivity].
Defined.

(** C5 as stated fails twice. For Tier 1 a status other than 200 that is
    no error status is no failure: [raise_for_status] lets 203 pass, the
    body is read, and the country it names is returned and cached. And an
    exception does leave the resolver: with the name lookup unreachable and
    a matching candidate whose [authors] is [null], the scan, which runs
    outside every [try], raises [TypeError]. *)
Lemma swallowed_errors_counterexample :
  let reply := LookupExamples.openalex_knows 203 "US" in
  let found := Wire.get_country_from_openalex reply "Jane Doe" WireExamples.fresh in
  let run := Wire.get_author_country LookupExamples.openalex_down
               (WireExamples.search_answers [Some WireExamples.null_authors])
               "A Study of X" "Jane Doe" WireExamples.fresh in
  (exists resp, reply 0 "Jane Doe" = Countries.Replied resp
                /\ Countries.status_code resp <> 200)
  /\ fst found = Wire.Returned (Some "US")
  /\ Wire.author_cache (snd found) !! "Jane Doe" = Some (Some "US")
  /\ Countries.tier1_error (LookupExamples.openalex_down 0 "Jane Doe") = true
  /\ fst run = Wire.Raised Wire.TypeError.
Proof.
  split; [eexists; split; [reflexivity | discriminate]|].
  repeat split; vm_compute; reflexivity.
Qed.

(** ** The resolver, call by call *)

Section ResolverShape.
Import Str Countries Batch.
Variable openalex : nat -> string -> Reply OpenAlexData.
Variable semantic_scholar : nat -> string -> Reply SSData.

Lemma tier1_steps a st :
  exists r st1,
    get_country_from_openalex openalex a st = (Returned r, st1) /\ tier1_step a st r st1.
Proof.
  destruct (author_cache st !! a) as [v|] eqn:E.
  - exists v, st. rewrite (tier1_hit openalex _ _ _ E). split; [reflexivity|]. now left.
  - eexists _, _. rewrite (tier1_miss openalex _ _ E). split; [reflexivity|]. now right.
Qed.

Lemma tier2_steps title authors st :
  exists r st1,
    get_semantic_scholar_paper semantic_scholar title authors st = (Returned r, st1)
    /\ tier2_step title (title ++ " " ++ List.hd EmptyString authors) st r st1.
Proof.
  destruct (paper_cache st !! ("ss_" ++ clean_title title)) as [v|] eqn:E.
  - exists v, st. rewrite (tier2_hit semantic_scholar _ _ _ _ E). split; [reflexivity|]. now left.
  - eexists _, _. rewrite (tier2_miss semantic_scholar _ _ _ E). split; [reflexivity|]. now right.
Qed.

(** Every run of the resolver on a non-blank first author: Tier 1, then
    either its country, or Tier 2 and then a country stored for the author
    or none. *)
Lemma get_author_country_shape title authors_str st :
  let a := first_author_of authors_str in
  let authors := List.map strip (split "," authors_str) in
  let run := get_author_country openalex semantic_scholar title authors_str st in
  truthy a = true ->
  exists r1 st1,
    tier1_step a st r1 st1
    /\ ((truthy_opt r1 = true /\ run = (Returned r1, st1))
        \/ (truthy_opt r1 = false
            /\ exists r2 st2,
                tier2_step title (title ++ " " ++ List.hd EmptyString authors) st1 r2 st2
                /\ ((exists p code,
                        r2 = Some p
                        /\ extract_country_from_semantic_scholar (Some p) = Some code
                        /\ truthy code = true
                        /\ run = (Returned (Some code), backfilled a code st2))
                    \/ run = (Returned None, st2)))).
Proof.
  intros a authors run Ha. subst run. unfold get_author_country.
  fold authors. change (List.hd EmptyString authors) with a. rewrite Ha. cbn [negb].
  unfold bind.
  destruct (tier1_steps a st) as (r1 & st1 & -> & Hstep1).
  exists r1, st1. split; [exact Hstep1|].
  destruct (truthy_opt r1); [left; now split|]. right. split; [reflexivity|].
  destruct (tier2_steps title authors st1) as (r2 & st2 & -> & Hstep2).
  exists r2, st2. split; [exact Hstep2|].
  destruct r2 as [p|]; [|now right].
  destruct (truthy_paper p); [|now right].
  destruct (extract_country_from_semantic_scholar (Some p)) as [code|] eqn:Hc; [|now right].
  destruct (truthy code) eqn:Ht; [|now right].
  left. exists p, code. repeat split; assumption.
Qed.

Lemma get_author_country_blank title authors_str st :
  truthy (first_author_of authors_str) = false ->
  get_author_country openalex semantic_scholar title authors_str st = (Returned None, st).
Proof.
  unfold get_author_country, first_author_of. now intros ->.
Qed.

End ResolverShape.

(** ** What one call leaves in the caches *)

Section Settled.
Import Str Countries Batch.
Variable openalex : nat -> string -> Reply OpenAlexData.
Variable semantic_scholar : nat -> string -> Reply SSData.

Local Abbreviation resolve := (get_author_country openalex semantic_scholar).

Lemma truthy_opt_some r : truthy_opt r = true -> exists cc, r = Some cc /\ truthy cc = true.
Proof. destruct r as [cc|]; [|discriminate]. intros H. now exists cc. Qed.

Lemma tier1_step_cached a st r st1 :
  tier1_step a st r st1 -> author_cache st1 !! a = Some r.
Proof.
  intros [[H ->]|[_ ->]]; [exact H|]. cbn. apply lookup_insert_eq.
Qed.

Lemma tier1_step_paper_cache a st r st1 :
  tier1_step a st r st1 -> paper_cache st1 = paper_cache st.
Proof. now intros [[_ ->]|[_ ->]]. Qed.

Lemma tier2_step_author_cache title query st r st1 :
  tier2_step title query st r st1 -> author_cache st1 = author_cache st.
Proof. now intros [[_ ->]|[_ ->]]. Qed.

Lemma tier2_step_cached title query st r st1 :
  tier2_step title query st r st1 ->
  paper_cache st1 !! ("ss_" ++ clean_title title) = Some r.
Proof.
  intros [[H ->]|[_ ->]]; [exact H|]. cbn. apply lookup_insert_eq.
Qed.

(** A cached country stays a cached country, whatever is resolved next. *)
Lemma cached_country_kept title authors_str st b cc :
  author_cache st !! b = Some (Some cc) -> truthy cc = true ->
  exists cc', author_cache (snd (resolve title authors_str st)) !! b = Some (Some cc')
              /\ truthy cc' = true.
Proof.
  intros Hb Hcc.
  destruct (truthy (first_author_of authors_str)) eqn:Ha.
  2:{ rewrite (get_author_country_blank _ _ _ _ _ Ha). now exists cc. }
  assert (forall r st1, tier1_step (first_author_of authors_str) st r st1 ->
                        author_cache st1 !! b = Some (Some cc)) as H1.
  { intros r st1 [[_ ->]|[Hmiss ->]]; [exact Hb|]. cbn.
    rewrite lookup_insert_ne; [exact Hb|]. intros <-. congruence. }
  destruct (get_author_country_shape openalex semantic_scholar title authors_str st Ha)
    as (r1 & st1 & Hs1 & [[_ ->]|(_ & r2 & st2 & Hs2 & [(p & code & _ & _ & Ht & ->)| ->])]);
    cbn [snd].
  - exists cc. split; [now apply (H1 r1)|assumption].
  - unfold backfilled. cbn.
    destruct (decide (first_author_of authors_str = b)) as [->|Hne].
    + exists code. now rewrite lookup_insert_eq.
    + exists cc. rewrite lookup_insert_ne by assumption.
      rewrite (tier2_step_author_cache _ _ _ _ _ Hs2). split; [now apply (H1 r1)|assumption].
  - exists cc. rewrite (tier2_step_author_cache _ _ _ _ _ Hs2).
    split; [now apply (H1 r1)|assumption].
Qed.

Lemma settled_after title authors_str st :
  settled title authors_str (snd (resolve title authors_str st)).
Proof.
  unfold settled.
  destruct (truthy (first_author_of authors_str)) eqn:Ha; [|now left]. right.
  destruct (get_author_country_shape openalex semantic_scholar title authors_str st Ha)
    as (r1 & st1 & Hs1 & [[Hr ->]|(_ & r2 & st2 & Hs2 & [(p & code & _ & _ & Ht & ->)| ->])]);
    cbn [snd].
  - left. destruct (truthy_opt_some r1 Hr) as (cc & -> & Hcc).
    exists cc. split; [now apply (tier1_step_cached _ st)|assumption].
  - left. exists code. split; [apply lookup_insert_eq|assumption].
  - right. split.
    + rewrite (tier2_step_author_cache _ _ _ _ _ Hs2), (tier1_step_cached _ _ _ _ Hs1). eauto.
    + rewrite (tier2_step_cached _ _ _ _ _ Hs2). eauto.
Qed.

Lemma settled_kept title authors_str title2 authors_str2 st :
  settled title authors_str st ->
  settled title authors_str (snd (resolve title2 authors_str2 st)).
Proof.
  unfold settled. intros [H|[(cc & Hc & Ht)|[Ha Hp]]]; [now left| |].
  - right; left. now apply (cached_country_kept title2 authors_str2 st _ cc).
  - right; right.
    destruct (get_author_country_total openalex semantic_scholar title2 authors_str2 st)
      as (r & st' & -> & Hauth & Hpap). cbn [snd]. split; [now apply Hauth | now apply Hpap].
Qed.

Lemma settled_quiet title authors_str st :
  settled title authors_str st ->
  requests (snd (resolve title authors_str st)) = requests st.
Proof.
  intros Hs.
  destruct (truthy (first_author_of authors_str)) eqn:Ha.
  2:{ now rewrite (get_author_country_blank _ _ _ _ _ Ha). }
  destruct Hs as [H|Hs]; [congruence|].
  assert (is_Some (author_cache st !! first_author_of authors_str)) as Hcached.
  { destruct Hs as [(cc & Hc & _)|[Hc _]]; [rewrite Hc; eauto | exact Hc]. }
  destruct (get_author_country_shape openalex semantic_scholar title authors_str st Ha)
    as (r1 & st1 & Hs1 & Hrest).
  destruct Hs1 as [[Hhit ->]|[Hmiss _]];
    [|rewrite Hmiss in Hcached; now destruct Hcached].
  destruct Hrest as [[_ ->]|(Hr & r2 & st2 & Hs2 & Hend)]; [reflexivity|].
  destruct Hs as [(cc & Hc & Ht)|[_ Hp]].
  { rewrite Hc in Hhit. injection Hhit as <-. cbn in Hr. congruence. }
  destruct Hs2 as [[_ ->]|[Hmiss2 _]];
    [|rewrite Hmiss2 in Hp; now destruct Hp].
  destruct Hend as [(p & code & _ & _ & _ & ->)| ->]; reflexivity.
Qed.

End Settled.

(** ** The batch script *)

Section BatchFacts.
Import Str Countries Batch.
Variable openalex : nat -> string -> Reply OpenAlexData.
Variable semantic_scholar : nat -> string -> Reply SSData.

Local Abbreviation resolve := (get_author_country openalex semantic_scholar).

Lemma counter_total_increment key counter :
  counter_total (increment key counter) = S (counter_total counter).
Proof.
  unfold counter_total, increment.
  assert (forall (m : gmap string nat) (j1 j2 : string) (z1 z2 y : nat),
             j1 <> j2 -> m !! j1 = Some z1 -> m !! j2 = Some z2 ->
             z1 + (z2 + y) = z2 + (z1 + y)) as Hcomm by (intros; lia).
  destruct (counter !! key) as [n|] eqn:E; cbn [default].
  - rewrite <- insert_delete_eq.
    rewrite map_fold_insert_L; [|apply Hcomm | apply lookup_delete_eq].
    rewrite (map_fold_delete_L _ _ key n counter); [cbv beta delta [id]; lia | apply Hcomm | exact E].
  - rewrite map_fold_insert_L; [cbv beta; lia | apply Hcomm | exact E].
Qed.

Lemma process_paper_run tally title authors_str st :
  exists tally',
    process_paper openalex semantic_scholar tally (title, authors_str) st
    = (Returned tally', snd (resolve title authors_str st))
    /\ (tally_ok tally -> tally_ok tally')
    /\ total_lookups tally'
       = total_lookups tally
         + (if truthy (first_author_of authors_str) then 1 else 0).
Proof.
  unfold process_paper.
  change (List.hd EmptyString (List.map strip (split "," authors_str)))
    with (first_author_of authors_str).
  destruct (truthy (first_author_of authors_str)) eqn:Ha; cbn [negb].
  2:{ exists tally. rewrite (get_author_country_blank _ _ _ _ _ Ha).
      split; [reflexivity|]. split; [tauto | lia]. }
  unfold bind.
  destruct (get_author_country_total openalex semantic_scholar title authors_str st)
    as (r & st' & -> & _). cbn [snd].
  assert (forall tally',
             country_counter tally' = country_counter tally ->
             successful_lookups tally' = successful_lookups tally ->
             total_lookups tally' = S (total_lookups tally) ->
             no_country_found tally'
             = (no_country_found tally ++ [(first_author_of authors_str, title)])%list ->
             (tally_ok tally -> tally_ok tally')
             /\ total_lookups tally' = total_lookups tally + 1) as Hnone.
  { intros tally' Hc Hs Ht Hn. split; [|lia].
    intros (H1 & H2 & H3). unfold tally_ok. rewrite Hc, Hs, Ht, Hn, length_app.
    cbn [List.length]. repeat split; [lia | assumption |].
    apply Forall_app. split; [assumption|]. now constructor. }
  destruct r as [code|]; [destruct (truthy code)|];
    try (eexists; split; [reflexivity|]; now apply Hnone).
  eexists; split; [reflexivity|].
  split; [|cbn [total_lookups]; lia].
  intros (H1 & H2 & H3). unfold tally_ok.
  cbn [country_counter successful_lookups total_lookups no_country_found].
  repeat split; [lia | | assumption].
  destruct (country_map !! code); [rewrite counter_total_increment|]; lia.
Qed.

Lemma process_papers_run papers tally st :
  exists tally' st',
    process_papers openalex semantic_scholar papers tally st = (Returned tally', st')
    /\ (tally_ok tally -> tally_ok tally')
    /\ total_lookups tally' = total_lookups tally + List.length (with_first_author papers)
    /\ Forall (fun paper => settled (fst paper) (snd paper) st') papers
    /\ (forall title authors_str, settled title authors_str st -> settled title authors_str st').
Proof.
  revert tally st; induction papers as [|[title authors_str] papers IH]; intros tally st.
  - exists tally, st. split; [reflexivity|]. split; [tauto|].
    split; [cbn; lia|]. split; [constructor | tauto].
  - cbn [process_papers]. unfold bind at 1.
    destruct (process_paper_run tally title authors_str st) as (tally1 & -> & Hok1 & Htot1).
    destruct (IH tally1 (snd (resolve title authors_str st)))
      as (tally2 & st2 & -> & Hok2 & Htot2 & Hall & Hkeep).
    exists tally2, st2. split; [reflexivity|]. split; [tauto|]. split.
    + rewrite Htot2, Htot1. unfold with_first_author. cbn [List.filter snd].
      destruct (truthy (first_author_of authors_str)); cbn [List.length]; lia.
    + split.
      * constructor; [|exact Hall]. cbn [fst snd]. apply Hkeep, settled_after.
      * intros t a Hs. apply Hkeep. now apply settled_kept.
Qed.

Lemma country_papers_quiet country papers :
  forall j st,
    Forall (fun paper => settled (fst paper) (snd paper) st) papers ->
    exists listed st',
      country_papers openalex semantic_scholar country j papers st = (Returned listed, st')
      /\ requests st' = requests st
      /\ (forall title authors_str, settled title authors_str st -> settled title authors_str st').
Proof.
  induction papers as [|[title authors_str] papers IH]; intros j st Hall.
  - exists [], st. split; [reflexivity|]. split; [reflexivity | tauto].
  - apply List.Forall_cons_iff in Hall as [Hhere Hall]. cbn [fst snd] in Hhere.
    cbn [country_papers].
    change (List.hd EmptyString (List.map strip (split "," authors_str)))
      with (first_author_of authors_str).
    destruct (truthy (first_author_of authors_str)); [|now apply IH].
    unfold bind at 1.
    pose proof (settled_quiet openalex semantic_scholar title authors_str st Hhere) as Hq.
    destruct (get_author_country_total openalex semantic_scholar title authors_str st)
      as (r & st1 & Hrun & _).
    assert (forall t a, settled t a st -> settled t a st1) as Hkeep1.
    { intros t a Hs.
      pose proof (settled_kept openalex semantic_scholar t a title authors_str st Hs) as Hk.
      now rewrite Hrun in Hk. }
    rewrite Hrun in *. cbn [snd] in Hq.
    destruct (IH (S j) st1) as (found & st2 & Hrest & Hq2 & Hkeep2).
    { eapply List.Forall_impl; [|exact Hall]. intros [t a] Hs. now apply Hkeep1. }
    unfold bind. rewrite Hrest. eexists _, st2. split; [reflexivity|].
    split; [congruence|]. intros t a Hs. now apply Hkeep2, Hkeep1.
Qed.

Lemma second_pass_quiet countries papers :
  forall st,
    Forall (fun paper => settled (fst paper) (snd paper) st) papers ->
    exists summary st',
      second_pass openalex semantic_scholar countries papers st = (Returned summary, st')
      /\ requests st' = requests st.
Proof.
  induction countries as [|country countries IH]; intros st Hall.
  - exists [], st. now cbn.
  - cbn [second_pass]. unfold bind at 1.
    destruct (country_papers_quiet country papers 0 st Hall) as (listed & st1 & -> & Hq1 & Hkeep).
    destruct (IH st1) as (more & st2 & Hrest & Hq2).
    { eapply List.Forall_impl; [|exact Hall]. intros [t a] Hs. now apply Hkeep. }
    unfold bind. rewrite Hrest. eexists _, st2. split; [reflexivity | congruence].
Qed.

Lemma first_pass_total_lookups rows st :
  exists tally st',
    first_pass openalex semantic_scholar rows st = (Returned tally, st')
    /\ total_lookups tally
       = List.length (with_first_author (List.firstn test_limit (valid_papers rows))).
Proof.
  unfold first_pass.
  destruct (process_papers_run (List.firstn test_limit (valid_papers rows)) empty_tally st)
    as (tally & st' & -> & _ & Htot & _).
  now exists tally, st'.
Qed.

End BatchFacts.

Section BlankAuthor.
Import Str Countries Batch.

Lemma space_not_comma c : is_space c = true -> Ascii.eqb c "," = false.
Proof. destruct c as [[] [] [] [] [] [] [] []]; vm_compute; congruence. Qed.

Lemma split_before_comma ws rest :
  all_space ws = true ->
  split "," (ws ++ String "," rest) = ws :: split "," rest.
Proof.
  induction ws as [|c ws IH]; intros H.
  - reflexivity.
  - cbn [all_space] in H. apply andb_true_iff in H as [Hc Hws].
    change (String c ws ++ String "," rest) with (String c (ws ++ String "," rest)).
    cbn [split]. rewrite (space_not_comma c Hc), (IH Hws). reflexivity.
Qed.

Lemma split_blank ws : all_space ws = true -> split "," ws = [ws].
Proof.
  induction ws as [|c ws IH]; intros H; [reflexivity|].
  cbn [all_space] in H. apply andb_true_iff in H as [Hc Hws].
  cbn [split]. rewrite (space_not_comma c Hc), (IH Hws). reflexivity.
Qed.

Lemma strip_blank ws : all_space ws = true -> strip ws = EmptyString.
Proof.
  unfold strip. induction ws as [|c ws IH]; intros H; [reflexivity|].
  cbn [all_space] in H. apply andb_true_iff in H as [Hc Hws].
  cbn [lstrip]. rewrite Hc. now apply IH.
Qed.

Lemma first_author_blank ws rest :
  all_space ws = true ->
  first_author_of ws = EmptyString
  /\ first_author_of (ws ++ String "," rest) = EmptyString.
Proof.
  intros H. unfold first_author_of.
  rewrite (split_blank ws H), (split_before_comma ws rest H). cbn [List.map List.hd].
  now rewrite (strip_blank ws H).
Qed.

End BlankAuthor.

(** X1. Whenever the resolver returns a country, the code is a non-empty
    string, the author cache maps the first author to it afterwards, and any
    later paper with the same authors string gets the same code at once, with
    the lookup object unchanged. *)
Theorem resolved_country_is_cached
    (openalex : nat -> string -> Countries.Reply Countries.OpenAlexData)
    (semantic_scholar : nat -> string -> Countries.Reply Countries.SSData)
    (title authors_str : string) (st st' : Countries.Lookup) (code : string) :
  Countries.get_author_country openalex semantic_scholar title authors_str st
  = (Countries.Returned (Some code), st') ->
  Str.truthy code = true
  /\ Countries.author_cache st' !! Countries.first_author_of authors_str = Some (Some code)
  /\ forall title2,
       Countries.get_author_country openalex semantic_scholar title2 authors_str st'
       = (Countries.Returned (Some code), st').
Proof.
  intros Hrun.
  destruct (Str.truthy (Countries.first_author_of authors_str)) eqn:Ha.
  2:{ rewrite (get_author_country_blank _ _ _ _ _ Ha) in Hrun. discriminate. }
  assert (Str.truthy code = true
          /\ Countries.author_cache st' !! Countries.first_author_of authors_str
             = Some (Some code)) as [Ht Hc].
  { destruct (get_author_country_shape openalex semantic_scholar title authors_str st Ha)
      as (r1 & st1 & Hs1 & [[Hr Heq]|(_ & r2 & st2 & Hs2 & [(p & c & _ & _ & Ht & Heq)| Heq])]);
      rewrite Heq in Hrun.
    - injection Hrun as -> ->. split; [exact Hr|]. now apply (tier1_step_cached _ st).
    - injection Hrun as -> <-. split; [exact Ht|]. apply lookup_insert_eq.
    - discriminate. }
  repeat split; try assumption.
  intros title2. apply get_author_country_tier1; [assumption | | assumption].
  now apply tier1_hit.
Qed.

Lemma resolved_country_is_cached_witness :
  let run := Countries.get_author_country LookupExamples.openalex_down
               (LookupExamples.search_finds "Tsinghua University")
               "A Study of X" "Jane Doe, John Roe" LookupExamples.fresh in
  fst run = Countries.Returned (Some "CN")
  /\ Countries.get_author_country LookupExamples.openalex_down
       (LookupExamples.search_finds "Tsinghua University")
       "Another Study" "Jane Doe, John Roe" (snd run)
     = (Countries.Returned (Some "CN"), snd run).
Proof.
  intros run. split; [vm_compute; reflexivity|].
  apply (proj2 (proj2 (resolved_country_is_cached LookupExamples.openalex_down
                         (LookupExamples.search_finds "Tsinghua University")
                         "A Study of X" "Jane Doe, John Roe" LookupExamples.fresh
                         (snd run) "CN" ltac:(vm_compute; reflexivity)))).
Defined.

(** X2. A call of the resolver for a non-blank first author sends at most
    one request to each service, the name lookup first: a name request
    exactly when the author is not in the author cache, and a paper search
    only for a title that is not in the paper cache. *)
Theorem resolver_sends_at_most_two
    (openalex : nat -> string -> Countries.Reply Countries.OpenAlexData)
    (semantic_scholar : nat -> string -> Countries.Reply Countries.SSData)
    (title authors_str : string) (st : Countries.Lookup) :
  let a := Countries.first_author_of authors_str in
  let st' := snd (Countries.get_author_country openalex semantic_scholar
                    title authors_str st) in
  Str.truthy a = true ->
  exists l2,
    Countries.requests st'
    = (Countries.requests st
       ++ match Countries.author_cache st !! a with
          | Some _ => []
          | None => [Countries.OpenAlexAuthors a]
          end
       ++ l2)%list
    /\ (l2 = []
        \/ (l2 = [Countries.SemanticScholarSearch (title ++ " " ++ a)]
            /\ Countries.paper_cache st !! ("ss_" ++ Countries.clean_title title) = None)).
Proof.
  intros a st' Ha. subst st'.
  destruct (get_author_country_shape openalex semantic_scholar title authors_str st Ha)
    as (r1 & st1 & Hs1 & Hrest). fold a in Hs1, Hrest.
  assert (Countries.requests st1
          = (Countries.requests st
             ++ match Countries.author_cache st !! a with
                | Some _ => []
                | None => [Countries.OpenAlexAuthors a]
                end)%list) as Hreq1.
  { destruct Hs1 as [[-> ->]|[-> ->]]; [now rewrite app_nil_r | reflexivity]. }
  pose proof (tier1_step_paper_cache _ _ _ _ Hs1) as Hpc.
  destruct Hrest as [[_ ->]|(_ & r2 & st2 & Hs2 & Hend)].
  { exists []. cbn [snd]. rewrite app_nil_r. split; [exact Hreq1 | now left]. }
  assert (exists l2,
             Countries.requests st2 = (Countries.requests st1 ++ l2)%list
             /\ (l2 = []
                 \/ (l2 = [Countries.SemanticScholarSearch (title ++ " " ++ a)]
                     /\ Countries.paper_cache st !! ("ss_" ++ Countries.clean_title title)
                        = None))) as (l2 & Hreq2 & Hl2).
  { destruct Hs2 as [[_ ->]|[Hmiss ->]].
    - exists []. rewrite app_nil_r. split; [reflexivity | now left].
    - eexists. split; [reflexivity|]. right. split; [reflexivity|]. now rewrite <- Hpc. }
  exists l2. split; [|exact Hl2].
  destruct Hend as [(p & c & _ & _ & _ & ->)| ->]; cbn [snd Batch.backfilled Countries.requests];
    now rewrite Hreq2, Hreq1, <- app_assoc.
Qed.

Lemma resolver_sends_at_most_two_witness :
  Str.truthy (Countries.first_author_of "Jane Doe") = true
  /\ exists l2,
       Countries.requests
         (snd (Countries.get_author_country LookupExamples.openalex_down
                 LookupExamples.search_throttled "A Study of X" "Jane Doe"
                 LookupExamples.fresh))
       = ([] ++ [Countries.OpenAlexAuthors "Jane Doe"] ++ l2)%list
       /\ (l2 = []
           \/ (l2 = [Countries.SemanticScholarSearch "A Study of X Jane Doe"]
               /\ Countries.paper_cache LookupExamples.fresh !! "ss_a study of x" = None)).
Proof.
  split; [reflexivity|].
  exact (resolver_sends_at_most_two LookupExamples.openalex_down
           LookupExamples.search_throttled "A Study of X" "Jane Doe"
           LookupExamples.fresh eq_refl).
Defined.

(** X3. An authors string that is blank, or blank before its first comma,
    has no first author: the resolver returns none, sends nothing and caches
    nothing, and the batch loop passes over the paper without counting it. *)
Theorem blank_first_author_skipped
    (openalex : nat -> string -> Countries.Reply Countries.OpenAlexData)
    (semantic_scholar : nat -> string -> Countries.Reply Countries.SSData)
    (ws rest title authors_str : string) (tally : Batch.Tally) (st : Countries.Lookup) :
  Batch.all_space ws = true ->
  authors_str = ws \/ authors_str = ws ++ String "," rest ->
  Countries.first_author_of authors_str = EmptyString
  /\ Countries.get_author_country openalex semantic_scholar title authors_str st
     = (Countries.Returned None, st)
  /\ Batch.process_paper openalex semantic_scholar tally (title, authors_str) st
     = (Countries.Returned tally, st).
Proof.
  intros H Hform. destruct (first_author_blank ws rest H) as [H1 H2].
  assert (Countries.first_author_of authors_str = EmptyString) as Hblank
    by (destruct Hform as [->| ->]; assumption).
  split; [exact Hblank|].
  split; [apply get_author_country_blank; now rewrite Hblank|].
  unfold Batch.process_paper.
  change (List.hd EmptyString (List.map Str.strip (Str.split "," authors_str)))
    with (Countries.first_author_of authors_str).
  now rewrite Hblank.
Qed.

Lemma blank_first_author_skipped_witness :
  Batch.all_space "  " = true
  /\ Countries.get_author_country LookupExamples.openalex_down
       (LookupExamples.search_finds "Tsinghua University")
       "A Study of X" "  , John Roe" LookupExamples.fresh
     = (Countries.Returned None, LookupExamples.fresh)
  /\ Batch.process_paper LookupExamples.openalex_down
       (LookupExamples.search_finds "Tsinghua University")
       Batch.empty_tally ("A Study of X", "  ") LookupExamples.fresh
     = (Countries.Returned Batch.empty_tally, LookupExamples.fresh).
Proof.
  split; [reflexivity|]. split.
  - exact (proj1 (proj2 (blank_first_author_skipped LookupExamples.openalex_down
                           (LookupExamples.search_finds "Tsinghua University")
                           "  " " John Roe" "A Study of X" "  , John Roe" Batch.empty_tally
                           LookupExamples.fresh eq_refl (or_intror eq_refl)))).
  - exact (proj2 (proj2 (blank_first_author_skipped LookupExamples.openalex_down
                           (LookupExamples.search_finds "Tsinghua University")
                           "  " " John Roe" "A Study of X" "  " Batch.empty_tally
                           LookupExamples.fresh eq_refl (or_introl eq_refl)))).
Defined.

(** X4. The summary resolves every paper of the batch again, once for each
    country it lists; after the first loop none of these calls sends a
    request, whatever the services would answer. *)
Theorem second_pass_sends_nothing
    (openalex : nat -> string -> Countries.Reply Countries.OpenAlexData)
    (semantic_scholar : nat -> string -> Countries.Reply Countries.SSData)
    (rows : list (option string * option string)) (countries : list string)
    (st : Countries.Lookup) :
  let papers := List.firstn Batch.test_limit (Batch.valid_papers rows) in
  let st1 := snd (Batch.first_pass openalex semantic_scholar rows st) in
  exists summary st2,
    Batch.second_pass openalex semantic_scholar countries papers st1
    = (Countries.Returned summary, st2)
    /\ Countries.requests st2 = Countries.requests st1.
Proof.
  intros papers st1. subst st1. unfold Batch.first_pass. fold papers.
  destruct (process_papers_run openalex semantic_scholar papers Batch.empty_tally st)
    as (tally & st1 & -> & _ & _ & Hall & _).
  cbn [snd]. now apply second_pass_quiet.
Qed.

(** X5. After the first loop the number of lookups is the number of papers
    of the batch that have a first author, at most [test_limit]; every
    lookup is either successful or listed as "no country found", the counts
    per country add up to no more than the successful lookups, and no listed
    entry has a blank author. *)
Theorem first_pass_tally
    (openalex : nat -> string -> Countries.Reply Countries.OpenAlexData)
    (semantic_scholar : nat -> string -> Countries.Reply Countries.SSData)
    (rows : list (option string * option string)) (st : Countries.Lookup) :
  let papers := List.firstn Batch.test_limit (Batch.valid_papers rows) in
  exists tally st',
    Batch.first_pass openalex semantic_scholar rows st = (Countries.Returned tally, st')
    /\ Batch.total_lookups tally = List.length (Batch.with_first_author papers)
    /\ Batch.total_lookups tally <= Batch.test_limit
    /\ Batch.total_lookups tally
       = Batch.successful_lookups tally + List.length (Batch.no_country_found tally)
    /\ Batch.counter_total (Batch.country_counter tally) <= Batch.successful_lookups tally
    /\ Forall (fun entry => Str.truthy (fst entry) = true) (Batch.no_country_found tally).
Proof.
  intros papers. unfold Batch.first_pass. fold papers.
  destruct (process_papers_run openalex semantic_scholar papers Batch.empty_tally st)
    as (tally & st' & -> & Hok & Htot & _).
  exists tally, st'. split; [reflexivity|].
  assert (Batch.tally_ok Batch.empty_tally) as H0.
  { unfold Batch.tally_ok, Batch.counter_total. cbn. rewrite map_fold_empty.
    repeat split; [lia | constructor]. }
  destruct (Hok H0) as (H1 & H2 & H3). cbn in Htot.
  split; [exact Htot|]. split; [|now repeat split].
  rewrite Htot. unfold Batch.with_first_author.
  etransitivity; [apply List.filter_length_le|].
  subst papers. apply List.firstn_le_length.
Qed.

(** X6. The line that prints the success rate raises [ZeroDivisionError]
    exactly when no paper of the batch has a first author, as on an empty
    table. *)
Theorem success_rate_raises_without_lookups
    (openalex : nat -> string -> Countries.Reply Countries.OpenAlexData)
    (semantic_scholar : nat -> string -> Countries.Reply Countries.SSData)
    (rows : list (option string * option string)) (st st' : Countries.Lookup)
    (tally : Batch.Tally) :
  Batch.first_pass openalex semantic_scholar rows st = (Countries.Returned tally, st') ->
  (Batch.success_rate tally = Batch.ZeroDivisionError
   <-> Batch.with_first_author (List.firstn Batch.test_limit (Batch.valid_papers rows)) = [])
  /\ (rows = [] -> Batch.success_rate tally = Batch.ZeroDivisionError).
Proof.
  intros Hrun.
  destruct (first_pass_total_lookups openalex semantic_scholar rows st) as (t & s & Hrun' & Htot).
  rewrite Hrun in Hrun'. injection Hrun' as <- <-.
  assert (Batch.success_rate tally = Batch.ZeroDivisionError
          <-> Batch.with_first_author
                (List.firstn Batch.test_limit (Batch.valid_papers rows)) = []) as Hiff.
  { unfold Batch.success_rate. rewrite Htot.
    destruct (Batch.with_first_author _); cbn; split; congruence. }
  split; [exact Hiff|]. intros ->. now apply Hiff.
Qed.

Lemma success_rate_raises_without_lookups_witness :
  Batch.first_pass LookupExamples.openalex_down LookupExamples.search_throttled
    [(Some "A Study of X", None); (Some "Another Study", Some " , John Roe")]
    LookupExamples.fresh
  = (Countries.Returned Batch.empty_tally, LookupExamples.fresh)
  /\ Batch.success_rate Batch.empty_tally = Batch.ZeroDivisionError.
Proof.
  assert (Batch.first_pass LookupExamples.openalex_down LookupExamples.search_throttled
            [(Some "A Study of X", None); (Some "Another Study", Some " , John Roe")]
            LookupExamples.fresh
          = (Countries.Returned Batch.empty_tally, LookupExamples.fresh)) as Hrun
    by (vm_compute; reflexivity).
  split; [exact Hrun|].
  apply (proj1 (success_rate_raises_without_lookups _ _ _ _ _ _ Hrun)).
  vm_compute. reflexivity.
Defined.

(** ** Reading the answers of the services *)

Section StripFacts.
Import Str.

Lemma startswith_rstrip t : startswith (rstrip t) t = true.
Proof.
  induction t as [|c t IH]; [reflexivity|]. cbn [rstrip].
  destruct (rstrip t) as [|d r] eqn:E.
  - destruct (is_space c); cbn; [reflexivity|]. now rewrite Ascii.eqb_refl.
  - cbn [startswith]. now rewrite Ascii.eqb_refl.
Qed.

Lemma is_in_lstrip p s : is_in p (lstrip s) = true -> is_in p s = true.
Proof.
  induction s as [|c s IH]; [tauto|]. cbn [lstrip].
  destruct (is_space c); [|tauto].
  intros H. cbn [is_in]. rewrite (IH H). apply orb_true_r.
Qed.

Lemma is_in_prefix p s : startswith p s = true -> is_in p s = true.
Proof. intros H. destruct s; cbn [is_in]; now rewrite H. Qed.

(** The trimmed text is a piece of the text. *)
Lemma is_in_strip s : is_in (strip s) s = true.
Proof. apply is_in_lstrip, is_in_prefix, startswith_rstrip. Qed.

Lemma rstrip_idem t : rstrip (rstrip t) = rstrip t.
Proof.
  induction t as [|c t IH]; [reflexivity|]. cbn [rstrip].
  destruct (rstrip t) as [|d r] eqn:E.
  - destruct (is_space c) eqn:Ec; [reflexivity|]. cbn. now rewrite Ec.
  - cbn [rstrip]. cbn [rstrip] in IH. now rewrite IH.
Qed.

Lemma lstrip_rstrip_lstrip s : lstrip (rstrip (lstrip s)) = rstrip (lstrip s).
Proof.
  induction s as [|c s IH]; [reflexivity|]. cbn [lstrip].
  destruct (is_space c) eqn:Ec; [exact IH|].
  cbn [rstrip]. destruct (rstrip s); rewrite ?Ec; cbn [lstrip]; now rewrite Ec.
Qed.

Lemma strip_idem s : strip (strip s) = strip s.
Proof. unfold strip. now rewrite lstrip_rstrip_lstrip, rstrip_idem. Qed.

End StripFacts.

Section Answers.
Import Str Countries Batch.

Lemma keyword_loop_some table text code :
  keyword_loop table text = Some code ->
  exists keyword, In (keyword, code) table /\ is_in keyword text = true.
Proof.
  induction table as [|[k c] table IH]; cbn; [discriminate|].
  destruct (is_in k text) eqn:E.
  - intros [= <-]. exists k. split; [now left | exact E].
  - intros H. destruct (IH H) as (k' & Hin & Hk'). exists k'. split; [now right | exact Hk'].
Qed.

Lemma keyword_loop_none table text :
  keyword_loop table text = None <->
  Forall (fun entry => is_in (fst entry) text = false) table.
Proof.
  induction table as [|[k c] table IH]; cbn.
  - split; [constructor | reflexivity].
  - destruct (is_in k text) eqn:E.
    + split; [discriminate|]. intros H. apply List.Forall_cons_iff in H as [H _].
      cbn in H. congruence.
    + rewrite IH. split; [now constructor|].
      intros H. now apply List.Forall_cons_iff in H as [_ H].
Qed.

Lemma affiliation_loop_some affs code :
  affiliation_loop affs = Some code ->
  exists a keyword,
    In a affs /\ In (keyword, code) country_keywords /\ is_in keyword (lower a) = true.
Proof.
  induction affs as [|a affs IH]; cbn [affiliation_loop]; [discriminate|].
  destruct (classify_affiliation a) as [c|] eqn:E.
  - intros [= <-]. destruct (keyword_loop_some _ _ _ E) as (k & Hin & Hk).
    exists a, k. repeat split; [now left | assumption..].
  - intros H. destruct (IH H) as (a' & k & Ha & Hin & Hk).
    exists a', k. repeat split; [now right | assumption..].
Qed.

Lemma affiliation_loop_none affs :
  affiliation_loop affs = None <->
  Forall (fun a => Forall (fun entry => is_in (fst entry) (lower a) = false) country_keywords)
         affs.
Proof.
  induction affs as [|a affs IH]; cbn [affiliation_loop].
  - split; [constructor | reflexivity].
  - destruct (classify_affiliation a) as [c|] eqn:E.
    + split; [discriminate|]. intros H. apply List.Forall_cons_iff in H as [H _].
      apply keyword_loop_none in H. unfold classify_affiliation in E. congruence.
    + rewrite IH. split.
      * intros H. constructor; [now apply keyword_loop_none | exact H].
      * intros H. now apply List.Forall_cons_iff in H as [_ H].
Qed.

End Answers.

(** X7. The country read off a paper is always a code of the keyword table
    whose keyword occurs in the lowercased form of one of the paper's
    affiliation strings; the scan gives none exactly when no affiliation
    string contains any keyword of the table. *)
Theorem extracted_country_has_keyword (p : Countries.SSPaper) :
  (forall code,
      Countries.extract_country_from_semantic_scholar (Some p) = Some code ->
      exists affiliation keyword,
        In affiliation (Countries.affiliations_in_order p)
        /\ In (keyword, code) Countries.country_keywords
        /\ Str.is_in keyword (Str.lower affiliation) = true)
  /\ (Countries.extract_country_from_semantic_scholar (Some p) = None <->
      Forall (fun affiliation =>
                Forall (fun entry => Str.is_in (fst entry) (Str.lower affiliation) = false)
                       Countries.country_keywords)
             (Countries.affiliations_in_order p)).
Proof.
  rewrite extract_country_in_order. split.
  - intros code. apply affiliation_loop_some.
  - apply affiliation_loop_none.
Qed.

Lemma extracted_country_has_keyword_witness :
  Countries.extract_country_from_semantic_scholar
    (Some (LookupExamples.paper_from "School of Education, Tsinghua University")) = Some "BD"
  /\ exists affiliation keyword,
       In affiliation (Countries.affiliations_in_order
                         (LookupExamples.paper_from "School of Education, Tsinghua University"))
       /\ In (keyword, "BD") Countries.country_keywords
       /\ Str.is_in keyword (Str.lower affiliation) = true.
Proof.
  assert (Countries.extract_country_from_semantic_scholar
            (Some (LookupExamples.paper_from "School of Education, Tsinghua University"))
          = Some "BD") as H by (vm_compute; reflexivity).
  split; [exact H|].
  exact (proj1 (extracted_country_has_keyword _) "BD" H).
Defined.

(** X8. The title match of Tier 2 is loose at the edges: a candidate
    without a title, or with an empty one, matches every query; a query
    title that is blank matches every candidate; and a candidate whose title
    is the query title up to letter case matches. In the first two cases the
    first candidate of the answer is the paper that is taken. *)
Theorem title_match_edges (title : string) (p : Countries.SSPaper)
    (rest : list Countries.SSPaper) :
  (Countries.paper_title p = None \/ Countries.paper_title p = Some EmptyString ->
   Countries.best_match (Countries.clean_title title) (p :: rest) = Some p)
  /\ (Batch.all_space title = true ->
      Countries.best_match (Countries.clean_title title) (p :: rest) = Some p)
  /\ (forall t, Countries.paper_title p = Some t -> Str.lower t = Str.lower title ->
                Countries.title_matches (Countries.clean_title title) p = true).
Proof.
  assert (forall s, Str.is_in EmptyString s = true) as Hempty by (now intros []).
  split; [|split].
  - intros H. cbn [Countries.best_match]. unfold Countries.title_matches.
    destruct H as [-> | ->]; cbn [Str.lower]; now rewrite Hempty.
  - intros H. cbn [Countries.best_match]. unfold Countries.title_matches, Countries.clean_title.
    rewrite strip_lower, (strip_blank title H). cbn [Str.lower].
    rewrite Hempty. now rewrite orb_true_r.
  - intros t Ht Hl. unfold Countries.title_matches, Countries.clean_title.
    rewrite Ht, Hl, is_in_strip. apply orb_true_r.
Qed.

Lemma title_match_edges_witness :
  Countries.best_match (Countries.clean_title "A Study of X")
    [ {| Countries.paper_title := None; Countries.paper_authors := Some [];
         Countries.other_fields := true |};
      LookupExamples.paper_from "Tsinghua University" ]
  = Some {| Countries.paper_title := None; Countries.paper_authors := Some [];
            Countries.other_fields := true |}.
Proof.
  apply (proj1 (title_match_edges "A Study of X" _ _)). now left.
Defined.

Section CleanTitle.
Import Str Countries.

Lemma clean_title_lower t : clean_title (lower t) = clean_title t.
Proof. unfold clean_title. now rewrite lower_idem. Qed.

Lemma clean_title_strip t : clean_title (strip t) = clean_title t.
Proof. unfold clean_title. now rewrite <- strip_lower, strip_idem. Qed.

Lemma institution_country_nonempty o cc :
  institution_country o = Some cc -> truthy cc = true.
Proof.
  unfold institution_country. destruct o as [i|]; [|discriminate].
  destruct (country_code i) as [c|]; [|discriminate].
  destruct (truthy c) eqn:E; [|discriminate]. now intros [= <-].
Qed.

Lemma first_affiliation_country_nonempty affs cc :
  first_affiliation_country affs = Some cc -> truthy cc = true.
Proof.
  induction affs as [|a affs IH]; cbn; [discriminate|].
  destruct (institution_country (institution a)) eqn:E; [|exact IH].
  intros [= <-]. now apply (institution_country_nonempty _ _ E).
Qed.

Lemma openalex_answer_nonempty r cc : openalex_answer r = Some cc -> truthy cc = true.
Proof.
  unfold openalex_answer, openalex_country.
  destruct r as [|resp]; [discriminate|].
  destruct (error_status (status_code resp)); [discriminate|].
  destruct (json_body resp) as [d|]; [|discriminate].
  destruct (results d) as [[|first_result more]|]; try discriminate.
  destruct (institution_country (last_known_institution first_result)) eqn:E.
  - intros [= <-]. now apply (institution_country_nonempty _ _ E).
  - apply first_affiliation_country_nonempty.
Qed.

End CleanTitle.

(** X9. The paper cache is keyed by the cleaned title: titles that differ
    only in letter case or in surrounding whitespace have the same key, and
    a lookup for a title whose key has been looked up before is answered
    from the cache, with the earlier answer and without a request, even for
    other authors. *)
Theorem paper_cache_shared_by_clean_title
    (semantic_scholar : nat -> string -> Countries.Reply Countries.SSData)
    (title1 title2 : string) (authors1 authors2 : list string) (st : Countries.Lookup) :
  Countries.clean_title (Str.lower title1) = Countries.clean_title title1
  /\ Countries.clean_title (Str.strip title1) = Countries.clean_title title1
  /\ (Countries.clean_title title1 = Countries.clean_title title2 ->
      let first := Countries.get_semantic_scholar_paper semantic_scholar title1 authors1 st in
      Countries.get_semantic_scholar_paper semantic_scholar title2 authors2 (snd first)
      = first).
Proof.
  split; [apply clean_title_lower|]. split; [apply clean_title_strip|].
  intros Hkey first. subst first.
  destruct (tier2_steps semantic_scholar title1 authors1 st) as (r & st1 & -> & Hstep).
  cbn [snd]. apply tier2_hit. rewrite <- Hkey.
  now apply (tier2_step_cached _ _ _ _ _ Hstep).
Qed.

Lemma paper_cache_shared_by_clean_title_witness :
  let first := Countries.get_semantic_scholar_paper
                 (LookupExamples.search_finds "Tsinghua University")
                 "A Study of X" ["Jane Doe"] LookupExamples.fresh in
  Countries.clean_title "A Study of X" = Countries.clean_title "  a STUDY of x "
  /\ Countries.get_semantic_scholar_paper
       (LookupExamples.search_finds "Tsinghua University")
       "  a STUDY of x " ["John Roe"] (snd first)
     = first
  /\ Countries.requests (snd first)
     = [Countries.SemanticScholarSearch "A Study of X Jane Doe"].
Proof.
  intros first. split; [reflexivity|]. split; [|vm_compute; reflexivity].
  exact (proj2 (proj2 (paper_cache_shared_by_clean_title
                         (LookupExamples.search_finds "Tsinghua University")
                         "A Study of X" "  a STUDY of x " ["Jane Doe"] ["John Roe"]
                         LookupExamples.fresh)) eq_refl).
Defined.

(** X10. Tier 1 stores what it returns: after a call for an author the
    author cache maps that author to the returned value, every other entry
    and the paper cache are as before, and a value that comes from a request
    is none or a non-empty code. *)
Theorem tier1_stores_what_it_returns
    (openalex : nat -> string -> Countries.Reply Countries.OpenAlexData)
    (author_name : string) (st : Countries.Lookup) :
  exists r st1,
    Countries.get_country_from_openalex openalex author_name st = (Countries.Returned r, st1)
    /\ Countries.author_cache st1 !! author_name = Some r
    /\ (forall b, b <> author_name ->
                  Countries.author_cache st1 !! b = Countries.author_cache st !! b)
    /\ Countries.paper_cache st1 = Countries.paper_cache st
    /\ (Countries.author_cache st !! author_name = None ->
        r = None \/ exists cc, r = Some cc /\ Str.truthy cc = true).
Proof.
  destruct (Countries.author_cache st !! author_name) as [v|] eqn:E.
  - exists v, st. rewrite (tier1_hit openalex _ _ _ E). repeat split; try assumption.
    discriminate.
  - eexists _, _. rewrite (tier1_miss openalex _ _ E). cbv zeta.
    split; [reflexivity|]. cbn [Countries.author_cache Countries.paper_cache].
    split; [apply lookup_insert_eq|].
    split; [intros b Hb; now apply lookup_insert_ne|].
    split; [reflexivity|]. intros _.
    destruct (Countries.openalex_answer
                (openalex (List.length (Countries.requests st)) author_name)) as [cc|] eqn:Ha;
      [|now left].
    right. exists cc. split; [reflexivity|]. now apply (openalex_answer_nonempty _ _ Ha).
Qed.

(** ** Link discovery *)

Section LinkDedup.
Import Str ConfScraper Discovery.

Lemma fold_unique_step links acc seen :
  fst (fold_left unique_step links (acc, seen)) = (acc ++ first_urls seen links)%list.
Proof.
  revert acc seen; induction links as [|l links IH]; intros acc seen; simpl.
  - now rewrite app_nil_r.
  - destruct (bool_decide (url l ∉ seen)).
    + rewrite IH, <- app_assoc. reflexivity.
    + apply IH.
Qed.

Lemma unique_links_first_urls links : unique_links links = first_urls ∅ links.
Proof. unfold unique_links. now rewrite fold_unique_step. Qed.

Lemma first_urls_elem seen links l :
  (l ∈ first_urls seen links) -> (url l ∉ seen) /\ (l ∈ links).
Proof.
  revert seen; induction links as [|l0 links IH]; intros seen; simpl.
  - intros H; inversion H.
  - destruct (bool_decide (url l0 ∉ seen)) eqn:Hs.
    + intros H. apply elem_of_cons in H as [->|H].
      * apply bool_decide_eq_true in Hs. split; [assumption | apply list_elem_of_here].
      * destruct (IH _ H) as [Hk Hin]. split; [|now apply list_elem_of_further].
        intros Hq. apply Hk, elem_of_union. now right.
    + intros H. destruct (IH _ H) as [Hk Hin]. split; [assumption|].
      now apply list_elem_of_further.
Qed.

Lemma first_urls_nodup seen links : NoDup (List.map url (first_urls seen links)).
Proof.
  revert seen; induction links as [|l links IH]; intros seen; simpl.
  - constructor.
  - destruct (bool_decide (url l ∉ seen)); [|apply IH].
    simpl. constructor; [|apply IH].
    intros Hin. apply list_elem_of_fmap in Hin as (q & Hq & Hin).
    apply first_urls_elem in Hin as [Hk _]. apply Hk. rewrite <- Hq.
    apply elem_of_union. left. now apply elem_of_singleton.
Qed.

Lemma first_urls_idem seen links :
  first_urls seen (first_urls seen links) = first_urls seen links.
Proof.
  revert seen; induction links as [|l links IH]; intros seen; simpl; [reflexivity|].
  destruct (bool_decide (url l ∉ seen)) eqn:E.
  - simpl. rewrite E. f_equal. apply IH.
  - apply IH.
Qed.

Lemma first_urls_sublist seen links : sublist (first_urls seen links) links.
Proof.
  revert seen; induction links as [|l links IH]; intros seen; simpl.
  - constructor.
  - destruct (bool_decide (url l ∉ seen)).
    + apply sublist_skip, IH.
    + apply sublist_cons, IH.
Qed.

(** No url is lost. *)
Lemma first_urls_covers seen links l :
  (l ∈ links) -> (url l ∈ seen) \/ (url l ∈ List.map url (first_urls seen links)).
Proof.
  revert seen; induction links as [|l0 links IH]; intros seen Hin; [inversion Hin|].
  simpl. apply elem_of_cons in Hin as [->|Hin].
  - destruct (bool_decide (url l0 ∉ seen)) eqn:Hs.
    + right. simpl. apply list_elem_of_here.
    + left. apply bool_decide_eq_false in Hs.
      destruct (decide (url l0 ∈ seen)); [assumption | contradiction].
  - destruct (bool_decide (url l0 ∉ seen)).
    + destruct (IH ({[url l0]} ∪ seen) Hin) as [H|H].
      * apply elem_of_union in H as [H|H]; [|now left].
        apply elem_of_singleton in H. right. simpl. rewrite H. apply list_elem_of_here.
      * right. simpl. now apply list_elem_of_further.
    + now apply IH.
Qed.

Lemma first_urls_keeps seen l1 l l2 :
  (url l ∉ seen) -> (url l ∉ List.map url l1) ->
  (l ∈ first_urls seen (l1 ++ l :: l2)%list).
Proof.
  revert seen; induction l1 as [|q l1 IH]; intros seen Hs Hl; simpl.
  - rewrite bool_decide_eq_true_2 by assumption. apply list_elem_of_here.
  - simpl in Hl. apply not_elem_of_cons in Hl as [Hne Hl].
    destruct (bool_decide (url q ∉ seen)).
    + apply list_elem_of_further, IH; [|assumption].
      rewrite not_elem_of_union, not_elem_of_singleton. now split.
    + now apply IH.
Qed.

End LinkDedup.

(** X11. The link-level deduplication keeps, for every url among the
    collected links, exactly the first link with that url, in the order of
    collection: its output has no url twice, loses no url, and is unchanged
    by a second pass. *)
Theorem unique_links_first_per_url (content_links : list Discovery.ContentLink) :
  Discovery.unique_links (Discovery.unique_links content_links)
  = Discovery.unique_links content_links
  /\ NoDup (List.map Discovery.url (Discovery.unique_links content_links))
  /\ sublist (Discovery.unique_links content_links) content_links
  /\ (forall l, (l ∈ content_links) ->
                (Discovery.url l ∈ List.map Discovery.url (Discovery.unique_links content_links)))
  /\ (forall l1 l l2,
        content_links = (l1 ++ l :: l2)%list ->
        (Discovery.url l ∉ List.map Discovery.url l1) ->
        (l ∈ Discovery.unique_links content_links)).
Proof.
  rewrite !unique_links_first_urls.
  split; [apply first_urls_idem|].
  split; [apply first_urls_nodup|].
  split; [apply first_urls_sublist|].
  split.
  - intros l Hin. destruct (first_urls_covers ∅ content_links l Hin) as [H|H]; [|exact H].
    now apply not_elem_of_empty in H.
  - intros l1 l l2 -> Hl. apply first_urls_keeps; [apply not_elem_of_empty | exact Hl].
Qed.

Lemma unique_links_first_per_url_witness :
  let first := DiscoveryExamples.toc DiscoveryExamples.sigmod2020 in
  let later := DiscoveryExamples.nav DiscoveryExamples.sigmod2020 in
  (first ∈ Discovery.unique_links [first; later])
  /\ Discovery.unique_links [first; later] = [first].
Proof.
  intros first later. split; [|vm_compute; reflexivity].
  apply (proj2 (proj2 (proj2 (proj2 (unique_links_first_per_url [first; later]))))
           [] first [later] eq_refl).
  simpl. apply not_elem_of_nil.
Defined.

Section DiscoveredLinks.
Import Str ConfScraper Discovery.

Lemma toc_links_discovered entry : Forall discovered (extract_toc_links_from_entry entry).
Proof.
  unfold extract_toc_links_from_entry.
  destruct (toc_link entry) as [[h|]|]; try constructor.
  destruct (truthy h); cbn [andb]; [|constructor].
  destruct (is_valid_content_link h) eqn:Hv; constructor; [|constructor].
  unfold discovered. cbn. repeat split; [assumption | now left | discriminate..].
Qed.

Lemma direct_link_discovered link : Forall discovered (direct_link link).
Proof.
  unfold direct_link. destruct (href link) as [h|]; [|constructor].
  destruct (truthy h); cbn [andb]; [|constructor].
  destruct (is_valid_content_link h) eqn:Hv; [|constructor].
  destruct (is_in "/db/" h) eqn:Hdb; cbn [andb]; [|constructor].
  destruct (endswith ".html" h) eqn:He; constructor; [|constructor].
  unfold discovered. cbn. repeat split; try assumption. right; now left.
Qed.

Lemma additional_link_discovered link : Forall discovered (additional_link link).
Proof.
  unfold additional_link. destruct (href link) as [h|]; [|constructor].
  destruct (truthy h); cbn [andb]; [|constructor].
  destruct (is_valid_content_link h) eqn:Hv; [|constructor].
  destruct (existsb _ content_keywords); constructor; [|constructor].
  unfold discovered. cbn. repeat split; [assumption | right; now right | discriminate..].
Qed.

Lemma flat_map_Forall {A B} (P : B -> Prop) (f : A -> list B) l :
  (forall x, Forall P (f x)) -> Forall P (List.flat_map f l).
Proof.
  intros H. induction l as [|x l IH]; cbn; [constructor|].
  apply Forall_app. split; [apply H | exact IH].
Qed.

Lemma collected_links_discovered page : Forall discovered (collected_links page).
Proof.
  unfold collected_links. apply Forall_app. split.
  - destruct (publ_lists page) as [lists|]; [|constructor].
    induction lists as [|[entries|] lists IH]; cbn [walk_lists]; try constructor.
    apply Forall_app. split; [|exact IH].
    apply flat_map_Forall. intros entry. unfold entry_links.
    apply Forall_app. split; [apply toc_links_discovered|].
    unfold extract_direct_links_from_entry.
    destruct (nav_links entry); [|constructor].
    apply flat_map_Forall, direct_link_discovered.
  - unfold find_additional_content_links.
    destruct (all_anchors page); [|constructor].
    apply flat_map_Forall, additional_link_discovered.
Qed.

End DiscoveredLinks.

(** X12. Every link that the discovery on a seed page returns has a url that
    the link classifier accepts, so it contains "dblp.org" and, lowercased,
    none of the skip patterns; it comes from one of the three passes, and a
    link from the navigation of an entry contains "/db/" and ends in
    ".html". No url is returned twice, and a seed page that fails to load
    gives no link. *)
Theorem discovery_returns_content_links
    (browser : string -> ConfScraper.outcome Discovery.SeedPage) (conference_url : string) :
  let links := Discovery.scrape_conference_content_links browser conference_url in
  Forall (fun l =>
            Discovery.discovered l
            /\ Str.is_in "dblp.org" (Discovery.url l) = true
            /\ Str.any_in ConfScraper.skip_patterns (Str.lower (Discovery.url l)) = false)
         links
  /\ NoDup (List.map Discovery.url links)
  /\ (forall e, browser conference_url = ConfScraper.Raise e -> links = []).
Proof.
  intros links. subst links. unfold Discovery.scrape_conference_content_links.
  destruct (browser conference_url) as [page|e].
  2:{ split; [constructor|]. split; [constructor | reflexivity]. }
  rewrite unique_links_first_urls.
  split; [|split; [apply first_urls_nodup | discriminate]].
  apply Forall_forall. intros l Hin.
  apply first_urls_elem in Hin as [_ Hin].
  pose proof (collected_links_discovered page) as Hall.
  rewrite Forall_forall in Hall. pose proof (Hall l Hin) as Hd.
  split; [exact Hd|].
  destruct Hd as [Hv _]. rewrite is_valid_content_link_order in Hv.
  apply andb_true_iff in Hv as [Hdom Hv]. apply andb_true_iff in Hv as [Hskip _].
  split; [exact Hdom | now apply negb_true_iff].
Qed.

Lemma discovery_returns_content_links_witness :
  Discovery.scrape_conference_content_links DiscoveryExamples.browser
    "https://dblp.org/db/conf/sigmod/index.html"
  = [ DiscoveryExamples.toc DiscoveryExamples.sigmod2020 ]
  /\ Forall (fun l => Str.is_in "dblp.org" (Discovery.url l) = true)
            (Discovery.scrape_conference_content_links DiscoveryExamples.browser
               "https://dblp.org/db/conf/sigmod/index.html").
Proof.
  split; [vm_compute; reflexivity|].
  eapply Forall_impl;
    [exact (proj1 (discovery_returns_content_links DiscoveryExamples.browser
                     "https://dblp.org/db/conf/sigmod/index.html"))|].
  intros l (_ & H & _). exact H.
Defined.

(** ** From the author spans to the first author *)

Section AuthorsText.
Import Str ConfScraper Countries.

Lemma append_empty_r s : s ++ EmptyString = s.
Proof. induction s as [|c s IH]; [reflexivity|]. cbv [append]. fold append. now rewrite IH. Qed.

Lemma no_comma_cons c n :
  is_in "," (String c n) = false -> Ascii.eqb c "," = false /\ is_in "," n = false.
Proof.
  cbn [is_in startswith]. intros H. apply orb_false_iff in H as [H1 H2].
  split; [|exact H2]. rewrite Ascii.eqb_sym. now destruct (Ascii.eqb "," c).
Qed.

Lemma split_no_comma n s h t :
  is_in "," n = false -> split "," s = h :: t -> split "," (n ++ s) = (n ++ h) :: t.
Proof.
  intros Hn Hs. induction n as [|c n IH]; [exact Hs|].
  apply no_comma_cons in Hn as [Hc Hn].
  change (String c n ++ s) with (String c (n ++ s)).
  cbn [split]. now rewrite Hc, (IH Hn).
Qed.

Lemma split_no_comma_self n : is_in "," n = false -> split "," n = [n].
Proof.
  intros Hn. rewrite <- (append_empty_r n) at 1.
  rewrite (split_no_comma n EmptyString EmptyString [] Hn eq_refl).
  now rewrite append_empty_r.
Qed.

Lemma split_at_comma s : split "," (String "," s) = EmptyString :: split "," s.
Proof. reflexivity. Qed.

(** Joining names without comma by ", " and splitting at the commas gives
    the names back, all but the first with a space in front. *)
Lemma split_concat n rest :
  Forall (fun m => is_in "," m = false) (n :: rest) ->
  split "," (String.concat ", " (n :: rest)) = n :: List.map (String " ") rest.
Proof.
  revert n; induction rest as [|m rest IH]; intros n Hall.
  - apply List.Forall_cons_iff in Hall as [Hn _]. now apply split_no_comma_self.
  - apply List.Forall_cons_iff in Hall as [Hn Hall].
    change (String.concat ", " (n :: m :: rest))
      with (n ++ String "," (String " " (String.concat ", " (m :: rest)))).
    pose proof (IH m Hall) as Hrest.
    assert (split "," (String " " (String.concat ", " (m :: rest)))
            = String " " m :: List.map (String " ") rest) as Hsp.
    { change (String " " (String.concat ", " (m :: rest)))
        with (String " " EmptyString ++ String.concat ", " (m :: rest)).
      apply (split_no_comma (String " " EmptyString) _ _ _ eq_refl Hrest). }
    assert (split "," (String "," (String " " (String.concat ", " (m :: rest))))
            = EmptyString :: String " " m :: List.map (String " ") rest) as Hc.
    { rewrite split_at_comma. now rewrite Hsp. }
    rewrite (split_no_comma _ _ _ _ Hn Hc). now rewrite append_empty_r.
Qed.

Lemma strip_after_space n : strip (String " " n) = strip n.
Proof. reflexivity. Qed.

Lemma trimmed_names_split_back names :
  Forall (fun n => strip n = n /\ is_in "," n = false) names ->
  names <> [] ->
  List.map strip (split "," (String.concat ", " names)) = names.
Proof.
  intros Hall Hne. destruct names as [|n rest]; [contradiction|].
  rewrite split_concat.
  2:{ eapply List.Forall_impl; [|exact Hall]. now intros m [_ H]. }
  apply List.Forall_cons_iff in Hall as [[Hn _] Hall]. cbn [List.map]. rewrite Hn. f_equal.
  induction rest as [|m rest IH]; [reflexivity|].
  apply List.Forall_cons_iff in Hall as [[Hm _] Hall]. cbn [List.map].
  rewrite strip_after_space, Hm. f_equal. now apply IH.
Qed.

(** The names taken from the author spans are trimmed and not empty. *)
Lemma author_of_trimmed span :
  Forall (fun n => strip n = n /\ truthy n = true) (author_of span).
Proof.
  unfold author_of. destruct (author_name_span span) as [name_elem|].
  - match goal with |- context [truthy ?a && truthy (strip ?a)] => set (author_name := a) end.
    destruct (truthy author_name); cbn [andb]; [|constructor].
    destruct (truthy (strip author_name)) eqn:E; constructor; [|constructor].
    split; [apply strip_idem | exact E].
  - destruct (truthy (strip (author_text span))) eqn:E; constructor; [|constructor].
    split; [apply strip_idem | exact E].
Qed.

Lemma extracted_names_trimmed spans :
  Forall (fun n => strip n = n /\ truthy n = true) (List.concat (List.map author_of spans)).
Proof.
  induction spans as [|span spans IH]; cbn; [constructor|].
  apply Forall_app. split; [apply author_of_trimmed | exact IH].
Qed.

End AuthorsText.

(** X13. The authors text of an extracted record is the list of names read
    from the author spans, each trimmed and non-empty, joined by ", ". When
    no name contains a comma, splitting that text at the commas and trimming
    the parts, as the country lookup does, gives the names back, and the
    first author of the lookup is the first name of the record. *)
Theorem extracted_authors_split_back
    (element : ConfScraper.Element) (spans : list ConfScraper.AuthorSpan)
    (conference_name page_url : string) :
  ConfScraper.author_spans element = ConfScraper.Ok spans ->
  let names := List.concat (List.map ConfScraper.author_of spans) in
  Forall (fun n => Str.strip n = n /\ Str.truthy n = true) names
  /\ (Forall (fun n => Str.is_in "," n = false) names ->
      (names <> [] ->
       List.map Str.strip (Str.split "," (ConfScraper.extract_authors element)) = names)
      /\ (forall paper,
            ConfScraper.extract_paper_data element conference_name page_url = Some paper ->
            Countries.first_author_of (ConfScraper.authors paper)
            = List.hd EmptyString names)).
Proof.
  intros Hspans names.
  pose proof (extracted_names_trimmed spans) as Htrim. fold names in Htrim.
  split; [exact Htrim|]. intros Hcomma.
  assert (ConfScraper.extract_authors element = String.concat ", " names) as Hauth.
  { unfold ConfScraper.extract_authors. now rewrite Hspans. }
  assert (names <> [] ->
          List.map Str.strip (Str.split "," (ConfScraper.extract_authors element)) = names)
    as Hback.
  { intros Hne. rewrite Hauth. apply trimmed_names_split_back; [|exact Hne].
    apply Forall_forall. intros n Hn.
    rewrite Forall_forall in Htrim, Hcomma.
    split; [apply (Htrim n Hn) | apply (Hcomma n Hn)]. }
  split; [exact Hback|].
  intros paper [= <-]. cbn [ConfScraper.authors]. unfold Countries.first_author_of.
  destruct names as [|n rest] eqn:En.
  - rewrite Hauth. reflexivity.
  - rewrite Hback by discriminate. reflexivity.
Qed.

Lemma extracted_authors_split_back_witness :
  let element := EntryExamples.node "entry inproceedings"
                   [EntryExamples.jane; EntryExamples.jane] "A Study of X" in
  ConfScraper.extract_authors element = "Jane Doe, Jane Doe"
  /\ List.map Str.strip (Str.split "," (ConfScraper.extract_authors element))
     = ["Jane Doe"; "Jane Doe"].
Proof.
  intros element. split; [reflexivity|].
  apply (proj1 (proj2 (extracted_authors_split_back element
                         [EntryExamples.jane; EntryExamples.jane] "SIGMOD" "url" eq_refl)
                 ltac:(repeat constructor))).
  discriminate.
Defined.

(** ** The sink over a whole conference *)

Section SinkRuns.
Import Str ConfScraper.
Variable now : nat -> string.
Variable web : string -> outcome (list Element * list Element * list Element).

Lemma insert_conf_paper_no_table p db :
  conf_papers_table db = false ->
  snd (insert_conf_paper now p db) = db.
Proof.
  intros Ht. unfold insert_conf_paper.
  destruct (negb (db_file db)); [reflexivity|]. now rewrite Ht.
Qed.

Lemma scrape_loop_no_table conference_name content_url elements papers db :
  conf_papers_table db = false ->
  snd (fold_left (scrape_step now conference_name content_url) elements (papers, db)) = db.
Proof.
  intros Ht. revert papers; induction elements as [|e elements IH]; intros papers.
  - reflexivity.
  - cbn [fold_left].
    assert (exists papers', scrape_step now conference_name content_url (papers, db) e
                            = (papers', db)) as [papers' ->]; [|apply IH].
    unfold scrape_step.
    destruct (is_paper_entry e); [|now eexists].
    destruct (extract_paper_data e conference_name content_url) as [pd|]; [|now eexists].
    destruct (truthy (strip (name pd))); [|now eexists].
    pose proof (insert_conf_paper_no_table pd db Ht) as Hins.
    destruct (insert_conf_paper now pd db) as [pd' db']. cbn [snd] in Hins. subst db'.
    now eexists.
Qed.

Lemma scrape_page_no_table content_url conference_name db :
  conf_papers_table db = false ->
  snd (scrape_papers_from_content_page now web content_url conference_name db) = db.
Proof.
  intros Ht. unfold scrape_papers_from_content_page.
  destruct (web content_url) as [dom|]; [|reflexivity].
  pose proof (scrape_loop_no_table conference_name content_url (select_elements dom) [] db Ht)
    as H.
  destruct (fold_left _ (select_elements dom) ([], db)) as [papers db']. exact H.
Qed.

Lemma save_no_table papers db :
  conf_papers_table db = false ->
  rows (save_papers_to_db papers db) = rows db
  /\ conf_papers_table (save_papers_to_db papers db) = false.
Proof.
  intros Ht. unfold save_papers_to_db. destruct papers; [now split|].
  rewrite Ht. now split.
Qed.

Lemma links_no_table conf_name content_links all_papers db :
  conf_papers_table db = false ->
  rows (snd (fold_left (link_step now web conf_name) content_links (all_papers, db)))
  = rows db
  /\ conf_papers_table
       (snd (fold_left (link_step now web conf_name) content_links (all_papers, db)))
     = false.
Proof.
  revert all_papers db; induction content_links as [|u links IH]; intros all_papers db Ht.
  - now split.
  - cbn [fold_left]. unfold link_step at 2 4.
    pose proof (scrape_page_no_table u conf_name db Ht) as Hpage.
    destruct (scrape_papers_from_content_page now web u conf_name db) as [papers db'].
    cbn [snd] in Hpage. subst db'.
    destruct papers as [|p papers]; [now apply IH|].
    destruct (save_no_table (all_papers ++ p :: papers)%list db Ht) as [Hrows Htab].
    destruct (IH (all_papers ++ p :: papers)%list _ Htab) as [H1 H2].
    split; [now rewrite H1 | exact H2].
Qed.

End SinkRuns.

(** X14. A conference run against a database that has no [conf_papers]
    table stores nothing, however many records it scrapes: every insert of
    the page loop, every page and every save of the run leaves the rows as
    they were, and the table is still missing after the run. *)
Theorem run_conference_rows
    (now : nat -> string)
    (web : string -> ConfScraper.outcome
                       (list ConfScraper.Element * list ConfScraper.Element
                        * list ConfScraper.Element))
    (conf_name : string) (content_links : list string) (db : ConfScraper.Sink) :
  let run := ConfScraper.run_conference now web conf_name content_links db in
  ConfScraper.conf_papers_table db = false ->
  ConfScraper.rows (snd run) = ConfScraper.rows db
  /\ ConfScraper.conf_papers_table (snd run) = false
  /\ (forall paper, snd (ConfScraper.insert_conf_paper now paper db) = db)
  /\ (forall papers, ConfScraper.rows (ConfScraper.save_papers_to_db papers db)
                     = ConfScraper.rows db)
  /\ (forall url conference_name,
        snd (ConfScraper.scrape_papers_from_content_page now web url conference_name db) = db).
Proof.
  intros run Ht. subst run. unfold ConfScraper.run_conference.
  destruct (links_no_table now web conf_name content_links [] db Ht) as [Hr Htab].
  destruct (fold_left _ content_links ([], db)) as [all_papers db']. cbn [snd fst] in *.
  destruct (save_no_table all_papers db' Htab) as [Hr2 Ht2].
  split; [now rewrite Hr2|]. split; [exact Ht2|].
  split; [intros paper; now apply insert_conf_paper_no_table|].
  split; [intros papers; now apply save_no_table|].
  intros url conference_name. now apply scrape_page_no_table.
Qed.

Lemma run_conference_rows_witness :
  let url := "https://dblp.org/db/conf/sigmod/sigmod2020.html" in
  let no_table := {| ConfScraper.db_file := true; ConfScraper.conf_papers_table := false;
                     ConfScraper.rows := [] |} in
  let run := ConfScraper.run_conference SinkExamples.clock SinkExamples.single_page
               "SIGMOD" [url] no_table in
  List.length (fst run) = 1 /\ ConfScraper.rows (snd run) = [].
Proof.
  intros url no_table run. split; [vm_compute; reflexivity|].
  exact (proj1 (run_conference_rows SinkExamples.clock SinkExamples.single_page
                  "SIGMOD" [url] no_table eq_refl)).
Defined.

(** ** What the searches can return *)

Section TokenFacts.
Import Str Re Tokens.

Lemma startswith_refl s t : startswith s (s ++ t) = true.
Proof.
  induction s as [|c s IH]; [reflexivity|].
  change (String c s ++ t) with (String c (s ++ t)). cbn [startswith].
  now rewrite Ascii.eqb_refl.
Qed.

Lemma is_in_tail p c s : is_in p s = true -> is_in p (String c s) = true.
Proof. intros H. cbn [is_in]. rewrite H. apply orb_true_r. Qed.

(** Whatever a search returns has been found at some position, where the
    matcher vouches for it. *)
Lemma search_from_found {A} (m : option ascii -> string -> option A) (P : A -> string -> Prop) :
  (forall prev s r, m prev s = Some r -> P r s) ->
  (forall r c s, P r s -> P r (String c s)) ->
  forall s prev r, search_from m prev s = Some r -> P r s.
Proof.
  intros Hm Htail. induction s as [|c s IH]; intros prev r; cbn [search_from].
  - destruct (m prev "") eqn:E; [|discriminate]. intros [= <-]. now apply (Hm prev).
  - destruct (m prev (String c s)) eqn:E.
    + intros [= <-]. now apply (Hm prev).
    + intros H. apply Htail. now apply (IH (Some c)).
Qed.

Lemma year_at_token prev s y :
  year_at prev s = Some y -> year_token y = true /\ is_in y s = true.
Proof.
  destruct s as [|a [|b [|c [|d rest]]]]; cbn [year_at]; try discriminate.
  destruct (boundary prev _ && century a b && is_digit c && is_digit d && boundary (Some d) rest)
    eqn:E; [|discriminate].
  intros [= <-].
  apply andb_true_iff in E as [E _]. apply andb_true_iff in E as [E Hd].
  apply andb_true_iff in E as [E Hc]. apply andb_true_iff in E as [_ Hab].
  split.
  - unfold year_token, str4, str2. now rewrite Hab, Hc, Hd.
  - apply is_in_prefix. apply (startswith_refl (str4 a b c d) rest).
Qed.

Lemma search_year_token text y :
  search year_at text = Some y -> year_token y = true /\ is_in y text = true.
Proof.
  apply (search_from_found year_at (fun y s => year_token y = true /\ is_in y s = true)).
  - apply year_at_token.
  - intros r c s [H1 H2]. split; [exact H1 | now apply is_in_tail].
Qed.

Lemma year_token_truthy y : year_token y = true -> truthy y = true.
Proof. destruct y; [discriminate | reflexivity]. Qed.

Lemma take_while_prefix f s : startswith (take_while f s) s = true.
Proof.
  induction s as [|c s IH]; [reflexivity|]. cbn [take_while].
  destruct (f c); [|reflexivity]. cbn [startswith]. now rewrite Ascii.eqb_refl.
Qed.

Lemma take_while_digits s : all_digits (take_while is_digit s) = true.
Proof.
  induction s as [|c s IH]; [reflexivity|]. cbn [take_while].
  destruct (is_digit c) eqn:E; [|reflexivity]. cbn [all_digits]. now rewrite E.
Qed.

Lemma is_in_drop_while f p s : is_in p (drop_while f s) = true -> is_in p s = true.
Proof.
  induction s as [|c s IH]; [tauto|]. cbn [drop_while].
  destruct (f c); [|tauto]. intros H. now apply is_in_tail, IH.
Qed.

Lemma is_in_literal_ci lit p s r :
  literal_ci lit s = Some r -> is_in p r = true -> is_in p s = true.
Proof.
  revert s; induction lit as [|a lit IH]; intros s; cbn [literal_ci].
  - now intros [= <-].
  - destruct s as [|b s]; [discriminate|].
    destruct (Ascii.eqb a (lower_char b)); [|discriminate].
    intros H Hp. now apply is_in_tail, (IH s).
Qed.

Lemma is_in_opt_dot p s : is_in p (opt_dot s) = true -> is_in p s = true.
Proof.
  destruct s as [|c s]; [tauto|]. cbn [opt_dot].
  destruct (Ascii.eqb c "."); [apply is_in_tail | tauto].
Qed.

Lemma spaces_digits_token s ds :
  spaces_digits s = Some ds ->
  all_digits ds = true /\ truthy ds = true /\ is_in ds s = true.
Proof.
  unfold spaces_digits.
  pose proof (take_while_digits (drop_while is_space s)) as Hd.
  pose proof (take_while_prefix is_digit (drop_while is_space s)) as Hp.
  destruct (take_while is_digit (drop_while is_space s)) as [|c r]; [discriminate|].
  intros [= <-]. repeat split; [exact Hd|].
  now apply (is_in_drop_while is_space), is_in_prefix.
Qed.

Lemma volume_at_token prev s v :
  volume_at prev s = Some v ->
  all_digits v = true /\ truthy v = true /\ is_in v s = true.
Proof.
  unfold volume_at. destruct (literal_ci "volume" s) as [r|] eqn:E; [|discriminate].
  intros H. destruct (spaces_digits_token r v H) as (H1 & H2 & H3).
  repeat split; try assumption. now apply (is_in_literal_ci _ _ _ _ E).
Qed.

Lemma vol_at_token prev s v :
  vol_at prev s = Some v ->
  all_digits v = true /\ truthy v = true /\ is_in v s = true.
Proof.
  unfold vol_at. destruct (literal_ci "vol" s) as [r|] eqn:E; [|discriminate].
  destruct (spaces_digits (opt_dot r)) as [ds|] eqn:E1.
  - intros [= <-]. destruct (spaces_digits_token _ _ E1) as (H1 & H2 & H3).
    repeat split; try assumption.
    now apply (is_in_literal_ci _ _ _ _ E), is_in_opt_dot.
  - intros H. destruct (spaces_digits_token r v H) as (H1 & H2 & H3).
    repeat split; try assumption. now apply (is_in_literal_ci _ _ _ _ E).
Qed.

Lemma search_digits_token (m : option ascii -> string -> option string) text v :
  (forall prev s r, m prev s = Some r ->
                    all_digits r = true /\ truthy r = true /\ is_in r s = true) ->
  search m text = Some v ->
  all_digits v = true /\ truthy v = true /\ is_in v text = true.
Proof.
  intros Hm.
  apply (search_from_found m
           (fun r s => all_digits r = true /\ truthy r = true /\ is_in r s = true)).
  - exact Hm.
  - intros r c s (H1 & H2 & H3). repeat split; try assumption. now apply is_in_tail.
Qed.

Lemma year_from_text_token (text : string) :
  empty_or_token year_token text (Journals.year_from_text text).
Proof.
  unfold Journals.year_from_text, empty_or_token.
  destruct (search year_at text) as [y|] eqn:E; [|now left]. right.
  destruct (search_year_token text y E) as [H1 H2].
  repeat split; try assumption. now apply year_token_truthy.
Qed.

Lemma volume_from_text_token (text : string) :
  empty_or_token all_digits text (Journals.volume_from_text text).
Proof.
  unfold empty_or_token, Journals.volume_from_text.
  destruct (search vol_at text) as [v|] eqn:E; [|now left].
  right. apply (search_digits_token vol_at text v vol_at_token E).
Qed.

End TokenFacts.

(** X15. A year that any of the three extractors reports is either empty or
    a four-character token, 19 or 20 followed by two digits, that occurs in
    the text it was searched in: the year of a volume link, the year of a
    journal record read from its own text, and the year of a conference
    record. *)
Theorem extracted_year_is_token_of_text (text : string) :
  Tokens.empty_or_token Tokens.year_token text (snd (Journals.volume_year text))
  /\ Tokens.empty_or_token Tokens.year_token text (Journals.year_from_text text)
  /\ (forall element,
        ConfScraper.text element = ConfScraper.Ok text ->
        Tokens.empty_or_token Tokens.year_token text (ConfScraper.extract_year element)).
Proof.
  pose proof (year_from_text_token text) as H.
  split; [|split; [exact H|]].
  - rewrite volume_year_exact. unfold Journals.year_from_text in H.
    now destruct (Re.search Re.year_at text).
  - intros element Ht. unfold ConfScraper.extract_year. rewrite Ht.
    exact H.
Qed.

Lemma extracted_year_is_token_of_text_witness :
  ConfScraper.text (EntryExamples.node "entry" [] "Proceedings 2020")
  = ConfScraper.Ok "Proceedings 2020"
  /\ Tokens.empty_or_token Tokens.year_token "Proceedings 2020"
       (ConfScraper.extract_year (EntryExamples.node "entry" [] "Proceedings 2020")).
Proof.
  split; [reflexivity|].
  exact (proj2 (proj2 (extracted_year_is_token_of_text "Proceedings 2020"))
           (EntryExamples.node "entry" [] "Proceedings 2020") eq_refl).
Defined.

(** X16. The volume number read from the text of a volume link, and the one
    read from the text of a journal record, is either empty or a non-empty
    run of digits that occurs in that text; for a volume link the spelling
    "volume" is looked for in the whole text before the spelling "vol" is
    tried. *)
Theorem extracted_volume_is_digits_of_text (text : string) :
  Tokens.empty_or_token Tokens.all_digits text (Journals.volume_number text)
  /\ Tokens.empty_or_token Tokens.all_digits text (Journals.volume_from_text text)
  /\ (forall v, Re.search Re.volume_at text = Some v -> Journals.volume_number text = v).
Proof.
  split; [|split; [apply volume_from_text_token|]].
  - unfold Tokens.empty_or_token, Journals.volume_number.
    destruct (Re.search Re.volume_at text) as [v|] eqn:E.
    + right. apply (search_digits_token Re.volume_at text v volume_at_token E).
    + destruct (Re.search Re.vol_at text) as [v|] eqn:E2; [|now left].
      right. apply (search_digits_token Re.vol_at text v vol_at_token E2).
  - unfold Journals.volume_number. now intros v ->.
Qed.

Lemma extracted_volume_is_digits_of_text_witness :
  Re.search Re.volume_at "Vol. 3 (Volume 12)" = Some "12"
  /\ Journals.volume_number "Vol. 3 (Volume 12)" = "12"
  /\ Journals.volume_from_text "Vol. 3 (Volume 12)" = "3".
Proof.
  split; [reflexivity|]. split; [|reflexivity].
  exact (proj2 (proj2 (extracted_volume_is_digits_of_text "Vol. 3 (Volume 12)")) "12" eq_refl).
Defined.

(** ** The volume links of a journal page *)

Section VolumeLinks.
Import Str Re ConfScraper JournalScraper.

(** What the scan records: a trimmed text that passed the test with its
    address *)
Let tested (volume_link : VolumeLink) : Prop :=
  strip (text volume_link) = text volume_link
  /\ looks_like_volume (text volume_link) (href volume_link) = Some true.

Lemma passing_tested links : Forall tested (passing links).
Proof.
  unfold passing. induction links as [|link links IH]; cbn [List.flat_map]; [constructor|].
  apply Forall_app. split; [|exact IH].
  destruct (looks_like_volume (strip (a_text link)) (a_href link)) as [[|]|] eqn:E;
    repeat constructor.
  - cbn [text]. apply strip_idem.
  - exact E.
Qed.

(** A scan that is not broken adds the passing links to the list so far. *)
Lemma scan_links_safe links volume_links :
  scan_safe links ->
  scan_links links volume_links = ((volume_links ++ passing links)%list, false).
Proof.
  unfold scan_safe, passing. revert volume_links.
  induction links as [|link links IH]; intros volume_links Hsafe; cbn [scan_links List.flat_map].
  - now rewrite app_nil_r.
  - apply List.Forall_cons_iff in Hsafe as [Hlink Hsafe].
    destruct (looks_like_volume (strip (a_text link)) (a_href link)) as [[|]|];
      [| |contradiction].
    + rewrite (IH _ Hsafe), <- app_assoc. reflexivity.
    + now rewrite (IH _ Hsafe).
Qed.

(** A scan broken by a link keeps what it had recorded before that link. *)
Lemma scan_links_broken before link after volume_links :
  scan_safe before ->
  looks_like_volume (strip (a_text link)) (a_href link) = None ->
  scan_links (before ++ link :: after) volume_links
  = ((volume_links ++ passing before)%list, true).
Proof.
  unfold scan_safe, passing. revert volume_links.
  induction before as [|b before IH]; intros volume_links Hsafe Hlink;
    cbn [scan_links List.flat_map app].
  - now rewrite Hlink, app_nil_r.
  - apply List.Forall_cons_iff in Hsafe as [Hb Hsafe].
    destruct (looks_like_volume (strip (a_text b)) (a_href b)) as [[|]|];
      [| |contradiction].
    + rewrite (IH _ Hsafe Hlink), <- app_assoc. reflexivity.
    + now rewrite (IH _ Hsafe Hlink).
Qed.

Lemma scan_links_tested links volume_links :
  Forall tested volume_links -> Forall tested (fst (scan_links links volume_links)).
Proof.
  revert volume_links. induction links as [|link links IH]; intros volume_links Hacc;
    cbn [scan_links]; [exact Hacc|].
  destruct (looks_like_volume (strip (a_text link)) (a_href link)) as [[|]|] eqn:E.
  - apply IH, Forall_app. split; [exact Hacc|]. repeat constructor.
    + cbn [text]. apply strip_idem.
    + exact E.
  - now apply IH.
  - exact Hacc.
Qed.

Lemma selector_loop_tested results volume_links :
  Forall tested volume_links -> Forall tested (selector_loop results volume_links).
Proof.
  revert volume_links. induction results as [|result results IH]; intros volume_links Hacc;
    cbn [selector_loop]; [exact Hacc|].
  destruct result as [links|e]; [|now apply IH].
  pose proof (scan_links_tested links volume_links Hacc) as Hscan.
  destruct (scan_links links volume_links) as [found [|]]; cbn [fst] in Hscan.
  - destruct found; now apply IH.
  - destruct found; [now apply IH | exact Hscan].
Qed.

(** Without a broken scan the loop stops at the first selector that has a
    passing link, and returns the passing links of that selector alone. *)
Lemma selector_loop_first results :
  Forall (fun result => match result with Ok links => scan_safe links | Raise _ => True end)
         results ->
  (Forall fruitless results /\ selector_loop results [] = [])
  \/ (exists before links after,
        results = (before ++ Ok links :: after)%list
        /\ Forall fruitless before
        /\ passing links <> []
        /\ selector_loop results [] = passing links).
Proof.
  induction results as [|result results IH]; intros Hsafe.
  - left. split; [constructor | reflexivity].
  - apply List.Forall_cons_iff in Hsafe as [Hresult Hsafe]. specialize (IH Hsafe).
    assert (fruitless result ->
            selector_loop (result :: results) [] = selector_loop results []) as Hskip.
    { destruct result as [links|e]; cbn [selector_loop fruitless]; [|reflexivity].
      intros Hnone. rewrite (scan_links_safe links [] Hresult). cbn [app].
      now rewrite Hnone. }
    destruct result as [links|e].
    + destruct (passing links) as [|volume_link found] eqn:Hfound.
      * assert (fruitless (Ok links)) as Hnone by exact Hfound.
        rewrite (Hskip Hnone).
        destruct IH as [[Hall Hnil]|(before & links' & after & -> & Hbefore & Hne & Heq)].
        -- left. split; [now constructor | exact Hnil].
        -- right. exists (Ok links :: before), links', after.
           repeat split; [now constructor | exact Hne | exact Heq].
      * right. exists [], links, results. cbn [app selector_loop].
        rewrite (scan_links_safe links [] Hresult). cbn [app]. rewrite Hfound.
        repeat split; [constructor | discriminate].
    + rewrite (Hskip I).
      destruct IH as [[Hall Hnil]|(before & links' & after & -> & Hbefore & Hne & Heq)].
      * left. split; [now constructor | exact Hnil].
      * right. exists (Raise e :: before), links', after.
        repeat split; [now constructor | exact Hne | exact Heq].
Qed.

End VolumeLinks.

(** X17. The volume links of a journal page come from one of two places.
    When a CSS selector finds a passing link, every link returned has a
    trimmed text and passes the volume test (its text names a volume, or
    its address contains "volume"); only when the CSS selectors give
    nothing are the XPath links returned, trimmed and untested. When no
    link breaks the test, the result is the passing links of the first
    selector that has one, and of no other selector. *)
Theorem find_volume_links_first_selector (page : JournalScraper.JournalPage) :
  let results := List.map (JournalScraper.css_links page) JournalScraper.volume_selectors in
  let found := JournalScraper.find_volume_links page in
  Forall (fun volume_link =>
            Str.strip (JournalScraper.text volume_link) = JournalScraper.text volume_link) found
  /\ ((JournalScraper.selector_loop results [] = found
       /\ Forall (fun volume_link =>
                    JournalScraper.looks_like_volume (JournalScraper.text volume_link)
                      (JournalScraper.href volume_link) = Some true) found)
      \/ (JournalScraper.selector_loop results [] = []
          /\ found = match JournalScraper.xpath_links page with
                     | ConfScraper.Ok links =>
                         List.map (fun link =>
                                     {| JournalScraper.text := Str.strip (JournalScraper.a_text link);
                                        JournalScraper.href := JournalScraper.a_href link |}) links
                     | ConfScraper.Raise _ => []
                     end))
  /\ (Forall (fun result => match result with
                            | ConfScraper.Ok links => JournalScraper.scan_safe links
                            | ConfScraper.Raise _ => True
                            end) results ->
      JournalScraper.selector_loop results [] <> [] ->
      exists before links after,
        results = (before ++ ConfScraper.Ok links :: after)%list
        /\ Forall JournalScraper.fruitless before
        /\ found = JournalScraper.passing links).
Proof.
  intros results found.
  pose proof (selector_loop_tested results [] (List.Forall_nil _)) as Htested.
  assert (found = match JournalScraper.selector_loop results [] with
                  | [] => match JournalScraper.xpath_links page with
                          | ConfScraper.Ok links =>
                              List.map (fun link =>
                                          {| JournalScraper.text := Str.strip (JournalScraper.a_text link);
                                             JournalScraper.href := JournalScraper.a_href link |}) links
                          | ConfScraper.Raise _ => []
                          end
                  | volume_links => volume_links
                  end) as Hfound by reflexivity.
  split; [|split].
  - rewrite Hfound. destruct (JournalScraper.selector_loop results []) as [|v vs].
    + destruct (JournalScraper.xpath_links page) as [links|e]; [|constructor].
      apply List.Forall_forall. intros volume_link Hin.
      apply in_map_iff in Hin as (link & <- & _). cbn. apply strip_idem.
    + eapply List.Forall_impl; [|exact Htested]. now intros volume_link [H _].
  - rewrite Hfound. destruct (JournalScraper.selector_loop results []) as [|v vs].
    + right. split; reflexivity.
    + left. split; [reflexivity|].
      eapply List.Forall_impl; [|exact Htested]. now intros volume_link [_ H].
  - intros Hsafe Hne.
    destruct (selector_loop_first results Hsafe)
      as [[_ Hnil]|(before & links & after & Hres & Hbefore & Hpass & Heq)];
      [contradiction|].
    exists before, links, after. repeat split; [exact Hres | exact Hbefore |].
    rewrite Hfound, Heq. now destruct (JournalScraper.passing links).
Qed.

Lemma find_volume_links_first_selector_witness :
  exists before links after,
    List.map (JournalScraper.css_links JournalExamples.tods) JournalScraper.volume_selectors
    = (before ++ ConfScraper.Ok links :: after)%list
    /\ Forall JournalScraper.fruitless before
    /\ JournalScraper.find_volume_links JournalExamples.tods = JournalScraper.passing links.
Proof.
  apply (proj2 (proj2 (find_volume_links_first_selector JournalExamples.tods))).
  - repeat (apply List.Forall_cons; [|]); try apply List.Forall_nil; cbn;
      repeat (apply List.Forall_cons; [|]); try apply List.Forall_nil; vm_compute; discriminate.
  - vm_compute. discriminate.
Defined.

(** X18. A link on which the volume test raises, because its text names no
    volume and it has no address, ends the scan of its selector without
    ending the search: the links recorded before it are kept, and the
    passing links of the next selector are added to them, so a link that
    both selectors find is returned twice. *)
Theorem broken_scan_adds_next_selector
    (before after next : list JournalScraper.Anchor) (link : JournalScraper.Anchor)
    (rest : list (ConfScraper.outcome (list JournalScraper.Anchor))) :
  JournalScraper.scan_safe before ->
  JournalScraper.looks_like_volume (Str.strip (JournalScraper.a_text link))
    (JournalScraper.a_href link) = None ->
  JournalScraper.scan_safe next ->
  (JournalScraper.passing before ++ JournalScraper.passing next)%list <> [] ->
  JournalScraper.selector_loop
    (ConfScraper.Ok (before ++ link :: after)%list :: ConfScraper.Ok next :: rest) []
  = (JournalScraper.passing before ++ JournalScraper.passing next)%list.
Proof.
  intros Hbefore Hlink Hnext Hne. cbn [JournalScraper.selector_loop].
  rewrite (scan_links_broken before link after [] Hbefore Hlink). cbn [app].
  set (found := JournalScraper.passing before) in *.
  transitivity (JournalScraper.selector_loop (ConfScraper.Ok next :: rest) found);
    [now destruct found|].
  cbn [JournalScraper.selector_loop]. rewrite (scan_links_safe next _ Hnext).
  now destruct (found ++ JournalScraper.passing next)%list.
Qed.

Lemma broken_scan_adds_next_selector_witness :
  JournalScraper.find_volume_links JournalExamples.tods_bare
  = (JournalScraper.passing [JournalExamples.volume12]
     ++ JournalScraper.passing [JournalExamples.home; JournalExamples.volume12])%list.
Proof.
  refine (eq_trans _ (broken_scan_adds_next_selector
                        [JournalExamples.volume12] []
                        [JournalExamples.home; JournalExamples.volume12]
                        JournalExamples.bare [] _ _ _ _)).
  - vm_compute. reflexivity.
  - repeat (apply List.Forall_cons; [|]); try apply List.Forall_nil; vm_compute; discriminate.
  - reflexivity.
  - repeat (apply List.Forall_cons; [|]); try apply List.Forall_nil; vm_compute; discriminate.
  - vm_compute. discriminate.
Defined.

(** ** The table of the journal scraper *)

Section JournalTable.
Import Str ConfScraper JournalScraper.

Lemma prefix_length n s : String.length (prefix n s) <= n.
Proof.
  unfold prefix. revert s. induction n as [|n IH]; intros [|c s]; cbn; try lia.
  specialize (IH s). lia.
Qed.

Lemma prefix_startswith n s : startswith (prefix n s) s = true.
Proof.
  unfold prefix. revert s. induction n as [|n IH]; intros [|c s]; cbn; try reflexivity.
  now rewrite Ascii.eqb_refl.
Qed.

Lemma prefix_short n s : String.length s <= n -> prefix n s = s.
Proof.
  unfold prefix. revert s. induction n as [|n IH]; intros [|c s]; cbn; try reflexivity; try lia.
  intros H. f_equal. apply IH. lia.
Qed.

(** A row filtered by column keeps the value of a column that passes and
    loses the column otherwise. *)
Lemma field_filter (keep : string -> bool) column (row : Row) :
  field column (List.filter (fun assignment => keep (fst assignment)) row)
  = if keep column then field column row else None.
Proof.
  unfold field. induction row as [|[c v] row IH]; cbn [List.filter List.find fst].
  - now destruct (keep column).
  - destruct (String.eqb c column) eqn:E.
    + apply String.eqb_eq in E. subst c.
      destruct (keep column) eqn:K; cbn [List.find fst].
      * now rewrite String.eqb_refl.
      * rewrite IH. reflexivity.
    + destruct (keep c); cbn [List.find fst]; [rewrite E|]; exact IH.
Qed.

Lemma map_fst_filter (keep : string -> bool) (row : Row) :
  List.map fst (List.filter (fun assignment => keep (fst assignment)) row)
  = List.filter keep (List.map fst row).
Proof.
  induction row as [|[c v] row IH]; [reflexivity|]. cbn [List.filter List.map fst].
  destruct (keep c); cbn [List.map fst]; now rewrite IH.
Qed.

Lemma insert_data_names paper journal_href existing_columns :
  List.map fst (insert_data paper journal_href existing_columns)
  = List.filter (fun column => bool_decide (column ∈ existing_columns)) insert_columns.
Proof.
  unfold insert_data.
  pose (keep := fun column : string => bool_decide (column ∈ existing_columns)).
  apply (map_fst_filter keep).
Qed.

Lemma insert_columns_NoDup : List.NoDup insert_columns.
Proof.
  unfold insert_columns.
  repeat (apply List.NoDup_cons;
          [cbn [In]; intros H;
           repeat (destruct H as [H|H]; [discriminate H|]); exact H|]).
  apply List.NoDup_nil.
Qed.

Lemma filter_nil_iff {A} (keep : A -> bool) l :
  List.filter keep l = [] <-> (forall x, In x l -> keep x = false).
Proof.
  induction l as [|a l IH]; cbn [List.filter].
  - split; [intros _ x [] | reflexivity].
  - destruct (keep a) eqn:E; split.
    + discriminate.
    + intros H. specialize (H a (or_introl eq_refl)). congruence.
    + intros H x [<-|Hx]; [exact E | now apply IH].
    + intros H. apply IH. intros x Hx. apply H. now right.
Qed.

Section Engine.
Variable accepts : list Row -> Row -> bool.

(** Saving appends: at most one row per paper, each the non-empty row of
    a paper of the list, in the order of the list. *)
Lemma save_rows journal_href existing_columns papers table_rows :
  exists added,
    List.fold_left (save_step accepts journal_href existing_columns) papers table_rows
    = (table_rows ++ added)%list
    /\ List.length added <= List.length papers
    /\ Forall (fun row => row <> []
                          /\ exists paper, In paper papers
                               /\ row = insert_data paper journal_href existing_columns) added.
Proof.
  revert table_rows. induction papers as [|paper papers IH]; intros table_rows;
    cbn [List.fold_left].
  - exists []. rewrite app_nil_r. repeat split; [cbn; lia | constructor].
  - assert (exists first,
              save_step accepts journal_href existing_columns table_rows paper
              = (table_rows ++ first)%list
              /\ List.length first <= 1
              /\ Forall (fun row => row <> []
                                    /\ row = insert_data paper journal_href existing_columns)
                        first) as (first & Hfirst & Hlen & Hrow).
    { unfold save_step.
      destruct (insert_data paper journal_href existing_columns) as [|a row] eqn:E.
      - exists []. rewrite app_nil_r. repeat split; [cbn; lia | constructor].
      - destruct (accepts table_rows (a :: row)).
        + exists [a :: row]. repeat split; [cbn; lia|].
          constructor; [|constructor]. split; [discriminate | reflexivity].
        + exists []. rewrite app_nil_r. repeat split; [cbn; lia | constructor]. }
    rewrite Hfirst. destruct (IH (table_rows ++ first)%list) as (added & Heq & Hlen' & Hrows).
    exists (first ++ added)%list. rewrite Heq, <- app_assoc.
    split; [reflexivity|]. split.
    + rewrite length_app. cbn [List.length]. lia.
    + apply Forall_app. split.
      * eapply List.Forall_impl; [|exact Hrow]. intros row [Hne ->].
        split; [exact Hne|]. exists paper. split; [now left | reflexivity].
      * eapply List.Forall_impl; [|exact Hrows]. intros row [Hne (p & Hp & ->)].
        split; [exact Hne|]. exists p. split; [now right | reflexivity].
Qed.

End Engine.

Section Alter.
Variable alter_ok : list string -> string -> bool.

(** The ALTER loop appends, and only columns of its list that the table
    did not have. *)
Lemma add_columns_appends existing_columns wanted table_columns :
  exists added,
    List.fold_left (add_column alter_ok existing_columns) wanted table_columns
    = (table_columns ++ added)%list
    /\ Forall (fun column => In column wanted /\ column ∉ existing_columns) added.
Proof.
  revert table_columns. induction wanted as [|column wanted IH]; intros table_columns;
    cbn [List.fold_left].
  - exists []. rewrite app_nil_r. split; [reflexivity | constructor].
  - unfold add_column at 2.
    destruct (bool_decide (column ∈ existing_columns)) eqn:E.
    + destruct (IH table_columns) as (added & Heq & Hadded). exists added.
      split; [exact Heq|].
      eapply List.Forall_impl; [|exact Hadded]. intros c [Hc Hn]. split; [now right | exact Hn].
    + apply bool_decide_eq_false in E.
      destruct (alter_ok table_columns column).
      * destruct (IH (table_columns ++ [column])%list) as (added & Heq & Hadded).
        exists (column :: added). rewrite Heq, <- app_assoc. split; [reflexivity|].
        constructor; [split; [now left | exact E]|].
        eapply List.Forall_impl; [|exact Hadded]. intros c [Hc Hn]. split; [now right | exact Hn].
      * destruct (IH table_columns) as (added & Heq & Hadded). exists added.
        split; [exact Heq|].
        eapply List.Forall_impl; [|exact Hadded]. intros c [Hc Hn]. split; [now right | exact Hn].
Qed.

(** When every ALTER succeeds, every wanted column is there afterwards. *)
Lemma add_columns_complete existing_columns wanted table_columns :
  (forall table_columns column, alter_ok table_columns column = true) ->
  (forall column, column ∈ existing_columns -> column ∈ table_columns) ->
  forall column, In column wanted ->
    column ∈ List.fold_left (add_column alter_ok existing_columns) wanted table_columns.
Proof.
  intros Hok. revert table_columns.
  induction wanted as [|w wanted IH]; intros table_columns Hsub column Hin; [destruct Hin|].
  cbn [List.fold_left].
  assert (forall c, c ∈ table_columns ->
                    c ∈ add_column alter_ok existing_columns table_columns w) as Hkeep.
  { intros c Hc. unfold add_column.
    destruct (bool_decide (w ∈ existing_columns)); [exact Hc|].
    rewrite Hok. apply elem_of_app. now left. }
  assert (w ∈ add_column alter_ok existing_columns table_columns w) as Hw.
  { unfold add_column. destruct (bool_decide (w ∈ existing_columns)) eqn:E.
    - apply bool_decide_eq_true in E. now apply Hsub.
    - rewrite Hok. apply elem_of_app. right. apply list_elem_of_here. }
  destruct Hin as [<-|Hin].
  - destruct (add_columns_appends existing_columns wanted
                (add_column alter_ok existing_columns table_columns w)) as (added & -> & _).
    apply elem_of_app. now left.
  - apply IH; [|exact Hin]. intros c Hc. apply Hkeep, Hsub, Hc.
Qed.

End Alter.

End JournalTable.

(** X19. Saving journal papers names, in each INSERT, exactly those of its
    ten columns that the table has, each once and in the order of the
    assignments; the title is cut to 500 characters and the authors text to
    1000. The columns of the table and the rows already stored are kept,
    at most one row per paper is added, and when the table has none of the
    ten columns nothing is inserted. *)
Theorem save_names_existing_columns
    (accepts : list JournalScraper.Row -> JournalScraper.Row -> bool)
    (papers : list JournalScraper.JournalPaper) (journal_href : string)
    (db : JournalScraper.Table) :
  let saved := JournalScraper.save_journal_papers_to_db accepts papers journal_href db in
  let row_of paper := JournalScraper.insert_data paper journal_href (JournalScraper.columns db) in
  JournalScraper.columns saved = JournalScraper.columns db
  /\ (exists added,
        JournalScraper.rows saved = (JournalScraper.rows db ++ added)%list
        /\ List.length added <= List.length papers
        /\ Forall (fun row => row <> [] /\ exists paper, In paper papers /\ row = row_of paper)
                  added)
  /\ (forall paper,
        List.map fst (row_of paper)
        = List.filter (fun column => bool_decide (column ∈ JournalScraper.columns db))
            JournalScraper.insert_columns
        /\ List.NoDup (List.map fst (row_of paper))
        /\ JournalScraper.field "name" (row_of paper)
           = (if bool_decide ("name" ∈ JournalScraper.columns db)
              then Some (Some (JournalScraper.prefix 500 (JournalScraper.title paper)))
              else None)
        /\ JournalScraper.field "authors" (row_of paper)
           = (if bool_decide ("authors" ∈ JournalScraper.columns db)
              then Some (Some (JournalScraper.prefix 1000 (JournalScraper.authors_text paper)))
              else None)
        /\ String.length (JournalScraper.prefix 500 (JournalScraper.title paper)) <= 500
        /\ Str.startswith (JournalScraper.prefix 500 (JournalScraper.title paper))
             (JournalScraper.title paper) = true
        /\ String.length (JournalScraper.prefix 1000 (JournalScraper.authors_text paper)) <= 1000)
  /\ ((forall column, In column JournalScraper.insert_columns ->
                      column ∉ JournalScraper.columns db) ->
      JournalScraper.rows saved = JournalScraper.rows db).
Proof.
  intros saved row_of.
  destruct (save_rows accepts journal_href (JournalScraper.columns db) papers
              (JournalScraper.rows db)) as (added & Heq & Hlen & Hrows).
  split; [reflexivity|]. split; [|split].
  - exists added. repeat split; assumption.
  - intros paper. unfold row_of.
    split; [apply insert_data_names|].
    split; [rewrite insert_data_names; apply List.NoDup_filter, insert_columns_NoDup|].
    split; [|split].
    + unfold JournalScraper.insert_data.
      pose (keep := fun column : string => bool_decide (column ∈ JournalScraper.columns db)).
      rewrite (field_filter keep). unfold keep.
      now destruct (bool_decide ("name" ∈ JournalScraper.columns db)).
    + unfold JournalScraper.insert_data.
      pose (keep := fun column : string => bool_decide (column ∈ JournalScraper.columns db)).
      rewrite (field_filter keep). unfold keep.
      now destruct (bool_decide ("authors" ∈ JournalScraper.columns db)).
    + repeat split; [apply prefix_length | apply prefix_startswith | apply prefix_length].
  - intros Hnone. change (JournalScraper.rows saved) with
      (List.fold_left (JournalScraper.save_step accepts journal_href (JournalScraper.columns db))
         papers (JournalScraper.rows db)).
    rewrite Heq. destruct added as [|row added]; [apply app_nil_r|].
    apply List.Forall_cons_iff in Hrows as [[Hne (paper & _ & Hrow)] _].
    exfalso. apply Hne. rewrite Hrow.
    apply (f_equal (List.map fst)) in Hrow.
    assert (List.map fst (JournalScraper.insert_data paper journal_href
                            (JournalScraper.columns db)) = []) as Hnames.
    { rewrite insert_data_names. apply filter_nil_iff. intros column Hin.
      apply bool_decide_eq_false. now apply Hnone. }
    now destruct (JournalScraper.insert_data paper journal_href (JournalScraper.columns db)).
Qed.

Lemma save_names_existing_columns_witness :
  (forall column, In column JournalScraper.insert_columns ->
                  column ∉ JournalScraper.columns JournalExamples.legacy)
  /\ JournalScraper.rows
       (JournalScraper.save_journal_papers_to_db JournalExamples.accepts
          (JournalScraper.scrape_papers_from_volume JournalExamples.volume_web
             (Some "https://dblp.org/db/journals/tods/tods4.html")
             {| JournalScraper.name := "TODS"; JournalScraper.issn := "" |} None)
          "https://dblp.org/db/journals/tods/" JournalExamples.legacy)
     = JournalScraper.rows JournalExamples.legacy.
Proof.
  assert (forall column, In column JournalScraper.insert_columns ->
                         column ∉ JournalScraper.columns JournalExamples.legacy) as Hnone.
  { intros column Hin Hel. apply list_elem_of_In in Hel. cbn in Hin, Hel.
    repeat (destruct Hin as [<-|Hin];
            [repeat (destruct Hel as [Hel|Hel]; [discriminate Hel|]); exact Hel|]).
    exact Hin. }
  split; [exact Hnone|].
  exact (proj2 (proj2 (proj2 (save_names_existing_columns JournalExamples.accepts _ _
                                JournalExamples.legacy))) Hnone).
Defined.

(** X20. Setting up the database keeps the stored rows. Without a table it
    creates one on which every INSERT of the scraper names all ten columns.
    On a table that exists it only appends columns of its list of
    additional columns that the table lacked: the columns of the table
    stay in front, and [name] and [authors] are there afterwards only if
    they were there before. When every ALTER succeeds all additional
    columns are there afterwards. *)
Theorem setup_database_columns
    (alter_ok : list string -> string -> bool) (db : JournalScraper.Table) :
  let ready := JournalScraper.setup_database alter_ok db in
  JournalScraper.rows ready = JournalScraper.rows db
  /\ (JournalScraper.columns db = [] ->
      JournalScraper.columns ready = JournalScraper.created_columns
      /\ forall paper journal_href,
           List.map fst (JournalScraper.insert_data paper journal_href
                           (JournalScraper.columns ready))
           = JournalScraper.insert_columns)
  /\ (JournalScraper.columns db <> [] ->
      (exists added,
         JournalScraper.columns ready = (JournalScraper.columns db ++ added)%list
         /\ Forall (fun column => In column JournalScraper.additional_columns
                                  /\ column ∉ JournalScraper.columns db) added)
      /\ ("name" ∈ JournalScraper.columns ready -> "name" ∈ JournalScraper.columns db)
      /\ ("authors" ∈ JournalScraper.columns ready -> "authors" ∈ JournalScraper.columns db)
      /\ ((forall table_columns column, alter_ok table_columns column = true) ->
          forall column, In column JournalScraper.additional_columns ->
                         column ∈ JournalScraper.columns ready)).
Proof.
  intros ready. split; [unfold ready, JournalScraper.setup_database;
                        now destruct (JournalScraper.columns db)|].
  split.
  - intros Hnone. unfold ready, JournalScraper.setup_database. rewrite Hnone.
    split; [reflexivity|]. intros paper journal_href. rewrite insert_data_names.
    cbn [JournalScraper.columns]. vm_compute. reflexivity.
  - intros Hsome.
    assert (JournalScraper.columns ready
            = List.fold_left (JournalScraper.add_column alter_ok (JournalScraper.columns db))
                JournalScraper.additional_columns (JournalScraper.columns db)) as Hready.
    { unfold ready, JournalScraper.setup_database.
      now destruct (JournalScraper.columns db). }
    destruct (add_columns_appends alter_ok (JournalScraper.columns db)
                JournalScraper.additional_columns (JournalScraper.columns db))
      as (added & Heq & Hadded).
    assert (forall column, ~ In column JournalScraper.additional_columns ->
                           column ∈ JournalScraper.columns ready ->
                           column ∈ JournalScraper.columns db) as Hold.
    { intros column Hnot Hin. rewrite Hready, Heq in Hin.
      apply elem_of_app in Hin as [Hin|Hin]; [exact Hin|].
      apply list_elem_of_In in Hin. rewrite List.Forall_forall in Hadded.
      destruct (Hadded column Hin) as [Hadd _]. contradiction. }
    split; [exists added; rewrite Hready; split; assumption|].
    split; [|split].
    + apply Hold. cbn. intros H.
      repeat (destruct H as [H|H]; [discriminate H|]). exact H.
    + apply Hold. cbn. intros H.
      repeat (destruct H as [H|H]; [discriminate H|]). exact H.
    + intros Hok column Hin. rewrite Hready.
      now apply add_columns_complete.
Qed.

Lemma setup_database_columns_witness :
  (JournalScraper.columns
     (JournalScraper.setup_database JournalExamples.alter_ok JournalExamples.no_table)
   = JournalScraper.created_columns)
  /\ ("name" ∈ JournalScraper.columns
                 (JournalScraper.setup_database JournalExamples.alter_ok JournalExamples.legacy)
      -> "name" ∈ JournalScraper.columns JournalExamples.legacy)
  /\ "doi" ∈ JournalScraper.columns
               (JournalScraper.setup_database JournalExamples.alter_ok JournalExamples.legacy).
Proof.
  split; [|split].
  - exact (proj1 (proj1 (proj2 (setup_database_columns JournalExamples.alter_ok
                                  JournalExamples.no_table)) eq_refl)).
  - assert (JournalScraper.columns JournalExamples.legacy <> []) as Hsome by discriminate.
    exact (proj1 (proj2 (proj2 (proj2 (setup_database_columns JournalExamples.alter_ok
                                         JournalExamples.legacy)) Hsome))).
  - assert (JournalScraper.columns JournalExamples.legacy <> []) as Hsome by discriminate.
    apply (proj2 (proj2 (proj2 (proj2 (proj2 (setup_database_columns JournalExamples.alter_ok
                                         JournalExamples.legacy)) Hsome)))).
    + reflexivity.
    + cbn. tauto.
Defined.

(** ** One journal, from its page to the table *)

Section JournalRun.
Import Str Re ConfScraper JournalScraper.

Lemma record_fields paper_element journal_info volume_info paper :
  extract_journal_paper_record paper_element journal_info volume_info = Some paper ->
  journal_name paper = name journal_info
  /\ year paper = match Journals.from_volume_info "year" volume_info with
                  | Some y => y
                  | None => Journals.year_from_text (element_text paper_element)
                  end
  /\ volume paper = match Journals.from_volume_info "volume" volume_info with
                    | Some v => v
                    | None => Journals.volume_from_text (element_text paper_element)
                    end
  /\ issue paper = found_or_empty (search issue_at (element_text paper_element))
  /\ pages paper = found_or_empty (search pages_at (element_text paper_element))
  /\ doi paper = found_or_empty (search doi_at (element_text paper_element)).
Proof.
  unfold extract_journal_paper_record.
  destruct (title_loop paper_element title_selectors); [|discriminate].
  destruct (authors_loop paper_element author_selectors); [|discriminate].
  destruct (paper_href paper_element); [|discriminate].
  intros [= <-]. cbn [journal_name year volume issue pages doi].
  rewrite extract_journal_paper_info_year, extract_journal_paper_info_volume.
  repeat split.
Qed.

Lemma extract_journal_info_name page journal_info :
  extract_journal_info page = Ok journal_info ->
  name journal_info = match h1 page with
                      | Ok heading => strip heading
                      | Raise _ => "Unknown Journal"
                      end.
Proof.
  unfold extract_journal_info. destruct (h1 page) as [heading|[|]]; [| |discriminate];
    now intros [= <-].
Qed.

Section Web.
Variable journal_web : string -> outcome JournalPage.
Variable volume_web : string -> outcome VolumePage.
Variable accepts : list Row -> Row -> bool.

(** A record found under a volume link has the year and the volume of the
    text of that link. *)
Lemma volume_papers_fields journal_info volume_link paper :
  In paper (volume_papers volume_web journal_info volume_link) ->
  journal_name paper = name journal_info
  /\ year paper = snd (Journals.volume_year (text volume_link))
  /\ volume paper = Journals.volume_number (text volume_link).
Proof.
  unfold volume_papers, scrape_papers_from_volume.
  destruct (href volume_link) as [url|]; [|intros []].
  destruct (volume_web url) as [page|]; [|intros []].
  intros Hin. apply in_flat_map in Hin as (paper_element & _ & Hin).
  destruct (extract_journal_paper_record paper_element journal_info
              (Some (Journals.extract_volume_info (text volume_link)))) as [p|] eqn:E;
    [|destruct Hin].
  destruct Hin as [<-|[]].
  destruct (record_fields _ _ _ _ E) as (Hname & Hyear & Hvolume & _).
  rewrite (from_volume_info_some "year" _ _ (extract_volume_info_year (text volume_link)))
    in Hyear.
  rewrite (from_volume_info_some "volume" _ _ (extract_volume_info_volume (text volume_link)))
    in Hvolume.
  now repeat split.
Qed.

Lemma scrape_journal_appends journal_name journal_href db :
  let scraped := scrape_journal journal_web volume_web accepts journal_name journal_href db in
  columns scraped = columns db
  /\ exists added, rows scraped = (rows db ++ added)%list.
Proof.
  cbn zeta. unfold scrape_journal.
  assert (columns db = columns db /\ exists added, rows db = (rows db ++ added)%list) as Hsame.
  { split; [reflexivity|]. exists []. now rewrite app_nil_r. }
  destruct (journal_web journal_href) as [page|]; [|exact Hsame].
  destruct (extract_journal_info page) as [journal_info|]; [|exact Hsame].
  destruct (find_volume_links page) as [|volume_link volume_links]; [exact Hsame|].
  destruct (List.flat_map (volume_papers volume_web journal_info) (volume_link :: volume_links))
    as [|paper papers]; [exact Hsame|].
  split; [reflexivity|]. cbn [rows save_journal_papers_to_db].
  destruct (save_rows accepts journal_href (columns db) (paper :: papers) (rows db))
    as (added & Heq & _). now exists added.
Qed.

End Web.

End JournalRun.

(** X21. When the page of a journal loads, scraping the journal keeps the
    columns and the stored rows, and every row it adds is the row of a
    record that carries the name read from the heading of the page
    ("Unknown Journal" without a heading) and the year and volume number
    read from the text of one of the volume links of the page, with the
    address of the journal as [journal_href]. Without volume links, or when
    reading the heading raises another exception than a missing element,
    the table is left as it was. *)
Theorem scrape_journal_rows
    (journal_web : string -> ConfScraper.outcome JournalScraper.JournalPage)
    (volume_web : string -> ConfScraper.outcome JournalScraper.VolumePage)
    (accepts : list JournalScraper.Row -> JournalScraper.Row -> bool)
    (journal_name journal_href : string) (db : JournalScraper.Table)
    (page : JournalScraper.JournalPage) :
  journal_web journal_href = ConfScraper.Ok page ->
  let scraped :=
    JournalScraper.scrape_journal journal_web volume_web accepts journal_name journal_href db in
  JournalScraper.columns scraped = JournalScraper.columns db
  /\ (exists added,
        JournalScraper.rows scraped = (JournalScraper.rows db ++ added)%list
        /\ Forall
             (fun row =>
                exists paper volume_link,
                  row = JournalScraper.insert_data paper journal_href (JournalScraper.columns db)
                  /\ In volume_link (JournalScraper.find_volume_links page)
                  /\ JournalScraper.year paper
                     = snd (Journals.volume_year (JournalScraper.text volume_link))
                  /\ JournalScraper.volume paper
                     = Journals.volume_number (JournalScraper.text volume_link)
                  /\ JournalScraper.journal_name paper
                     = match JournalScraper.h1 page with
                       | ConfScraper.Ok heading => Str.strip heading
                       | ConfScraper.Raise _ => "Unknown Journal"
                       end)
             added)
  /\ (JournalScraper.find_volume_links page = [] -> scraped = db)
  /\ (JournalScraper.h1 page = ConfScraper.Raise ConfScraper.WebDriverException ->
      scraped = db).
Proof.
  intros Hpage scraped.
  assert (scraped = db ->
          exists added,
            JournalScraper.rows scraped = (JournalScraper.rows db ++ added)%list
            /\ Forall
                 (fun row =>
                    exists paper volume_link,
                      row = JournalScraper.insert_data paper journal_href
                              (JournalScraper.columns db)
                      /\ In volume_link (JournalScraper.find_volume_links page)
                      /\ JournalScraper.year paper
                         = snd (Journals.volume_year (JournalScraper.text volume_link))
                      /\ JournalScraper.volume paper
                         = Journals.volume_number (JournalScraper.text volume_link)
                      /\ JournalScraper.journal_name paper
                         = match JournalScraper.h1 page with
                           | ConfScraper.Ok heading => Str.strip heading
                           | ConfScraper.Raise _ => "Unknown Journal"
                           end)
                 added) as Hsame.
  { intros ->. exists []. rewrite app_nil_r. split; [reflexivity | constructor]. }
  split; [apply (scrape_journal_appends journal_web volume_web accepts)|].
  unfold scraped, JournalScraper.scrape_journal in *. rewrite Hpage in *.
  destruct (JournalScraper.extract_journal_info page) as [journal_info|e] eqn:Einfo.
  2:{ split; [now apply Hsame|]. split; reflexivity. }
  pose proof (extract_journal_info_name page journal_info Einfo) as Hname.
  split; [|split].
  - destruct (JournalScraper.find_volume_links page) as [|volume_link volume_links] eqn:Elinks;
      [now apply Hsame|].
    destruct (List.flat_map (JournalScraper.volume_papers volume_web journal_info)
                (volume_link :: volume_links)) as [|paper papers] eqn:Epapers;
      [now apply Hsame|].
    cbn [JournalScraper.rows JournalScraper.save_journal_papers_to_db].
    destruct (save_rows accepts journal_href (JournalScraper.columns db) (paper :: papers)
                (JournalScraper.rows db)) as (added & Heq & _ & Hrows).
    exists added. split; [exact Heq|].
    eapply List.Forall_impl; [|exact Hrows].
    intros row [_ (p & Hp & ->)]. rewrite <- Epapers in Hp.
    apply in_flat_map in Hp as (vl & Hvl & Hp).
    destruct (volume_papers_fields volume_web journal_info vl p Hp) as (Hn & Hy & Hv).
    exists p, vl. repeat split; try assumption. now rewrite Hn.
  - now intros ->.
  - intros Hraise. unfold JournalScraper.extract_journal_info in Einfo.
    rewrite Hraise in Einfo. discriminate.
Qed.

Lemma scrape_journal_rows_witness :
  JournalScraper.rows
    (JournalScraper.scrape_journal JournalExamples.journal_web JournalExamples.volume_web
       JournalExamples.accepts "TODS" "https://dblp.org/db/journals/tods/"
       (JournalScraper.setup_database JournalExamples.alter_ok JournalExamples.no_table))
  = [ [ ("name", Some "Access Path Selection.");
        ("authors", Some "P. Griffiths Selinger, M. Astrahan");
        ("journal_href", Some "https://dblp.org/db/journals/tods/");
        ("paper_href", Some "https://doi.org/10.1145/582095.582099");
        ("year", Some "2019"); ("volume", Some "12"); ("issue", Some "2");
        ("pages", Some "23-34"); ("doi", Some "10.1145/582095.582099");
        ("journal_name", Some "ACM Transactions on Database Systems") ] ]
  /\ exists added,
       JournalScraper.rows
         (JournalScraper.scrape_journal JournalExamples.journal_web JournalExamples.volume_web
            JournalExamples.accepts "TODS" "https://dblp.org/db/journals/tods/"
            (JournalScraper.setup_database JournalExamples.alter_ok JournalExamples.no_table))
       = ([] ++ added)%list.
Proof.
  split; [vm_compute; reflexivity|].
  destruct (proj1 (proj2 (scrape_journal_rows JournalExamples.journal_web
                            JournalExamples.volume_web JournalExamples.accepts
                            "TODS" "https://dblp.org/db/journals/tods/"
                            (JournalScraper.setup_database JournalExamples.alter_ok
                               JournalExamples.no_table)
                            JournalExamples.tods eq_refl))) as (added & Hrows & _).
  exists added. exact Hrows.
Defined.

(** X22. Scraping all journals never changes the columns of the table and
    never removes or changes a stored row: the rows after the run are the
    rows before it followed by the added ones. *)
Theorem scrape_all_journals_keeps_rows
    (journal_web : string -> ConfScraper.outcome JournalScraper.JournalPage)
    (volume_web : string -> ConfScraper.outcome JournalScraper.VolumePage)
    (accepts : list JournalScraper.Row -> JournalScraper.Row -> bool)
    (journal_hrefs : list (string * string)) (db : JournalScraper.Table) :
  let scraped :=
    JournalScraper.scrape_all_journals journal_web volume_web accepts journal_hrefs db in
  JournalScraper.columns scraped = JournalScraper.columns db
  /\ exists added, JournalScraper.rows scraped = (JournalScraper.rows db ++ added)%list.
Proof.
  cbn zeta. revert db. induction journal_hrefs as [|[journal_name journal_href] rest IH];
    intros db.
  - split; [reflexivity|]. exists []. cbn. now rewrite app_nil_r.
  - unfold JournalScraper.scrape_all_journals. cbn [List.fold_left fst snd].
    destruct (scrape_journal_appends journal_web volume_web accepts journal_name journal_href db)
      as (Hcols & first & Hrows).
    destruct (IH (JournalScraper.scrape_journal journal_web volume_web accepts
                    journal_name journal_href db)) as (Hcols' & added & Hrows').
    unfold JournalScraper.scrape_all_journals in Hcols', Hrows'.
    split; [now rewrite Hcols', Hcols|].
    exists (first ++ added)%list. now rewrite Hrows', Hrows, <- app_assoc.
Qed.

(** ** The fields of a journal record *)

Section RecordTokens.
Import Str Re Tokens ConfScraper JournalScraper.

Lemma string_app_assoc (a b c : string) : ((a ++ b) ++ c) = (a ++ (b ++ c)).
Proof.
  induction a as [|x a IH]; [reflexivity|].
  change (String x (((a ++ b) ++ c)) = String x (a ++ (b ++ c))). now rewrite IH.
Qed.

Lemma take_drop f s : (take_while f s ++ drop_while f s) = s.
Proof.
  induction s as [|c s IH]; [reflexivity|]. cbn [take_while drop_while].
  destruct (f c); [|reflexivity].
  change (String c (take_while f s ++ drop_while f s) = String c s). now rewrite IH.
Qed.

(** A run taken from [s], followed by a character outside the class, is
    found again as the run of the whole. *)
Lemma take_while_stop f s c r :
  f c = false ->
  take_while f (take_while f s ++ String c r) = take_while f s
  /\ drop_while f (take_while f s ++ String c r) = String c r.
Proof.
  intros Hc. induction s as [|x s [IH1 IH2]]; cbn [take_while].
  - change (EmptyString ++ String c r) with (String c r). cbn [take_while drop_while].
    now rewrite Hc.
  - destruct (f x) eqn:E.
    + change (String x (take_while f s) ++ String c r)
        with (String x (take_while f s ++ String c r)).
      cbn [take_while drop_while]. rewrite E, IH1, IH2. split; reflexivity.
    + change (EmptyString ++ String c r) with (String c r). cbn [take_while drop_while].
      now rewrite Hc.
Qed.

Lemma take_while_no_space s : no_space (take_while not_space s) = true.
Proof.
  induction s as [|c s IH]; [reflexivity|]. cbn [take_while].
  destruct (not_space c) eqn:E; [|reflexivity]. cbn [no_space]. now rewrite E.
Qed.

Lemma literal_split lit s r : literal lit s = Some r -> s = (lit ++ r).
Proof.
  revert s. induction lit as [|a lit IH]; intros s; cbn [literal].
  - now intros [= <-].
  - destruct s as [|b s]; [discriminate|].
    destruct (Ascii.eqb a b) eqn:E; [|discriminate].
    apply Ascii.eqb_eq in E. subst b. intros H.
    change (String a s = String a (lit ++ r)). now rewrite (IH s H).
Qed.

Lemma literal_app lit r : literal lit (lit ++ r) = Some r.
Proof.
  induction lit as [|a lit IH]; [reflexivity|].
  change (String a lit ++ r) with (String a (lit ++ r)). cbn [literal].
  now rewrite Ascii.eqb_refl.
Qed.

Lemma issue_at_token prev s v :
  issue_at prev s = Some v ->
  all_digits v = true /\ truthy v = true /\ is_in v s = true.
Proof.
  unfold issue_at.
  destruct (literal_ci "no" s) as [r|] eqn:Eno.
  - destruct (spaces_digits (opt_dot r)) as [ds|] eqn:E1.
    + intros [= <-]. destruct (spaces_digits_token _ _ E1) as (H1 & H2 & H3).
      repeat split; try assumption.
      now apply (is_in_literal_ci _ _ _ _ Eno), is_in_opt_dot.
    + destruct (spaces_digits r) as [ds|] eqn:E2.
      * intros [= <-]. destruct (spaces_digits_token _ _ E2) as (H1 & H2 & H3).
        repeat split; try assumption. now apply (is_in_literal_ci _ _ _ _ Eno).
      * destruct (literal_ci "issue" s) as [r'|] eqn:Eissue; [|discriminate].
        intros H. destruct (spaces_digits_token _ _ H) as (H1 & H2 & H3).
        repeat split; try assumption. now apply (is_in_literal_ci _ _ _ _ Eissue).
  - destruct (literal_ci "issue" s) as [r'|] eqn:Eissue; [|discriminate].
    intros H. destruct (spaces_digits_token _ _ H) as (H1 & H2 & H3).
    repeat split; try assumption. now apply (is_in_literal_ci _ _ _ _ Eissue).
Qed.

Lemma dash_not_digit c : Ascii.eqb c "-" = true -> is_digit c = false.
Proof. intros H. apply Ascii.eqb_eq in H. now subst c. Qed.

Lemma slash_not_digit c : Ascii.eqb c "/" = true -> is_digit c = false.
Proof. intros H. apply Ascii.eqb_eq in H. now subst c. Qed.

Lemma pages_at_token prev s p :
  pages_at prev s = Some p ->
  pages_token p = true /\ truthy p = true /\ is_in p s = true.
Proof.
  unfold pages_at.
  destruct (take_while is_digit s) as [|a first] eqn:Efirst; [discriminate|].
  destruct (drop_while is_digit s) as [|dash r] eqn:Erest; [discriminate|].
  destruct (Ascii.eqb dash "-") eqn:Edash; [|discriminate].
  destruct (take_while is_digit r) as [|b last] eqn:Elast; [discriminate|].
  intros [= <-].
  pose proof (dash_not_digit dash Edash) as Hdash.
  apply Ascii.eqb_eq in Edash. subst dash.
  destruct (take_while_stop is_digit s "-" (String b last) Hdash) as [Htake Hdrop].
  rewrite Efirst in Htake, Hdrop.
  split; [|split].
  - unfold pages_token. rewrite Hdrop, Htake. cbn [Ascii.eqb truthy andb].
    rewrite <- Elast. replace (Ascii.eqb "-" "-") with true by reflexivity.
    cbn [andb]. apply take_while_digits.
  - reflexivity.
  - apply is_in_prefix.
    rewrite <- (take_drop is_digit s). rewrite Efirst, Erest.
    rewrite <- (take_drop is_digit r). rewrite Elast.
    change (String "-" (String b last ++ drop_while is_digit r))
      with (String "-" (String b last) ++ drop_while is_digit r).
    rewrite <- string_app_assoc. apply startswith_refl.
Qed.

Lemma doi_at_token prev s d :
  doi_at prev s = Some d ->
  doi_token d = true /\ truthy d = true /\ is_in d s = true.
Proof.
  unfold doi_at.
  destruct (literal_ci "doi" s) as [r|] eqn:Edoi; [|discriminate].
  destruct (literal "10." (drop_while colon_or_space r)) as [r'|] eqn:Eten; [|discriminate].
  destruct (take_while is_digit r') as [|a registrant] eqn:Ereg; [discriminate|].
  destruct (drop_while is_digit r') as [|slash r''] eqn:Erest; [discriminate|].
  destruct (Ascii.eqb slash "/") eqn:Eslash; [|discriminate].
  destruct (take_while not_space r'') as [|b suffix] eqn:Esuffix; [discriminate|].
  intros [= <-].
  pose proof (slash_not_digit slash Eslash) as Hslash.
  apply Ascii.eqb_eq in Eslash. subst slash.
  destruct (take_while_stop is_digit r' "/" (String b suffix) Hslash) as [Htake Hdrop].
  rewrite Ereg in Htake, Hdrop.
  split; [|split].
  - unfold doi_token. rewrite literal_app, Hdrop, Htake.
    replace (Ascii.eqb "/" "/") with true by reflexivity. cbn [truthy andb].
    rewrite <- Esuffix. apply take_while_no_space.
  - reflexivity.
  - apply (is_in_literal_ci _ _ _ _ Edoi), (is_in_drop_while colon_or_space), is_in_prefix.
    rewrite (literal_split _ _ _ Eten).
    rewrite <- (take_drop is_digit r'). rewrite Ereg, Erest.
    rewrite <- (take_drop not_space r''). rewrite Esuffix.
    change (String "/" (String b suffix ++ drop_while not_space r''))
      with (String "/" (String b suffix) ++ drop_while not_space r'').
    rewrite <- !string_app_assoc. apply startswith_refl.
Qed.

Lemma search_token (shape : string -> bool) (m : option ascii -> string -> option string)
    paper_text :
  (forall prev s r, m prev s = Some r ->
                    shape r = true /\ truthy r = true /\ is_in r s = true) ->
  empty_or_token shape paper_text (found_or_empty (search m paper_text)).
Proof.
  intros Hm. unfold empty_or_token, found_or_empty.
  destruct (search m paper_text) as [v|] eqn:E; [|now left]. right.
  revert E. apply (search_from_found m
                     (fun r s => shape r = true /\ truthy r = true /\ is_in r s = true)).
  - exact Hm.
  - intros r c s (H1 & H2 & H3). repeat split; try assumption. now apply is_in_tail.
Qed.

End RecordTokens.

(** X23. In a journal record the issue is empty or a run of digits, the
    pages are empty or digits, a hyphen and digits, and the DOI is empty or
    [10.], digits, a slash and a run of characters without whitespace;
    each value that is not empty occurs in the text of the paper element.
    Without a volume dictionary the same holds of the year, a 19xx or 20xx
    token, and of the volume, a run of digits. *)
Theorem journal_record_tokens
    (paper_element : JournalScraper.PaperElement) (journal_info : JournalScraper.JournalInfo)
    (volume_info : option (gmap string string)) (paper : JournalScraper.JournalPaper) :
  JournalScraper.extract_journal_paper_record paper_element journal_info volume_info
  = Some paper ->
  let paper_text := JournalScraper.element_text paper_element in
  Tokens.empty_or_token Tokens.all_digits paper_text (JournalScraper.issue paper)
  /\ Tokens.empty_or_token JournalScraper.pages_token paper_text (JournalScraper.pages paper)
  /\ Tokens.empty_or_token JournalScraper.doi_token paper_text (JournalScraper.doi paper)
  /\ (volume_info = None ->
      Tokens.empty_or_token Tokens.year_token paper_text (JournalScraper.year paper)
      /\ Tokens.empty_or_token Tokens.all_digits paper_text (JournalScraper.volume paper)).
Proof.
  intros Hrecord paper_text.
  destruct (record_fields _ _ _ _ Hrecord) as (_ & Hyear & Hvolume & -> & -> & ->).
  split; [apply search_token, issue_at_token|].
  split; [apply search_token, pages_at_token|].
  split; [apply search_token, doi_at_token|].
  intros ->. cbn [Journals.from_volume_info] in Hyear, Hvolume. rewrite Hyear, Hvolume.
  split; [apply year_from_text_token | apply volume_from_text_token].
Qed.

Lemma journal_record_tokens_witness :
  exists paper,
    JournalScraper.extract_journal_paper_record JournalExamples.article
      {| JournalScraper.name := "TODS"; JournalScraper.issn := "" |} None = Some paper
    /\ JournalScraper.pages paper = "23-34"
    /\ JournalScraper.year paper = "1979"
    /\ Tokens.empty_or_token JournalScraper.doi_token
         (JournalScraper.element_text JournalExamples.article) (JournalScraper.doi paper).
Proof.
  eexists. split; [vm_compute; reflexivity|].
  split; [reflexivity|]. split; [reflexivity|].
  refine (proj1 (proj2 (proj2 (journal_record_tokens JournalExamples.article
                                 {| JournalScraper.name := "TODS"; JournalScraper.issn := "" |}
                                 None _ _)))).
  vm_compute. reflexivity.
Defined.

(** ** Title and authors of a journal record *)

Section RecordNames.
Import Str ConfScraper JournalScraper.

Lemma author_names_trimmed texts :
  Forall (fun n => strip n = n /\ truthy n = true) (author_names texts).
Proof.
  unfold author_names. induction texts as [|t texts IH]; cbn [List.map List.filter];
    [constructor|].
  destruct (truthy (strip t)) eqn:E; [|exact IH].
  constructor; [|exact IH]. split; [apply strip_idem | exact E].
Qed.

(** The names come from one selector: the first, in the order of the
    list, that shows a name. *)
Lemma authors_loop_first paper_element selectors names :
  authors_loop paper_element selectors = Ok names ->
  (names = [] /\ Forall (shows_no_name paper_element) selectors)
  \/ exists before selector after texts,
       selectors = (before ++ selector :: after)%list
       /\ Forall (shows_no_name paper_element) before
       /\ authors_of paper_element selector = Ok texts
       /\ names = author_names texts
       /\ names <> [].
Proof.
  induction selectors as [|selector rest IH]; cbn [authors_loop].
  - intros [= <-]. left. split; [reflexivity | constructor].
  - destruct (authors_of paper_element selector) as [texts|[|]] eqn:E.
    + destruct (author_names texts) as [|n more] eqn:En.
      * intros H.
        assert (shows_no_name paper_element selector) as Hnone
          by (unfold shows_no_name; now rewrite E).
        destruct (IH H) as [[-> Hall]|(before & s & after & t & -> & Hb & Ht & -> & Hne)].
        -- left. split; [reflexivity | now constructor].
        -- right. exists (selector :: before), s, after, t.
           repeat split; [now constructor | exact Ht | exact Hne].
      * intros [= <-]. right. exists [], selector, rest, texts.
        repeat split; [constructor | exact E | now rewrite En | discriminate].
    + intros H.
      assert (shows_no_name paper_element selector) as Hnone
        by (unfold shows_no_name; now rewrite E).
      destruct (IH H) as [[-> Hall]|(before & s & after & t & -> & Hb & Ht & -> & Hne)].
      * left. split; [reflexivity | now constructor].
      * right. exists (selector :: before), s, after, t.
        repeat split; [now constructor | exact Ht | exact Hne].
    + discriminate.
Qed.

Lemma title_loop_trimmed paper_element selectors found :
  title_loop paper_element selectors = Ok found -> strip found = found.
Proof.
  induction selectors as [|selector rest IH]; cbn [title_loop].
  - now intros [= <-].
  - destruct (title_of paper_element selector) as [t|[|]].
    + intros [= <-]. apply strip_idem.
    + exact IH.
    + discriminate.
Qed.

End RecordNames.

(** X24. In a journal record the title has no surrounding whitespace. The
    authors text joins, with ", ", the trimmed non-empty names shown by one
    author selector, the first in the order of the selector list that shows
    any: every selector before it shows none, and the selectors after it
    are not read, so names of different selectors are never mixed. When no
    selector shows a name the authors text is empty. When no name contains a
    comma, splitting the authors text at the commas and trimming gives the
    names back. The journal name is the one of the journal information. *)
Theorem journal_record_names
    (paper_element : JournalScraper.PaperElement) (journal_info : JournalScraper.JournalInfo)
    (volume_info : option (gmap string string)) (paper : JournalScraper.JournalPaper) :
  JournalScraper.extract_journal_paper_record paper_element journal_info volume_info
  = Some paper ->
  Str.strip (JournalScraper.title paper) = JournalScraper.title paper
  /\ JournalScraper.journal_name paper = JournalScraper.name journal_info
  /\ exists names,
       JournalScraper.authors_text paper = String.concat ", " names
       /\ Forall (fun n => Str.strip n = n /\ Str.truthy n = true) names
       /\ ((names = []
            /\ Forall (JournalScraper.shows_no_name paper_element)
                      JournalScraper.author_selectors)
           \/ exists before selector after texts,
                JournalScraper.author_selectors = (before ++ selector :: after)%list
                /\ Forall (JournalScraper.shows_no_name paper_element) before
                /\ JournalScraper.authors_of paper_element selector = ConfScraper.Ok texts
                /\ names = JournalScraper.author_names texts
                /\ names <> [])
       /\ (names <> [] ->
           Forall (fun n => Str.is_in "," n = false) names ->
           List.map Str.strip (Str.split "," (JournalScraper.authors_text paper)) = names).
Proof.
  intros Hrecord.
  pose proof (record_fields _ _ _ _ Hrecord) as (Hname & _).
  unfold JournalScraper.extract_journal_paper_record in Hrecord.
  destruct (JournalScraper.title_loop paper_element JournalScraper.title_selectors)
    as [found|] eqn:Et; [|discriminate].
  destruct (JournalScraper.authors_loop paper_element JournalScraper.author_selectors)
    as [names|] eqn:Ea; [|discriminate].
  destruct (JournalScraper.paper_href paper_element); [|discriminate].
  injection Hrecord as <-. cbn [JournalScraper.title JournalScraper.authors_text].
  split; [|split; [exact Hname|]].
  - destruct (Str.truthy found); [|apply strip_idem].
    apply (title_loop_trimmed _ _ _ Et).
  - exists names. split; [reflexivity|].
    pose proof (authors_loop_first _ _ _ Ea) as Hone.
    assert (Forall (fun n => Str.strip n = n /\ Str.truthy n = true) names) as Htrim.
    { destruct Hone as [[-> _]|(before & selector & after & texts & _ & _ & _ & -> & _)];
        [constructor | apply author_names_trimmed]. }
    split; [exact Htrim|]. split; [exact Hone|].
    intros Hne Hcomma. apply trimmed_names_split_back; [|exact Hne].
    apply List.Forall_forall. intros n Hn.
    rewrite List.Forall_forall in Htrim, Hcomma.
    split; [apply (Htrim n Hn) | apply (Hcomma n Hn)].
Qed.

Lemma journal_record_names_witness :
  exists paper,
    JournalScraper.extract_journal_paper_record JournalExamples.two_lists
      {| JournalScraper.name := "TODS"; JournalScraper.issn := "" |} None = Some paper
    /\ JournalScraper.title paper = "Access Path Selection."
    /\ JournalScraper.authors_text paper = "P. Selinger"
    /\ Str.strip (JournalScraper.title paper) = JournalScraper.title paper.
Proof.
  eexists. split; [vm_compute; reflexivity|].
  split; [reflexivity|]. split; [reflexivity|].
  refine (proj1 (journal_record_names JournalExamples.two_lists
                   {| JournalScraper.name := "TODS"; JournalScraper.issn := "" |}
                   None _ _)).
  vm_compute. reflexivity.
Defined.
